(** * DevLab: scenario lifecycle manager, container runtime client,
    metadata store, cleanup worker and directory tree builder.

  A shallow embedding of the Go sources

    - internal/scenario/scenario.go   (Manager, parseDirectoryStructure)
    - internal/storage/mongo.go       (Scenario, StoreScenario, ...)
    - internal/docker/docker.go       (Client, RealClient, findAvailablePort)
    - internal/cleanup/cleanup.go     (CleanupManager)

  Go strings are byte strings ([string]); Go [int] and [time.Time] values
  are integers ([Z]); Go errors are a small inductive type that keeps the
  wrapping chain [errors.Is] walks; the container engine and the database
  are explicit state, and every call that leaves the process may fail, as
  decided by an oracle the theorems quantify over. *)

From Stdlib Require Import ZArith NArith Ascii String List Bool Lia.
From stdpp Require Import base option list strings gmap pretty.

Local Open Scope Z_scope.

(* ===================================================================== *)
(** * Go's [strings] and [path/filepath] functions used by the sources    *)
(* ===================================================================== *)

Module GoStrings.

Definition byte (c : ascii) : N := N_of_ascii c.

(** [unicode.IsSpace], seen through UTF-8.  The white-space runes are
    U+0009..U+000D, U+0020, U+0085, U+00A0, U+1680, U+2000..U+200A,
    U+2028, U+2029, U+202F, U+205F and U+3000.  Their encodings start
    with a byte that is never a continuation byte, so wherever such an
    encoding stands in a byte string Go's decoder reads exactly that
    rune there. *)
Definition isSpace1 (a : ascii) : bool :=
  match byte a with
  | 9 | 10 | 11 | 12 | 13 | 32 => true
  | _ => false
  end%N.

Definition isSpace2 (a b : ascii) : bool :=
  ((byte a =? 0xC2) && ((byte b =? 0x85) || (byte b =? 0xA0)))%N.

Definition isSpace3 (a b c : ascii) : bool :=
  (((byte a =? 0xE1) && (byte b =? 0x9A) && (byte c =? 0x80))
   || ((byte a =? 0xE2) && (byte b =? 0x80)
       && (((0x80 <=? byte c) && (byte c <=? 0x8A))
           || (byte c =? 0xA8) || (byte c =? 0xA9) || (byte c =? 0xAF)))
   || ((byte a =? 0xE2) && (byte b =? 0x81) && (byte c =? 0x9F))
   || ((byte a =? 0xE3) && (byte b =? 0x80) && (byte c =? 0x80)))%N.

(** A byte string read left to right: a white-space rune (with the bytes
    that encode it) or one byte of anything else. *)
Inductive item : Type :=
| Sp (w : string)
| Ch (c : ascii).

Fixpoint lex (s : string) : list item :=
  match s with
  | EmptyString => []
  | String a s1 =>
      if isSpace1 a then Sp (String a EmptyString) :: lex s1
      else
        match s1 with
        | String b s2 =>
            if isSpace2 a b then Sp (String a (String b EmptyString)) :: lex s2
            else
              match s2 with
              | String c s3 =>
                  if isSpace3 a b c
                  then Sp (String a (String b (String c EmptyString))) :: lex s3
                  else Ch a :: lex s1
              | EmptyString => Ch a :: lex s1
              end
        | EmptyString => Ch a :: lex s1
        end
  end.

Definition item_bytes (i : item) : string :=
  match i with
  | Sp w => w
  | Ch c => String c EmptyString
  end.

Definition unlex (l : list item) : string :=
  fold_right (fun i acc => item_bytes i +:+ acc) EmptyString l.

Definition is_sp (i : item) : bool :=
  match i with Sp _ => true | Ch _ => false end.

Fixpoint drop_spaces (l : list item) : list item :=
  match l with
  | Sp _ :: l' => drop_spaces l'
  | _ => l
  end.

(** [strings.TrimSpace]: the string without its leading and trailing
    white-space runes. *)
Definition trim_items (l : list item) : list item :=
  rev (drop_spaces (rev (drop_spaces l))).

Definition TrimSpace (s : string) : string := unlex (trim_items (lex s)).

(** [strings.Fields]: the maximal runs of bytes that are not part of a
    white-space rune. *)
Fixpoint fields_items (l : list item) : list string :=
  match l with
  | [] => []
  | Sp _ :: l' => fields_items l'
  | Ch c :: l' =>
      match l' with
      | Ch _ :: _ =>
          match fields_items l' with
          | f :: fs => String c f :: fs
          | [] => [String c EmptyString]
          end
      | _ => String c EmptyString :: fields_items l'
      end
  end.

Definition Fields (s : string) : list string := fields_items (lex s).

(** [strings.Split(s, sep)] for a one-byte separator: always at least one
    piece. *)
Fixpoint SplitByte (sep : ascii) (s : string) : list string :=
  match s with
  | EmptyString => [EmptyString]
  | String c s' =>
      if Ascii.eqb c sep then EmptyString :: SplitByte sep s'
      else
        match SplitByte sep s' with
        | x :: xs => String c x :: xs
        | [] => [String c EmptyString]
        end
  end.

Definition newline : ascii := "010"%char.
Definition slash : ascii := "/"%char.

(** [strings.HasPrefix]. *)
Definition HasPrefix (s pre : string) : bool := String.prefix pre s.

(** [strings.Join]. *)
Fixpoint Join (l : list string) (sep : string) : string :=
  match l with
  | [] => EmptyString
  | [x] => x
  | x :: xs => x +:+ sep +:+ Join xs sep
  end.

(** ** [filepath.Clean] and [filepath.Dir] (Unix) *)

(** The path up to and including its last separator. *)
Fixpoint upto_last_slash (s : string) : string :=
  match s with
  | EmptyString => EmptyString
  | String c s' =>
      let r := upto_last_slash s' in
      if Ascii.eqb c slash || negb (String.eqb r EmptyString)
      then String c r else EmptyString
  end.

(** One path element against the elements kept so far (last one first):
    empty and dot elements vanish, a dot-dot element removes the element
    before it, stays when the path is relative and nothing is left to
    remove, and vanishes at the root. *)
Definition clean_step (rooted : bool) (stack : list string) (el : string)
  : list string :=
  if String.eqb el EmptyString then stack
  else if String.eqb el "." then stack
  else if String.eqb el ".." then
    match stack with
    | top :: rest =>
        if String.eqb top ".." then el :: stack else rest
    | [] => if rooted then [] else [el]
    end
  else el :: stack.

Definition Clean (path : string) : string :=
  let rooted := HasPrefix path "/" in
  let stack := fold_left (clean_step rooted) (SplitByte slash path) [] in
  let body := Join (rev stack) "/" in
  let out := if rooted then "/" +:+ body else body in
  if String.eqb out EmptyString then "." else out.

Definition Dir (path : string) : string := Clean (upto_last_slash path).

End GoStrings.

Import GoStrings.

(* ===================================================================== *)
(** * Go errors                                                            *)
(* ===================================================================== *)

(** The package-level error variables of the repository (each an
    [errors.New] value, compared by identity), the driver's
    [mongo.ErrNoDocuments], and the engine's not-found answer that
    [client.IsErrNotFound] recognises. *)
Inductive sentinel : Type :=
| scenario_ErrScenarioNotFound
| scenario_ErrScenarioNotRunning
| scenario_ErrScenarioAlreadyStopped
| scenario_ErrInvalidScenarioID
| scenario_ErrDatabaseUnavailable
| storage_ErrScenarioNotFound
| storage_ErrDatabaseNil
| storage_ErrInvalidScenario
| docker_ErrContainerNotFound
| docker_ErrContainerNotRunning
| docker_ErrPortUnavailable
| docker_ErrTTYDFailedToStart
| docker_ErrInvalidScenarioType
| docker_ErrDockerDaemonUnavailable
| mongo_ErrNoDocuments
| engine_NotFound.

#[global] Instance sentinel_eq_dec : EqDecision sentinel.
Proof. solve_decision. Defined.

(** An error value: a variable; [fmt.Errorf] with a [%w] verb around
    another error (the text is kept as a label, without the formatted
    arguments); or an error that wraps nothing ([errors.New] in place,
    [fmt.Errorf] without [%w], a failure reported by a driver). *)
Inductive error : Type :=
| ErrVar (s : sentinel)
| Errorf_w (label : string) (inner : error)
| ErrText (label : string).

(** [errors.Is (err, target)] for a target that is an error variable. *)
Fixpoint errors_Is (err : error) (target : sentinel) : bool :=
  match err with
  | ErrVar s => bool_decide (s = target)
  | Errorf_w _ inner => errors_Is inner target
  | ErrText _ => false
  end.

(** A Go result pair [(value, err)] whose value is only read when [err]
    is [nil]. *)
Inductive result (A : Type) : Type :=
| Ok (a : A)
| Err (e : error).
Arguments Ok {A} a.
Arguments Err {A} e.

(** [context.Context] as the guards of the sources see it. *)
Inductive Context_ : Type :=
| nil_ctx
| ctx_background.

(* ===================================================================== *)
(** * internal/types and the Directory Tree Builder (scenario.go)          *)
(* ===================================================================== *)

Module types.

Record FileNode : Type := mkFileNode {
  Path : string;
  Type_ : string;
  IsRoot : bool;
  Children : list string;
  Content : string;
  IsOpen : bool;
  IsSaved : bool
}.

#[global] Instance FileNode_eq_dec : EqDecision FileNode.
Proof. solve_decision. Defined.

End types.

Module tree.
Import types.

Definition workspace_root : string := "/home/devlab".

(** [getNodeType] *)
Definition getNodeType (findType : string) : string :=
  if String.eqb findType "d" then "folder"
  else if String.eqb findType "f" then "file"
  else "file".

(** [getParentPath] *)
Definition getParentPath (path : string) : string :=
  let dir := Dir path in
  if String.eqb dir "." then "/home/devlab" else dir.

Definition cachePatterns : list string :=
  [ "/home/devlab/.cache"; "/home/devlab/go/pkg/mod"; "/home/devlab/.config";
    "/home/devlab/.local"; "/home/devlab/.npm"; "/home/devlab/.pip";
    "/home/devlab/.conda"; "/home/devlab/.m2"; "/home/devlab/.gradle";
    "/home/devlab/.ivy2"; "/home/devlab/.sbt"; "/home/devlab/.cargo";
    "/home/devlab/.rustup"; "/home/devlab/.node_modules"; "/home/devlab/.yarn";
    "/home/devlab/.bundle"; "/home/devlab/.gem"; "/home/devlab/.pub-cache";
    "/home/devlab/.dart"; "/home/devlab/.flutter" ].

(** [shouldSkipPath] *)
Definition shouldSkipPath (path : string) : bool :=
  existsb (fun pattern => HasPrefix path pattern) cachePatterns.

(** The locals of [parseDirectoryStructure]: the slice [structure], which
    holds node VALUES ([append(structure, *node)] copies the struct the
    pointer refers to), and [pathMap], which holds the pointers; the map
    below is the heap they point into, one cell per path. *)
Record locals : Type := mkLocals {
  structure : list FileNode;
  pathMap : gmap string FileNode
}.

(** The body of the first loop, for one line. *)
Definition first_pass_line (st : locals) (line : string) : locals :=
  if String.eqb (TrimSpace line) EmptyString then st
  else
    match Fields line with
    | [path; fileType] =>
        if negb (HasPrefix path "/home/devlab") then st
        else if shouldSkipPath path then st
        else
          let node := {| Path := path;
                         Type_ := getNodeType fileType;
                         IsRoot := String.eqb path "/home/devlab";
                         Children := [];
                         Content := EmptyString;
                         IsOpen := false;
                         IsSaved := true |} in
          {| structure := structure st ++ [node];
             pathMap := <[path := node]> (pathMap st) |}
    | _ => st
    end.

(** The body of the second loop, for one key of [pathMap]: the append goes
    through the pointer, into the heap cell of the parent. *)
Definition second_pass_key (st : locals) (path : string) : locals :=
  if String.eqb path "/home/devlab" then st
  else
    let parentPath := getParentPath path in
    match pathMap st !! parentPath with
    | Some parent =>
        let parent' := {| Path := Path parent;
                          Type_ := Type_ parent;
                          IsRoot := IsRoot parent;
                          Children := Children parent ++ [path];
                          Content := Content parent;
                          IsOpen := IsOpen parent;
                          IsSaved := IsSaved parent |} in
        {| structure := structure st;
           pathMap := <[parentPath := parent']> (pathMap st) |}
    | None => st
    end.

(** Go leaves the order of [for path := range pathMap] open: [order] is
    the order the runtime picks for a given map. *)
Definition map_order : Type := gmap string FileNode -> list string.

Definition keys_order : map_order := fun m => (map_to_list m).*1.

(** The locals when [parseDirectoryStructure] reaches its [return]. *)
Definition parse_locals (order : map_order) (output : string) : locals :=
  let lines := SplitByte newline (TrimSpace output) in
  let st1 := fold_left first_pass_line lines
               {| structure := []; pathMap := ∅ |} in
  fold_left second_pass_key (order (pathMap st1)) st1.

(** [parseDirectoryStructure]: the slice and the error it returns. *)
Definition parseDirectoryStructure (order : map_order) (output : string)
  : list FileNode * option error :=
  let lines := SplitByte newline (TrimSpace output) in
  if (length lines =? 0)%nat then ([], None)
  else (structure (parse_locals order output), None).

(** The text [find /home/devlab ... -printf "%p %y\n"] prints for a
    listing: one line per entry, each ended by a newline. *)
Definition listing_text (entries : list string) : string :=
  fold_right (fun l acc => l +:+ String newline acc) EmptyString entries.

Definition entry (path ty : string) : string := path +:+ " " +:+ ty.

End tree.

(* ===================================================================== *)
(** * State, outside calls and time                                        *)
(* ===================================================================== *)

(** Code that talks to the database or the container engine runs in a
    state monad over the state of the world. *)
Definition state (S A : Type) : Type := S -> A * S.

Definition ret {S A} (a : A) : state S A := fun s => (a, s).

Definition bind {S A B} (m : state S A) (f : A -> state S B) : state S B :=
  fun s => let '(a, s') := m s in f a s'.

Notation "x <- m ;; k" := (bind m (fun x => k))
  (at level 20, m at level 99, k at level 200, only parsing).
Notation "' pat <- m ;; k" := (bind m (fun x => let 'pat := x in k))
  (at level 20, pat pattern, m at level 99, k at level 200, only parsing).

Definition gets {S A} (f : S -> A) : state S A := fun s => (f s, s).
Definition modify {S} (f : S -> S) : state S unit := fun s => (tt, f s).

(* ===================================================================== *)
(** * internal/storage (mongo.go)                                          *)
(* ===================================================================== *)

Module storage.

(** [time.Time] is an integer instant, in nanoseconds; [0] is the zero
    time ([IsZero]).  [time.Duration] is an integer as well. *)
Record Scenario : Type := mkScenario {
  ScenarioID : string;
  UserID : string;
  ScenarioType : string;
  ContainerID : string;
  Status : string;
  TerminalPort : Z;
  CreatedAt : Z;
  UpdatedAt : Z
}.

#[global] Instance Scenario_eq_dec : EqDecision Scenario.
Proof. solve_decision. Defined.

(** [*mongo.Database]: [nil] or a handle. *)
Inductive Database : Type :=
| nil_db
| db_handle.

(** The calls the sources make on the collection [scenarios], and the two
    calls [getScenarioContainerIDs] makes on its cursor for the [i]-th
    document of the answer. *)
Inductive store_call : Type :=
| InsertOne (scenario_id : string)
| FindOne (scenario_id : string)
| UpdateOne (scenario_id : string)
| FindExpired
| FindWithContainer
| CursorNext (i : nat)
| CursorDecode (i : nat).

(** What the process cannot decide: whether an outside call fails when it
    is the [n]-th one, and what the wall clock shows then. *)
Record Env : Type := mkEnv {
  store_fails : nat -> store_call -> bool;
  clock : nat -> Z
}.

(** The world a manager works in: the state of its container runtime, the
    documents of the collection in their natural order, and the number of
    database and clock calls made so far. *)
Record World (R : Type) : Type := mkWorld {
  runtime : R;
  collection : list Scenario;
  steps : nat
}.
Arguments mkWorld {R} _ _ _.
Arguments runtime {R} _.
Arguments collection {R} _.
Arguments steps {R} _.

Section Storage.
Context {R : Type} (env : Env).

Definition tick (w : World R) : World R :=
  mkWorld (runtime w) (collection w) (S (steps w)).

(** [time.Now ()] *)
Definition time_Now : state (World R) Z :=
  fun w => (clock env (steps w), tick w).

(** Does this call on the collection fail? *)
Definition store_op (c : store_call) : state (World R) bool :=
  fun w => (store_fails env (steps w) c, tick w).

Definition set_collection (docs : list Scenario) : state (World R) unit :=
  fun w => (tt, mkWorld (runtime w) docs (steps w)).

(** The first document with this [scenario_id]. *)
Fixpoint find_first (sid : string) (docs : list Scenario) : option Scenario :=
  match docs with
  | [] => None
  | d :: ds => if decide (ScenarioID d = sid) then Some d else find_first sid ds
  end.

(** A [time.Time] in a document is a BSON datetime, which holds whole
    milliseconds: the instant that is written, and read back, for [t]
    (the driver writes [t.Unix()*1000 + t.Nanosecond()/1e6]). *)
Definition millisecond : Z := 1000000.

Definition to_datetime (t : Z) : Z := millisecond * (t / millisecond).

(** The document [InsertOne] writes for [s]: the [omitempty] fields that
    hold their zero value are left out and read back as zero. *)
Definition to_document (s : Scenario) : Scenario :=
  {| ScenarioID := ScenarioID s;
     UserID := UserID s;
     ScenarioType := ScenarioType s;
     ContainerID := ContainerID s;
     Status := Status s;
     TerminalPort := TerminalPort s;
     CreatedAt := to_datetime (CreatedAt s);
     UpdatedAt := to_datetime (UpdatedAt s) |}.

(** [$set] with the fields of [s]: the [omitempty] fields of [s] that hold
    their zero value are not part of the update. *)
Definition apply_set (old s : Scenario) : Scenario :=
  {| ScenarioID := ScenarioID s;
     UserID := UserID s;
     ScenarioType := ScenarioType s;
     ContainerID := ContainerID s;
     Status := Status s;
     TerminalPort := if TerminalPort s =? 0 then TerminalPort old else TerminalPort s;
     CreatedAt := if CreatedAt s =? 0 then CreatedAt old else to_datetime (CreatedAt s);
     UpdatedAt := if UpdatedAt s =? 0 then UpdatedAt old else to_datetime (UpdatedAt s) |}.

(** [UpdateOne]: the first document that matches the filter. *)
Fixpoint update_first (sid : string) (s : Scenario) (docs : list Scenario)
  : list Scenario :=
  match docs with
  | [] => []
  | d :: ds =>
      if decide (ScenarioID d = sid) then apply_set d s :: ds
      else d :: update_first sid s ds
  end.

(** [StoreScenario].  The function makes no check of its own for an id the
    collection already holds: an [InsertOne] that the driver accepts adds
    the document.  (A collection with a unique index on [scenario_id]
    refuses such an insert: that is a call that fails.) *)
Definition StoreScenario (ctx : Context_) (db : Database) (s : option Scenario)
  : state (World R) (option error) :=
  match db with
  | nil_db => ret (Some (Errorf_w "%w" (ErrVar storage_ErrDatabaseNil)))
  | db_handle =>
      match s with
      | None =>
          ret (Some (Errorf_w "%w: scenario cannot be nil" (ErrVar storage_ErrInvalidScenario)))
      | Some s =>
          if String.eqb (ScenarioID s) EmptyString
          then ret (Some (Errorf_w "%w: scenario ID cannot be empty"
                             (ErrVar storage_ErrInvalidScenario)))
          else
            failed <- store_op (InsertOne (ScenarioID s));;
            docs <- gets collection;;
            if failed
            then ret (Some (Errorf_w "failed to store scenario: %w" (ErrText "InsertOne")))
            else
              _ <- set_collection (docs ++ [to_document s]);;
              ret None
      end
  end.

(** [GetScenario] *)
Definition GetScenario (ctx : Context_) (db : Database) (scenarioID : string)
  : state (World R) (result Scenario) :=
  match db with
  | nil_db => ret (Err (Errorf_w "%w" (ErrVar storage_ErrDatabaseNil)))
  | db_handle =>
      if String.eqb scenarioID EmptyString
      then ret (Err (Errorf_w "%w: scenario ID cannot be empty"
                        (ErrVar storage_ErrInvalidScenario)))
      else
        failed <- store_op (FindOne scenarioID);;
        docs <- gets collection;;
        if failed
        then ret (Err (Errorf_w "failed to get scenario: %w" (ErrText "FindOne")))
        else
          match find_first scenarioID docs with
          | None => ret (Err (Errorf_w "%w: %s" (ErrVar storage_ErrScenarioNotFound)))
          | Some d => ret (Ok d)
          end
  end.

(** [UpdateScenario].  The function stamps [s.UpdatedAt] itself; an update
    that matches no document is no error. *)
Definition UpdateScenario (ctx : Context_) (db : Database) (s : option Scenario)
  : state (World R) (option error) :=
  match db with
  | nil_db => ret (Some (Errorf_w "%w" (ErrVar storage_ErrDatabaseNil)))
  | db_handle =>
      match s with
      | None =>
          ret (Some (Errorf_w "%w: scenario cannot be nil" (ErrVar storage_ErrInvalidScenario)))
      | Some s =>
          if String.eqb (ScenarioID s) EmptyString
          then ret (Some (Errorf_w "%w: scenario ID cannot be empty"
                             (ErrVar storage_ErrInvalidScenario)))
          else
            now <- time_Now;;
            let s := {| ScenarioID := ScenarioID s; UserID := UserID s;
                        ScenarioType := ScenarioType s; ContainerID := ContainerID s;
                        Status := Status s; TerminalPort := TerminalPort s;
                        CreatedAt := CreatedAt s; UpdatedAt := now |} in
            failed <- store_op (UpdateOne (ScenarioID s));;
            docs <- gets collection;;
            if failed
            then ret (Some (Errorf_w "failed to update scenario: %w" (ErrText "UpdateOne")))
            else
              _ <- set_collection (update_first (ScenarioID s) s docs);;
              ret None
      end
  end.

End Storage.

(** The status the collection holds for a scenario id. *)
Definition persisted_status {R} (w : World R) (sid : string) : option string :=
  Status <$> find_first sid (collection w).

End storage.

(* ===================================================================== *)
(** * internal/docker (docker.go)                                          *)
(* ===================================================================== *)

Module docker.

(** [ContainerInfo] *)
Record ContainerInfo : Type := mkContainerInfo {
  ID : string;
  Name : string;
  Status : string
}.

(** The interface [Client]: every method works on the state [R] of some
    container runtime. *)
Class Client (R : Type) : Type := mkClient {
  StartScenarioContainer : Context_ -> string -> string -> state R (result (string * Z));
  GetContainerStatus : Context_ -> string -> state R (result string);
  GetTerminalURL : Context_ -> string -> state R (result string);
  StopContainer : Context_ -> string -> state R (option error);
  ContainerExists : Context_ -> string -> state R (result bool);
  ExecuteCommand : Context_ -> string -> list string -> state R (result string);
  ListContainers : Context_ -> state R (result (list ContainerInfo));
  RemoveContainer : Context_ -> string -> state R (option error)
}.

(** ** [findAvailablePort] *)

(** The loop [for port := 3001; port < 3010; port++], with the test of
    the loop written out; [listen port] is whether [net.Listen] on the port
    succeeds.  The result comes with the ports probed, in order; [None]
    means the fuel ran out before the loop ended. *)
Fixpoint findAvailablePort_loop (fuel : nat) (listen : Z -> bool) (port : Z)
  : option (result Z * list Z) :=
  match fuel with
  | O => None
  | S fuel' =>
      if port <? 3010 then
        if listen port then Some (Ok port, [port])
        else
          match findAvailablePort_loop fuel' listen (port + 1) with
          | Some (r, probed) => Some (r, port :: probed)
          | None => None
          end
      else
        Some (Err (Errorf_w "%w: no available ports found in range 3001-3009"
                     (ErrVar docker_ErrPortUnavailable)), [])
  end.

Definition findAvailablePort (listen : Z -> bool) : result Z :=
  match findAvailablePort_loop 10 listen 3001 with
  | Some (r, _) => r
  | None => Err (ErrText "findAvailablePort: the loop did not end")
  end.

(** ** The container engine behind [RealClient] *)

Record PortBinding : Type := mkPortBinding {
  HostIP : string;
  HostPort : string
}.

(** What [ContainerInspect] and [ContainerList] show of a container:
    [State.Status]; [NetworkSettings.Ports] ([None] when the settings or the
    map are [nil]); the names and the status line of the listing. *)
Record Container : Type := mkContainer {
  State_Status : string;
  Ports : option (gmap string (list PortBinding));
  Names : list string;
  Summary : string
}.

Inductive engine_api : Type :=
| NewClientWithOpts
| ContainerInspect
| ContainerStop
| ContainerRemove
| ContainerCreate
| ContainerStart
| ContainerLogs
| ContainerList
| ContainerExecCreate
| ContainerExecAttach
| ReadAll
| ContainerExecInspect.

(** What [RealClient] cannot decide: whether the [n]-th call to the engine
    fails (the API called, and the container the method was called for);
    which ports are free, which id a new container gets, what state a
    started container is in five seconds later, and what a command prints
    and exits with. *)
Record EngineEnv : Type := mkEngineEnv {
  engine_fails : nat -> engine_api -> string -> bool;
  port_free : nat -> Z -> bool;
  new_container_id : nat -> string;
  state_after_start : nat -> string;
  exec_result : nat -> string -> list string -> string * Z
}.

(** The engine: its containers by id, and the number of calls so far. *)
Record Engine : Type := mkEngine {
  containers : gmap string Container;
  calls : nat
}.

Section RealClient.
Context (ee : EngineEnv).

Definition engine_op (api : engine_api) (target : string) : state Engine bool :=
  fun e => (engine_fails ee (calls e) api target,
            mkEngine (containers e) (S (calls e))).

Definition set_containers (f : gmap string Container -> gmap string Container)
  : state Engine unit :=
  fun e => (tt, mkEngine (f (containers e)) (calls e)).

(** [cli.ContainerInspect]: a failure of the call, the engine's not-found
    answer, or the container. *)
Definition inspect (target : string) : state Engine (result Container) :=
  failed <- engine_op ContainerInspect target;;
  cs <- gets containers;;
  if failed then ret (Err (ErrText "ContainerInspect"))
  else
    match cs !! target with
    | None => ret (Err (ErrVar engine_NotFound))
    | Some c => ret (Ok c)
    end.

(** [client.IsErrNotFound] *)
Definition IsErrNotFound (err : error) : bool := errors_Is err engine_NotFound.

Definition with_state (st : string) (c : Container) : Container :=
  mkContainer st (Ports c) (Names c) (Summary c).

(** [cli.ContainerStop]: the container ends up exited. *)
Definition stop (target : string) : state Engine (option error) :=
  failed <- engine_op ContainerStop target;;
  if failed then ret (Some (ErrText "ContainerStop"))
  else
    _ <- set_containers (fun cs => alter (with_state "exited") target cs);;
    ret None.

(** [cli.ContainerRemove] *)
Definition remove (target : string) : state Engine (option error) :=
  failed <- engine_op ContainerRemove target;;
  if failed then ret (Some (ErrText "ContainerRemove"))
  else
    _ <- set_containers (fun cs => delete target cs);;
    ret None.

Definition image_for (scenarioType : string) : string :=
  if String.eqb scenarioType "go" then "devlab-go:latest"
  else if String.eqb scenarioType "docker" then "devlab-docker:latest"
  else if String.eqb scenarioType "k8s" then "devlab-k8s:latest"
  else if String.eqb scenarioType "python" then "devlab-python:latest"
  else if String.eqb scenarioType "go-k8s" then "devlab-go-k8s:latest"
  else if String.eqb scenarioType "python-k8s" then "devlab-python-k8s:latest"
  else "devlab-go:latest".

(** [RealClient.StartScenarioContainer] *)
Definition Real_StartScenarioContainer (ctx : Context_) (scenarioType script : string)
  : state Engine (result (string * Z)) :=
  match ctx with
  | nil_ctx => ret (Err (ErrText "nil context provided"))
  | ctx_background =>
      failed <- engine_op NewClientWithOpts EmptyString;;
      if failed
      then ret (Err (Errorf_w "%w: %v" (ErrVar docker_ErrDockerDaemonUnavailable)))
      else if String.eqb scenarioType EmptyString
      then ret (Err (Errorf_w "%w: scenario type cannot be empty"
                       (ErrVar docker_ErrInvalidScenarioType)))
      else
        let image := image_for scenarioType in
        n <- gets calls;;
        match findAvailablePort (port_free ee n) with
        | Err _ => ret (Err (Errorf_w "%w: %v" (ErrVar docker_ErrPortUnavailable)))
        | Ok hostPort =>
            failed <- engine_op ContainerCreate EmptyString;;
            if failed
            then ret (Err (Errorf_w "failed to create container: %w"
                             (ErrText "ContainerCreate")))
            else
              let id := new_container_id ee n in
              let bindings : gmap string (list PortBinding) :=
                {[ "3000/tcp" := [mkPortBinding "0.0.0.0" (pretty hostPort)] ]} in
              _ <- set_containers
                     (fun cs => <[id := mkContainer "created" (Some bindings) [] "Created"]> cs);;
              failed <- engine_op ContainerStart id;;
              if failed
              then
                _ <- remove id;;
                ret (Err (Errorf_w "failed to start container: %w"
                            (ErrText "ContainerStart")))
              else
                _ <- set_containers
                       (fun cs => alter (with_state (state_after_start ee n)) id cs);;
                r <- inspect id;;
                match r with
                | Err e =>
                    ret (Err (Errorf_w "failed to verify container status: %w" e))
                | Ok containerInfo =>
                    if negb (String.eqb (State_Status containerInfo) "running")
                    then
                      _ <- engine_op ContainerLogs id;;
                      ret (Err (Errorf_w "%w: container exited unexpectedly"
                                  (ErrVar docker_ErrTTYDFailedToStart)))
                    else ret (Ok (id, hostPort))
                end
        end
  end.

(** [RealClient.GetContainerStatus] *)
Definition Real_GetContainerStatus (ctx : Context_) (containerID : string)
  : state Engine (result string) :=
  match ctx with
  | nil_ctx => ret (Err (ErrText "nil context provided"))
  | ctx_background =>
      if String.eqb containerID EmptyString
      then ret (Err (ErrText "container ID cannot be empty"))
      else
        failed <- engine_op NewClientWithOpts containerID;;
        if failed
        then ret (Err (Errorf_w "%w: %v" (ErrVar docker_ErrDockerDaemonUnavailable)))
        else
          r <- inspect containerID;;
          match r with
          | Err _ => ret (Err (Errorf_w "%w: %v" (ErrVar docker_ErrContainerNotFound)))
          | Ok containerInfo => ret (Ok (State_Status containerInfo))
          end
  end.

(** [RealClient.GetTerminalURL] *)
Definition Real_GetTerminalURL (ctx : Context_) (containerID : string)
  : state Engine (result string) :=
  match ctx with
  | nil_ctx => ret (Err (ErrText "nil context provided"))
  | ctx_background =>
      if String.eqb containerID EmptyString
      then ret (Err (ErrText "container ID cannot be empty"))
      else
        failed <- engine_op NewClientWithOpts containerID;;
        if failed
        then ret (Err (Errorf_w "%w: %v" (ErrVar docker_ErrDockerDaemonUnavailable)))
        else
          r <- inspect containerID;;
          match r with
          | Err _ => ret (Err (Errorf_w "%w: %v" (ErrVar docker_ErrContainerNotFound)))
          | Ok containerInfo =>
              if negb (String.eqb (State_Status containerInfo) "running")
              then ret (Err (Errorf_w "%w: container status is %s"
                               (ErrVar docker_ErrContainerNotRunning)))
              else
                match Ports containerInfo with
                | None => ret (Err (ErrText "no port mappings found for container %s"))
                | Some ports =>
                    match ports !! "3000/tcp" with
                    | None | Some [] =>
                        ret (Err (ErrText "port 3000 not mapped for container %s"))
                    | Some (binding :: _) =>
                        let hostIP := if String.eqb (HostIP binding) EmptyString
                                      then "localhost" else HostIP binding in
                        ret (Ok ("http://" +:+ hostIP +:+ ":" +:+ HostPort binding))
                    end
                end
          end
  end.

(** [RealClient.StopContainer] *)
Definition Real_StopContainer (ctx : Context_) (containerID : string)
  : state Engine (option error) :=
  match ctx with
  | nil_ctx => ret (Some (ErrText "nil context provided"))
  | ctx_background =>
      if String.eqb containerID EmptyString
      then ret (Some (ErrText "container ID cannot be empty"))
      else
        failed <- engine_op NewClientWithOpts containerID;;
        if failed
        then ret (Some (Errorf_w "%w: %v" (ErrVar docker_ErrDockerDaemonUnavailable)))
        else
          r <- inspect containerID;;
          match r with
          | Err err =>
              if IsErrNotFound err
              then ret (Some (Errorf_w "%w: container %s" (ErrVar docker_ErrContainerNotFound)))
              else ret (Some (Errorf_w "failed to check container existence: %w" err))
          | Ok containerInfo =>
              if String.eqb (State_Status containerInfo) "exited"
                 || String.eqb (State_Status containerInfo) "stopped"
              then
                r <- remove containerID;;
                match r with
                | Some err =>
                    ret (Some (Errorf_w "failed to remove stopped container: %w" err))
                | None => ret None
                end
              else
                r <- stop containerID;;
                match r with
                | Some err => ret (Some (Errorf_w "failed to stop container: %w" err))
                | None =>
                    r <- remove containerID;;
                    match r with
                    | Some err => ret (Some (Errorf_w "failed to remove container: %w" err))
                    | None => ret None
                    end
                end
          end
  end.

(** [RealClient.ContainerExists] *)
Definition Real_ContainerExists (ctx : Context_) (containerID : string)
  : state Engine (result bool) :=
  match ctx with
  | nil_ctx => ret (Err (ErrText "nil context provided"))
  | ctx_background =>
      if String.eqb containerID EmptyString
      then ret (Err (ErrText "container ID cannot be empty"))
      else
        failed <- engine_op NewClientWithOpts containerID;;
        if failed
        then ret (Err (Errorf_w "%w: %v" (ErrVar docker_ErrDockerDaemonUnavailable)))
        else
          r <- inspect containerID;;
          match r with
          | Err err =>
              if IsErrNotFound err then ret (Ok false)
              else ret (Err (Errorf_w "failed to inspect container: %w" err))
          | Ok _ => ret (Ok true)
          end
  end.

(** [RealClient.ExecuteCommand] *)
Definition Real_ExecuteCommand (ctx : Context_) (containerID : string)
    (command : list string) : state Engine (result string) :=
  match ctx with
  | nil_ctx => ret (Err (ErrText "nil context provided"))
  | ctx_background =>
      if String.eqb containerID EmptyString
      then ret (Err (ErrText "container ID cannot be empty"))
      else if (length command =? 0)%nat
      then ret (Err (ErrText "command cannot be empty"))
      else
        failed <- engine_op NewClientWithOpts containerID;;
        if failed
        then ret (Err (Errorf_w "%w: %v" (ErrVar docker_ErrDockerDaemonUnavailable)))
        else
          r <- inspect containerID;;
          match r with
          | Err _ => ret (Err (Errorf_w "%w: %v" (ErrVar docker_ErrContainerNotFound)))
          | Ok containerInfo =>
              if negb (String.eqb (State_Status containerInfo) "running")
              then ret (Err (Errorf_w "%w: container status is %s"
                               (ErrVar docker_ErrContainerNotRunning)))
              else
                n <- gets calls;;
                let '(output, exitCode) := exec_result ee n containerID command in
                failed <- engine_op ContainerExecCreate containerID;;
                if failed
                then ret (Err (Errorf_w "failed to create exec: %w" (ErrText "ContainerExecCreate")))
                else
                  failed <- engine_op ContainerExecAttach containerID;;
                  if failed
                  then ret (Err (Errorf_w "failed to attach to exec: %w"
                                   (ErrText "ContainerExecAttach")))
                  else
                    failed <- engine_op ReadAll containerID;;
                    if failed
                    then ret (Err (Errorf_w "failed to read exec output: %w" (ErrText "ReadAll")))
                    else
                      failed <- engine_op ContainerExecInspect containerID;;
                      if failed
                      then ret (Err (Errorf_w "failed to inspect exec: %w"
                                       (ErrText "ContainerExecInspect")))
                      else if negb (exitCode =? 0)
                      then ret (Err (ErrText "command failed with exit code %d"))
                      else ret (Ok output)
          end
  end.

(** [RealClient.ListContainers]: every container of the engine
    ([All: true]). *)
Definition Real_ListContainers (ctx : Context_) : state Engine (result (list ContainerInfo)) :=
  match ctx with
  | nil_ctx => ret (Err (ErrText "nil context provided"))
  | ctx_background =>
      failed <- engine_op NewClientWithOpts EmptyString;;
      if failed
      then ret (Err (Errorf_w "%w: %v" (ErrVar docker_ErrDockerDaemonUnavailable)))
      else
        failed <- engine_op ContainerList EmptyString;;
        cs <- gets containers;;
        if failed
        then ret (Err (Errorf_w "failed to list containers: %w" (ErrText "ContainerList")))
        else
          ret (Ok ((fun p : string * Container =>
                      mkContainerInfo p.1
                        (match Names p.2 with
                         | name :: _ => name
                         | [] => p.1
                         end)
                        (Summary p.2)) <$> map_to_list cs))
  end.

(** [RealClient.RemoveContainer] *)
Definition Real_RemoveContainer (ctx : Context_) (containerID : string)
  : state Engine (option error) :=
  match ctx with
  | nil_ctx => ret (Some (ErrText "nil context provided"))
  | ctx_background =>
      if String.eqb containerID EmptyString
      then ret (Some (ErrText "container ID cannot be empty"))
      else
        failed <- engine_op NewClientWithOpts containerID;;
        if failed
        then ret (Some (Errorf_w "%w: %v" (ErrVar docker_ErrDockerDaemonUnavailable)))
        else
          r <- inspect containerID;;
          match r with
          | Err _ => ret (Some (Errorf_w "%w: %v" (ErrVar docker_ErrContainerNotFound)))
          | Ok containerInfo =>
              r <- (if String.eqb (State_Status containerInfo) "running"
                    then stop containerID else ret None);;
              match r with
              | Some err => ret (Some (Errorf_w "failed to stop container: %w" err))
              | None =>
                  r <- remove containerID;;
                  match r with
                  | Some err => ret (Some (Errorf_w "failed to remove container: %w" err))
                  | None => ret None
                  end
              end
          end
  end.

#[global] Instance RealClient : Client Engine := {|
  StartScenarioContainer := Real_StartScenarioContainer;
  GetContainerStatus := Real_GetContainerStatus;
  GetTerminalURL := Real_GetTerminalURL;
  StopContainer := Real_StopContainer;
  ContainerExists := Real_ContainerExists;
  ExecuteCommand := Real_ExecuteCommand;
  ListContainers := Real_ListContainers;
  RemoveContainer := Real_RemoveContainer
|}.

End RealClient.

End docker.

(* ===================================================================== *)
(** * internal/types: requests and responses                              *)
(* ===================================================================== *)

Module api_types.

Record StartScenarioRequest : Type := mkStartScenarioRequest {
  req_UserID : string;
  req_ScenarioType : string;
  req_Script : string
}.

Record StartScenarioResponse : Type := mkStartScenarioResponse {
  started_ScenarioID : string;
  started_Status : string
}.

Record ScenarioStatusResponse : Type := mkScenarioStatusResponse {
  ScenarioID : string;
  UserID : string;
  ScenarioType : string;
  ContainerID : string;
  Status : string;
  ContainerStatus : string;
  Message : string
}.

Record DirectoryStructureResponse : Type := mkDirectoryStructureResponse {
  dir_ScenarioID : string;
  dir_Path : string;
  dir_Structure : list types.FileNode;
  dir_Message : string
}.

End api_types.

(* ===================================================================== *)
(** * internal/scenario (scenario.go): the Manager                         *)
(* ===================================================================== *)

Module scenario.
Import storage docker api_types.

(** [Manager]: the database handle ([Cfg] is not read by any method; the
    [Docker] field is the [Client] instance). *)
Record Manager : Type := mkManager {
  DB : Database
}.

Section Manager.
Context {R : Type} {Docker : Client R} (env : Env) (m : Manager).

(** A call on [m.Docker]. *)
Definition on_docker {A} (f : state R A) : state (World R) A :=
  fun w => let '(a, r) := f (runtime w) in (a, mkWorld r (collection w) (steps w)).

Definition with_status (s : Scenario) (status : string) (updated : Z) : Scenario :=
  {| storage.ScenarioID := storage.ScenarioID s;
     storage.UserID := storage.UserID s;
     storage.ScenarioType := storage.ScenarioType s;
     storage.ContainerID := storage.ContainerID s;
     storage.Status := status;
     storage.TerminalPort := storage.TerminalPort s;
     storage.CreatedAt := storage.CreatedAt s;
     storage.UpdatedAt := updated |}.

(** [Manager.StartScenario] *)
Definition StartScenario (ctx : Context_) (req : option StartScenarioRequest)
  : state (World R) (result StartScenarioResponse) :=
  match ctx with
  | nil_ctx => ret (Err (ErrText "nil context provided"))
  | ctx_background =>
      match req with
      | None => ret (Err (ErrText "request cannot be nil"))
      | Some req =>
          if String.eqb (req_UserID req) EmptyString
          then ret (Err (ErrText "user ID cannot be empty"))
          else if String.eqb (req_ScenarioType req) EmptyString
          then ret (Err (ErrText "scenario type cannot be empty"))
          else
            r <- on_docker (StartScenarioContainer ctx (req_ScenarioType req) (req_Script req));;
            match r with
            | Err err => ret (Err (Errorf_w "failed to provision container: %w" err))
            | Ok (containerID, terminalPort) =>
                t0 <- time_Now env;;
                let scenarioID := "scn-" +:+ pretty t0 in
                t1 <- time_Now env;;
                t2 <- time_Now env;;
                let s := {| storage.ScenarioID := scenarioID;
                            storage.UserID := req_UserID req;
                            storage.ScenarioType := req_ScenarioType req;
                            storage.ContainerID := containerID;
                            storage.Status := "provisioning";
                            storage.TerminalPort := terminalPort;
                            storage.CreatedAt := t1;
                            storage.UpdatedAt := t2 |} in
                e <- StoreScenario env ctx (DB m) (Some s);;
                match e with
                | Some err =>
                    _ <- on_docker (StopContainer ctx containerID);;
                    ret (Err (Errorf_w "failed to store scenario metadata: %w" err))
                | None =>
                    ret (Ok (mkStartScenarioResponse scenarioID "provisioning"))
                end
            end
      end
  end.

(** [Manager.GetScenarioStatus] *)
Definition GetScenarioStatus (ctx : Context_) (scenarioID : string)
  : state (World R) (result ScenarioStatusResponse) :=
  match ctx with
  | nil_ctx => ret (Err (ErrText "nil context provided"))
  | ctx_background =>
      if String.eqb scenarioID EmptyString
      then ret (Err (Errorf_w "%w: scenario ID cannot be empty"
                       (ErrVar scenario_ErrInvalidScenarioID)))
      else
        r <- GetScenario env ctx (DB m) scenarioID;;
        match r with
        | Err err =>
            if errors_Is err storage_ErrScenarioNotFound
            then ret (Err (Errorf_w "%w: %s" (ErrVar scenario_ErrScenarioNotFound)))
            else ret (Err (Errorf_w "failed to get scenario: %w" err))
        | Ok scenario =>
            let response status containerStatus message :=
              mkScenarioStatusResponse
                (storage.ScenarioID scenario) (storage.UserID scenario)
                (storage.ScenarioType scenario) (storage.ContainerID scenario)
                status containerStatus message in
            r <- on_docker (ContainerExists ctx (storage.ContainerID scenario));;
            match r with
            | Err _ =>
                ret (Ok (response (storage.Status scenario) EmptyString
                           "Container status unavailable"))
            | Ok false =>
                now <- time_Now env;;
                _ <- UpdateScenario env ctx (DB m) (Some (with_status scenario "stopped" now));;
                ret (Ok (response "stopped" "not_found" "Container no longer exists"))
            | Ok true =>
                r <- on_docker (GetContainerStatus ctx (storage.ContainerID scenario));;
                match r with
                | Err _ =>
                    ret (Ok (response (storage.Status scenario) "unknown"
                               "Container status unavailable"))
                | Ok containerStatus =>
                    if String.eqb containerStatus "running"
                       && String.eqb (storage.Status scenario) "provisioning"
                    then
                      now <- time_Now env;;
                      _ <- UpdateScenario env ctx (DB m)
                             (Some (with_status scenario "running" now));;
                      ret (Ok (response "running" containerStatus
                                 "Scenario status retrieved successfully"))
                    else if String.eqb containerStatus "exited"
                            || String.eqb containerStatus "stopped"
                    then
                      now <- time_Now env;;
                      _ <- UpdateScenario env ctx (DB m)
                             (Some (with_status scenario "stopped" now));;
                      ret (Ok (response "stopped" containerStatus
                                 "Scenario status retrieved successfully"))
                    else
                      ret (Ok (response (storage.Status scenario) containerStatus
                                 "Scenario status retrieved successfully"))
                end
            end
        end
  end.

(** [Manager.GetTerminalURL] *)
Definition GetTerminalURL (ctx : Context_) (scenarioID : string)
  : state (World R) (result string) :=
  match ctx with
  | nil_ctx => ret (Err (ErrText "nil context provided"))
  | ctx_background =>
      if String.eqb scenarioID EmptyString
      then ret (Err (Errorf_w "%w: scenario ID cannot be empty"
                       (ErrVar scenario_ErrInvalidScenarioID)))
      else
        r <- GetScenario env ctx (DB m) scenarioID;;
        match r with
        | Err err =>
            if errors_Is err storage_ErrScenarioNotFound
            then ret (Err (Errorf_w "%w: %s" (ErrVar scenario_ErrScenarioNotFound)))
            else ret (Err (Errorf_w "failed to get scenario: %w" err))
        | Ok scenario =>
            if negb (String.eqb (storage.Status scenario) "running")
            then ret (Err (Errorf_w "%w: scenario status is %s"
                             (ErrVar scenario_ErrScenarioNotRunning)))
            else
              r <- on_docker (ContainerExists ctx (storage.ContainerID scenario));;
              match r with
              | Err err => ret (Err (Errorf_w "failed to verify container: %w" err))
              | Ok false =>
                  ret (Err (Errorf_w "%w: container %s not found"
                              (ErrVar scenario_ErrScenarioNotRunning)))
              | Ok true =>
                  r <- on_docker (docker.GetTerminalURL ctx (storage.ContainerID scenario));;
                  match r with
                  | Err err => ret (Err (Errorf_w "failed to get terminal URL: %w" err))
                  | Ok terminalURL => ret (Ok terminalURL)
                  end
              end
        end
  end.

(** [Manager.StopScenario] *)
Definition StopScenario (ctx : Context_) (scenarioID : string)
  : state (World R) (option error) :=
  match ctx with
  | nil_ctx => ret (Some (ErrText "nil context provided"))
  | ctx_background =>
      if String.eqb scenarioID EmptyString
      then ret (Some (Errorf_w "%w: scenario ID cannot be empty"
                        (ErrVar scenario_ErrInvalidScenarioID)))
      else
        r <- GetScenario env ctx (DB m) scenarioID;;
        match r with
        | Err err =>
            if errors_Is err storage_ErrScenarioNotFound
            then ret (Some (Errorf_w "%w: %s" (ErrVar scenario_ErrScenarioNotFound)))
            else ret (Some (Errorf_w "failed to get scenario: %w" err))
        | Ok scenario =>
            e <- on_docker (StopContainer ctx (storage.ContainerID scenario));;
            match e with
            | Some err =>
                if negb (errors_Is err docker_ErrContainerNotFound)
                then ret (Some (Errorf_w "failed to stop container: %w" err))
                else
                  now <- time_Now env;;
                  e <- UpdateScenario env ctx (DB m) (Some (with_status scenario "stopped" now));;
                  match e with
                  | Some err => ret (Some (Errorf_w "failed to update scenario status: %w" err))
                  | None => ret None
                  end
            | None =>
                now <- time_Now env;;
                e <- UpdateScenario env ctx (DB m) (Some (with_status scenario "stopped" now));;
                match e with
                | Some err => ret (Some (Errorf_w "failed to update scenario status: %w" err))
                | None => ret None
                end
            end
        end
  end.

(** [Manager.GetDirectoryStructure]; [order] is the order Go iterates the
    map of the parser in. *)
Definition GetDirectoryStructure (order : tree.map_order) (ctx : Context_)
    (scenarioID : string) : state (World R) (result DirectoryStructureResponse) :=
  match ctx with
  | nil_ctx => ret (Err (ErrText "nil context provided"))
  | ctx_background =>
      if String.eqb scenarioID EmptyString
      then ret (Err (Errorf_w "%w: scenario ID cannot be empty"
                       (ErrVar scenario_ErrInvalidScenarioID)))
      else
        r <- GetScenario env ctx (DB m) scenarioID;;
        match r with
        | Err err =>
            if errors_Is err storage_ErrScenarioNotFound
            then ret (Err (Errorf_w "%w: %s" (ErrVar scenario_ErrScenarioNotFound)))
            else ret (Err (Errorf_w "failed to get scenario: %w" err))
        | Ok scenario =>
            r <- on_docker (ContainerExists ctx (storage.ContainerID scenario));;
            match r with
            | Err err => ret (Err (Errorf_w "failed to check container existence: %w" err))
            | Ok false =>
                ret (Err (Errorf_w "%w: container %s" (ErrVar scenario_ErrScenarioNotRunning)))
            | Ok true =>
                let command := ["find"; "/home/devlab"; "-type"; "f"; "-o"; "-type"; "d";
                                "-printf"; "%p %y" +:+ String newline EmptyString] in
                r <- on_docker (ExecuteCommand ctx (storage.ContainerID scenario) command);;
                match r with
                | Err err => ret (Err (Errorf_w "failed to get directory structure: %w" err))
                | Ok output =>
                    match tree.parseDirectoryStructure order output with
                    | (_, Some err) =>
                        ret (Err (Errorf_w "failed to parse directory structure: %w" err))
                    | (structure, None) =>
                        ret (Ok (mkDirectoryStructureResponse scenarioID "/home/devlab"
                                   structure "Directory structure retrieved successfully"))
                    end
                end
            end
        end
  end.

End Manager.

End scenario.

(* ===================================================================== *)
(** * internal/cleanup (cleanup.go): the CleanupManager                    *)
(* ===================================================================== *)

Module cleanup.
Import storage docker.

(** [config.CleanupConfig]; durations in nanoseconds. *)
Record CleanupConfig : Type := mkCleanupConfig {
  MaxScenarioAge : Z;
  CleanupInterval : Z;
  EnableCleanup : bool
}.

(** [CleanupManager].  Its [db] is the live handle the worker connected
    with; its [docker] is the [Client] instance. *)
Record CleanupManager : Type := mkCleanupManager {
  cfg : CleanupConfig
}.

Definition hours (n : Z) : Z := n * 3600 * 1000000000.

(** What one pass over an orphaned container logs. *)
Inductive orphan_outcome : Type :=
| stop_failed (err : error)
| remove_failed (err : error)
| orphan_cleaned.

Section CleanupManager.
Context {R : Type} {Docker : Client R} (env : Env) (cm : CleanupManager).

Definition on_docker {A} (f : state R A) : state (World R) A :=
  fun w => let '(a, r) := f (runtime w) in (a, mkWorld r (collection w) (steps w)).

(** The filter of [findExpiredScenarios].  A zero [created_at] is left out
    of the stored document ([omitempty]), and [$lt] matches no document
    without the field. *)
Definition expired (cutoffTime : Z) (d : Scenario) : bool :=
  negb (CreatedAt d =? 0) && (CreatedAt d <? cutoffTime)
  && (String.eqb (storage.Status d) "running" || String.eqb (storage.Status d) "provisioning").

(** [findExpiredScenarios] *)
Definition findExpiredScenarios (ctx : Context_) (maxAge : Z)
  : state (World R) (result (list Scenario)) :=
  now <- time_Now env;;
  let cutoffTime := now - maxAge in
  failed <- store_op env FindExpired;;
  docs <- gets collection;;
  if failed
  then ret (Err (Errorf_w "failed to query expired scenarios: %w" (ErrText "Find")))
  else ret (Ok (filter (fun d => expired cutoffTime d = true) docs)).

(** The first block of [cleanupScenario]: under
    [scenario.ContainerID != ""], stop the container if it exists and is
    running, then remove it; every error is logged and passed over. *)
Definition stop_and_remove (ctx : Context_) (scenario : Scenario)
  : state (World R) unit :=
  if negb (String.eqb (ContainerID scenario) EmptyString)
  then
    r <- on_docker (ContainerExists ctx (ContainerID scenario));;
    match r with
    | Err _ => ret tt
    | Ok false => ret tt
    | Ok true =>
        r <- on_docker (GetContainerStatus ctx (ContainerID scenario));;
        _ <- match r with
             | Err _ => ret tt
             | Ok status =>
                 if String.eqb status "running"
                 then
                   _ <- on_docker (StopContainer ctx (ContainerID scenario));;
                   ret tt
                 else ret tt
             end;;
        _ <- on_docker (RemoveContainer ctx (ContainerID scenario));;
        ret tt
    end
  else ret tt.

(** [cleanupScenario] *)
Definition cleanupScenario (ctx : Context_) (scenario : Scenario)
  : state (World R) (option error) :=
  _ <- stop_and_remove ctx scenario;;
  now <- time_Now env;;
  e <- UpdateScenario env ctx db_handle
         (Some (scenario.with_status scenario "cleaned_up" now));;
  match e with
  | Some err => ret (Some (Errorf_w "failed to update scenario status: %w" err))
  | None => ret None
  end.

(** The loop of [CleanupExpiredScenarios]; the result is what it logs for
    each scenario: its id, and the error of its cleanup if it failed. *)
Fixpoint cleanup_each (ctx : Context_) (expiredScenarios : list Scenario)
  : state (World R) (list (string * option error)) :=
  match expiredScenarios with
  | [] => ret []
  | scenario :: rest =>
      e <- cleanupScenario ctx scenario;;
      logs <- cleanup_each ctx rest;;
      ret ((ScenarioID scenario, e) :: logs)
  end.

(** [CleanupExpiredScenarios]: its error, and the log of the loop. *)
Definition CleanupExpiredScenarios (ctx : Context_)
  : state (World R) (option error * list (string * option error)) :=
  let maxAge := if MaxScenarioAge (cfg cm) =? 0 then hours 24
                else MaxScenarioAge (cfg cm) in
  r <- findExpiredScenarios ctx maxAge;;
  match r with
  | Err err => ret (Some (Errorf_w "failed to find expired scenarios: %w" err), [])
  | Ok expiredScenarios =>
      logs <- cleanup_each ctx expiredScenarios;;
      ret (None, logs)
  end.

(** The loop of [getScenarioContainerIDs] over the cursor of its query:
    [docs] are the documents still to come, [i] is the index of the next
    one, and [n] is the number of outside calls made when the loop starts.
    When [cursor.Next] fails the loop ends, and the error of the cursor is
    never read; a document that [cursor.Decode] fails on is logged and
    passed over. *)
Fixpoint cursor_loop (n i : nat) (docs : list Scenario)
    (containerIDs : gmap string bool) : gmap string bool :=
  match docs with
  | [] => containerIDs
  | scenario :: rest =>
      if store_fails env n (CursorNext i) then containerIDs
      else if store_fails env n (CursorDecode i)
      then cursor_loop n (S i) rest containerIDs
      else
        cursor_loop n (S i) rest
          (if negb (String.eqb (ContainerID scenario) EmptyString)
           then <[ContainerID scenario := true]> containerIDs
           else containerIDs)
  end.

(** [getScenarioContainerIDs] *)
Definition getScenarioContainerIDs (ctx : Context_)
  : state (World R) (result (gmap string bool)) :=
  failed <- store_op env FindWithContainer;;
  docs <- gets collection;;
  n <- gets steps;;
  if failed
  then ret (Err (Errorf_w "failed to query scenario container IDs: %w" (ErrText "Find")))
  else
    ret (Ok (cursor_loop n 0 (filter (fun d => ContainerID d <> EmptyString) docs) ∅)).

(** [isScenarioContainer] *)
Definition isScenarioContainer (containerID : string)
    (scenarioContainers : gmap string bool) : bool :=
  default false (scenarioContainers !! containerID).

(** The loop of [CleanupOrphanedContainers], with what it logs for each
    container it takes for an orphan. *)
Fixpoint orphans_each (ctx : Context_) (scenarioContainers : gmap string bool)
    (containers : list ContainerInfo)
  : state (World R) (list (string * orphan_outcome)) :=
  match containers with
  | [] => ret []
  | container :: rest =>
      if negb (isScenarioContainer (ID container) scenarioContainers)
      then
        e <- on_docker (StopContainer ctx (ID container));;
        match e with
        | Some err =>
            logs <- orphans_each ctx scenarioContainers rest;;
            ret ((ID container, stop_failed err) :: logs)
        | None =>
            e <- on_docker (RemoveContainer ctx (ID container));;
            match e with
            | Some err =>
                logs <- orphans_each ctx scenarioContainers rest;;
                ret ((ID container, remove_failed err) :: logs)
            | None =>
                logs <- orphans_each ctx scenarioContainers rest;;
                ret ((ID container, orphan_cleaned) :: logs)
            end
        end
      else orphans_each ctx scenarioContainers rest
  end.

(** [CleanupOrphanedContainers] *)
Definition CleanupOrphanedContainers (ctx : Context_)
  : state (World R) (option error * list (string * orphan_outcome)) :=
  r <- on_docker (ListContainers ctx);;
  match r with
  | Err err => ret (Some (Errorf_w "failed to list containers: %w" err), [])
  | Ok containers =>
      r <- getScenarioContainerIDs ctx;;
      match r with
      | Err err => ret (Some (Errorf_w "failed to get scenario container IDs: %w" err), [])
      | Ok scenarioContainers =>
          logs <- orphans_each ctx scenarioContainers containers;;
          ret (None, logs)
      end
  end.

(** One tick of [RunPeriodicCleanup]: both sweeps, their errors logged. *)
Definition cleanup_cycle (ctx : Context_) : state (World R) unit :=
  _ <- CleanupExpiredScenarios ctx;;
  _ <- CleanupOrphanedContainers ctx;;
  ret tt.

End CleanupManager.

End cleanup.
(* ===================================================================== *)
(** * Notions the statements and the proofs are written with               *)
(* ===================================================================== *)

(** ** Text: white-space runes, lines and fields on the lexed items *)

(** A UTF-8 continuation byte. *)
Definition is_cont (a : ascii) : bool :=
  ((0x80 <=? byte a) && (byte a <=? 0xBF))%N.

(** [s] is empty or starts at a byte that cannot continue a rune. *)
Definition starts_clean (s : string) : Prop :=
  match s with
  | EmptyString => True
  | String a _ => is_cont a = false
  end.

(** The bytes of a white-space rune, as [lex] recognises them. *)
Definition space_bytes (w : string) : Prop :=
  (exists a, w = String a EmptyString /\ isSpace1 a = true)
  \/ (exists a b, w = String a (String b EmptyString)
                  /\ isSpace1 a = false /\ isSpace2 a b = true)
  \/ (exists a b c, w = String a (String b (String c EmptyString))
                    /\ isSpace1 a = false /\ isSpace2 a b = false
                    /\ isSpace3 a b c = true).

(** An item whose white space, if it is one, is the bytes of one rune. *)
Definition item_ok (i : item) : Prop :=
  match i with
  | Sp w => space_bytes w
  | Ch _ => True
  end.

(** The item of a line feed. *)
Definition is_nl (i : item) : bool :=
  match i with
  | Sp w => String.eqb w (String newline EmptyString)
  | Ch _ => false
  end.

(** [SplitByte newline] on items. *)
Fixpoint split_items (l : list item) : list (list item) :=
  match l with
  | [] => [[]]
  | i :: l' =>
      if is_nl i then [] :: split_items l'
      else
        match split_items l' with
        | x :: xs => (i :: x) :: xs
        | [] => [[i]]
        end
  end.

(** A text without a line feed. *)
Fixpoint no_nl (s : string) : Prop :=
  match s with
  | EmptyString => True
  | String c s' => c <> newline /\ no_nl s'
  end.

(** The fields of every line. *)
Definition line_fields (l : list item) : list (list string) :=
  fields_items <$> split_items l.

(** The lines that have a field. *)
Definition nonblank (fs : list (list string)) : list (list string) :=
  filter (fun f => f <> []) fs.

(** The last line with more items at its end. *)
Fixpoint app_last (ls : list (list item)) (y : list item) : list (list item) :=
  match ls with
  | [] => [y]
  | [x] => [x ++ y]
  | x :: xs => x :: app_last xs y
  end.

(** ** The tree builder *)

Section TreeNotions.
Import types tree.

(** The node the first loop builds for the fields of one line, if any. *)
Definition node_of_fields (fs : list string) : option FileNode :=
  match fs with
  | [path; fileType] =>
      if negb (HasPrefix path "/home/devlab") then None
      else if shouldSkipPath path then None
      else Some {| Path := path;
                   Type_ := getNodeType fileType;
                   IsRoot := String.eqb path "/home/devlab";
                   Children := [];
                   Content := EmptyString;
                   IsOpen := false;
                   IsSaved := true |}
  | _ => None
  end.

(** A line the first loop passes over: it has not exactly two fields, or
    its path does not start with the text of the root, or it starts with a
    cache prefix. *)
Definition passed_over (line : string) : Prop :=
  match Fields line with
  | [path; _] => HasPrefix path "/home/devlab" = false \/ shouldSkipPath path = true
  | _ => True
  end.

End TreeNotions.

(** ** The store and the engine *)

Section StoreNotions.
Import storage.

(** The record with the [UpdatedAt] that [UpdateScenario] stamps on it. *)
Definition stamped (s : Scenario) (now : Z) : Scenario :=
  {| ScenarioID := ScenarioID s; UserID := UserID s;
     ScenarioType := ScenarioType s; ContainerID := ContainerID s;
     Status := Status s; TerminalPort := TerminalPort s;
     CreatedAt := CreatedAt s; UpdatedAt := now |}.

End StoreNotions.

Section EngineNotions.
Import storage docker.
Context (ee : EngineEnv).

(** The engine after [n] more calls that changed no container. *)
Definition after_calls (n : nat) (e : Engine) : Engine :=
  mkEngine (containers e) (n + calls e).

(** From [e] to [e'] only the container [containerID] may have changed:
    every other container is as it was, and no container appeared. *)
Definition only_touches (containerID : string) (e e' : Engine) : Prop :=
  (forall k, k <> containerID -> containers e' !! k = containers e !! k)
  /\ (containers e !! containerID = None -> containers e' !! containerID = None).

(** The first host binding of the interactive-shell port of a container. *)
Definition shell_binding (c : Container) : option PortBinding :=
  match Ports c with
  | Some ports =>
      match ports !! "3000/tcp" with
      | Some (binding :: _) => Some binding
      | _ => None
      end
  | None => None
  end.

(** The world after the orphan sweep worked on one container. *)
Definition after_orphan (containerID : string) (w : World Engine) : World Engine :=
  let stopped := Real_StopContainer ee ctx_background containerID (runtime w) in
  match stopped.1 with
  | Some _ => mkWorld stopped.2 (collection w) (steps w)
  | None =>
      mkWorld (Real_RemoveContainer ee ctx_background containerID stopped.2).2
        (collection w) (steps w)
  end.

End EngineNotions.

(** ** The manager *)

(** What the runtime lets the manager observe of a container: nothing (a
    call failed), that it does not exist, or its live status. *)
Inductive observation : Type :=
| unavailable
| absent
| live (status : string).

(** The two questions [GetScenarioStatus] asks its client. *)
Definition observe {R} {Docker : docker.Client R} (ctx : Context_)
    (containerID : string) (r : R) : observation :=
  match docker.ContainerExists ctx containerID r with
  | (Err _, _) => unavailable
  | (Ok false, _) => absent
  | (Ok true, r1) =>
      match docker.GetContainerStatus ctx containerID r1 with
      | (Err _, _) => unavailable
      | (Ok status, _) => live status
      end
  end.

(** The reconciliation rule, in the words of the specification. *)
Definition reconcile (stored : string) (o : observation) : string :=
  match o with
  | absent => "stopped"
  | live status =>
      if String.eqb stored "provisioning" && String.eqb status "running"
      then "running"
      else if String.eqb status "exited" || String.eqb status "stopped"
      then "stopped"
      else stored
  | unavailable => stored
  end.

(** The record [StartScenario] builds, from the three readings of the
    clock it takes after the container was created. *)
Definition new_record {R} (env : storage.Env) (w : storage.World R)
    (req : api_types.StartScenarioRequest) (containerID : string) (terminalPort : Z)
  : storage.Scenario :=
  {| storage.ScenarioID := "scn-" +:+ pretty (storage.clock env (storage.steps w));
     storage.UserID := api_types.req_UserID req;
     storage.ScenarioType := api_types.req_ScenarioType req;
     storage.ContainerID := containerID;
     storage.Status := "provisioning";
     storage.TerminalPort := terminalPort;
     storage.CreatedAt := storage.clock env (S (storage.steps w));
     storage.UpdatedAt := storage.clock env (S (S (storage.steps w))) |}.

(** ** The sweeps *)

(** A container id that some stored record names: it is among the
    [container_id] values of the collection that are not empty. *)
Definition referenced (containerID : string) (docs : list storage.Scenario) : Prop :=
  containerID <> EmptyString /\ containerID ∈ storage.ContainerID <$> docs.

#[global] Instance referenced_dec containerID docs : Decision (referenced containerID docs).
Proof. unfold referenced. apply _. Defined.


(** The map [getScenarioContainerIDs] builds from the documents its cursor
    delivers, in a loop that starts after [n] outside calls. *)
Definition scenarioContainers_read (env : storage.Env) (n : nat)
    (docs : list storage.Scenario) : gmap string bool :=
  cleanup.cursor_loop env n 0
    (filter (fun d => storage.ContainerID d <> EmptyString) docs) ∅.


(* ===================================================================== *)
(** * internal/storage (mongo.go): DeleteScenario and ListScenarios        *)
(* ===================================================================== *)

Module storage_more.
Import storage.

(** The calls on the collection that only these functions make: whether
    [DeleteOne] for a scenario id, [Find] for a user id, and the decoding
    of its cursor ([cursor.All]) fail when they are the [n]-th outside
    call; and the order in which a [Find] without a sort returns the
    documents it matches, which the sources do not fix. *)
Record MoreEnv : Type := mkMoreEnv {
  delete_fails : nat -> string -> bool;
  find_fails : nat -> string -> bool;
  decode_fails : nat -> string -> bool;
  find_order : nat -> list Scenario -> list Scenario
}.

(** [DeleteOne]: the first document that matches the filter goes. *)
Fixpoint delete_first (sid : string) (docs : list Scenario) : list Scenario :=
  match docs with
  | [] => []
  | d :: ds =>
      if decide (ScenarioID d = sid) then ds else d :: delete_first sid ds
  end.

Section StorageMore.
Context {R : Type} (more : MoreEnv).

(** [DeleteScenario] *)
Definition DeleteScenario (ctx : Context_) (db : Database) (scenarioID : string)
  : state (World R) (option error) :=
  match db with
  | nil_db => ret (Some (Errorf_w "%w" (ErrVar storage_ErrDatabaseNil)))
  | db_handle =>
      if String.eqb scenarioID EmptyString
      then ret (Some (Errorf_w "%w: scenario ID cannot be empty"
                        (ErrVar storage_ErrInvalidScenario)))
      else
        fun w =>
          if delete_fails more (steps w) scenarioID
          then (Some (Errorf_w "failed to delete scenario: %w" (ErrText "DeleteOne")),
                tick w)
          else (None,
                mkWorld (runtime w) (delete_first scenarioID (collection w))
                  (S (steps w)))
  end.

(** [ListScenarios]: the filter is empty for an empty [userID]; the
    documents come in the order the server picks. *)
Definition ListScenarios (ctx : Context_) (db : Database) (userID : string)
  : state (World R) (result (list Scenario)) :=
  match db with
  | nil_db => ret (Err (Errorf_w "%w" (ErrVar storage_ErrDatabaseNil)))
  | db_handle =>
      fun w =>
        if find_fails more (steps w) userID
        then (Err (Errorf_w "failed to list scenarios: %w" (ErrText "Find")), tick w)
        else if decode_fails more (steps w) userID
        then (Err (Errorf_w "failed to decode scenarios: %w" (ErrText "All")), tick w)
        else
          (Ok (find_order more (steps w)
                 (if String.eqb userID EmptyString then collection w
                  else filter (fun d => UserID d = userID) (collection w))),
           tick w)
  end.

End StorageMore.

End storage_more.

(* ===================================================================== *)
(** * internal/api (handler.go): the REST handlers                         *)
(* ===================================================================== *)

Module api.
Import api_types.

(** [ScenarioManager]: what a handler asks of the manager, on a world
    [W]. *)
Class ScenarioManager (W : Type) : Type := {
  StartScenario : Context_ -> option StartScenarioRequest
                  -> state W (result StartScenarioResponse);
  GetScenarioStatus : Context_ -> string -> state W (result ScenarioStatusResponse);
  GetTerminalURL : Context_ -> string -> state W (result string);
  StopScenario : Context_ -> string -> state W (option error);
  GetDirectoryStructure : Context_ -> string
                          -> state W (result DirectoryStructureResponse)
}.

(** A text of a response: a literal of the handler, or [err.Error ()] of
    an error (kept as the error; its text is not rendered). *)
Inductive message : Type :=
| literal (s : string)
| Error_of (err : error).

Record ErrorResponse : Type := mkErrorResponse {
  Error_ : message;
  Code : string;
  err_Message : message
}.

Record TerminalURLResponse : Type := mkTerminalURLResponse {
  url_ScenarioID : string;
  URL : string;
  url_Message : string
}.

(** What [c.JSON] is given: the status code and the value. *)
Inductive body : Type :=
| json_error (r : ErrorResponse)
| json_started (r : StartScenarioResponse)
| json_status (r : ScenarioStatusResponse)
| json_terminal (r : TerminalURLResponse)
| json_directory (r : DirectoryStructureResponse)
| json_H_error (m : message).

Definition response : Type := Z * body.

Definition StatusOK : Z := 200.
Definition StatusBadRequest : Z := 400.
Definition StatusNotFound : Z := 404.
Definition StatusConflict : Z := 409.
Definition StatusInternalServerError : Z := 500.
Definition StatusServiceUnavailable : Z := 503.

Section Handler.
Context {W : Type} {Scenario : ScenarioManager W}.

(** [Handler.StartScenarioREST]; [bound] is what [c.ShouldBindJSON]
    gives. *)
Definition StartScenarioREST (bound : result StartScenarioRequest) : state W response :=
  match bound with
  | Err err =>
      ret (StatusBadRequest,
           json_error (mkErrorResponse (literal "Invalid request format")
                         "INVALID_REQUEST" (Error_of err)))
  | Ok req =>
      if String.eqb (TrimSpace (req_UserID req)) EmptyString
      then ret (StatusBadRequest,
                json_error (mkErrorResponse (literal "User ID is required")
                              "MISSING_USER_ID"
                              (literal "user_id field cannot be empty")))
      else if String.eqb (TrimSpace (req_ScenarioType req)) EmptyString
      then ret (StatusBadRequest,
                json_error (mkErrorResponse (literal "Scenario type is required")
                              "MISSING_SCENARIO_TYPE"
                              (literal "scenario_type field cannot be empty")))
      else
        r <- StartScenario ctx_background (Some req);;
        match r with
        | Err err =>
            let '(statusCode, errorCode) :=
              if errors_Is err docker_ErrInvalidScenarioType
              then (StatusBadRequest, "INVALID_SCENARIO_TYPE")
              else if errors_Is err docker_ErrPortUnavailable
              then (StatusServiceUnavailable, "PORT_UNAVAILABLE")
              else if errors_Is err docker_ErrTTYDFailedToStart
              then (StatusInternalServerError, "TTYD_FAILED")
              else if errors_Is err docker_ErrDockerDaemonUnavailable
              then (StatusServiceUnavailable, "DOCKER_UNAVAILABLE")
              else (StatusInternalServerError, "INTERNAL_ERROR") in
            ret (statusCode,
                 json_error (mkErrorResponse (literal "Failed to start scenario")
                               errorCode (Error_of err)))
        | Ok resp => ret (StatusOK, json_started resp)
        end
  end.

Definition missing_scenario_id : response :=
  (StatusBadRequest,
   json_error (mkErrorResponse (literal "Scenario ID is required")
                 "MISSING_SCENARIO_ID"
                 (literal "scenario ID parameter cannot be empty"))).

(** [Handler.GetScenarioStatusREST]; [scenarioID] is [c.Param ("id")]. *)
Definition GetScenarioStatusREST (scenarioID : string) : state W response :=
  if String.eqb scenarioID EmptyString then ret missing_scenario_id
  else
    r <- GetScenarioStatus ctx_background scenarioID;;
    match r with
    | Err err =>
        let '(statusCode, errorCode) :=
          if errors_Is err scenario_ErrScenarioNotFound
          then (StatusNotFound, "SCENARIO_NOT_FOUND")
          else if errors_Is err scenario_ErrInvalidScenarioID
          then (StatusBadRequest, "INVALID_SCENARIO_ID")
          else (StatusInternalServerError, "INTERNAL_ERROR") in
        ret (statusCode,
             json_error (mkErrorResponse (literal "Failed to get scenario status")
                           errorCode (Error_of err)))
    | Ok resp => ret (StatusOK, json_status resp)
    end.

(** [Handler.GetTerminalURLREST] *)
Definition GetTerminalURLREST (scenarioID : string) : state W response :=
  if String.eqb scenarioID EmptyString then ret missing_scenario_id
  else
    r <- GetTerminalURL ctx_background scenarioID;;
    match r with
    | Err err =>
        let '(statusCode, errorCode) :=
          if errors_Is err scenario_ErrScenarioNotFound
          then (StatusNotFound, "SCENARIO_NOT_FOUND")
          else if errors_Is err scenario_ErrScenarioNotRunning
          then (StatusConflict, "SCENARIO_NOT_RUNNING")
          else if errors_Is err docker_ErrContainerNotFound
          then (StatusNotFound, "CONTAINER_NOT_FOUND")
          else if errors_Is err docker_ErrContainerNotRunning
          then (StatusConflict, "CONTAINER_NOT_RUNNING")
          else if errors_Is err scenario_ErrInvalidScenarioID
          then (StatusBadRequest, "INVALID_SCENARIO_ID")
          else (StatusInternalServerError, "INTERNAL_ERROR") in
        ret (statusCode,
             json_error (mkErrorResponse (literal "Failed to get terminal URL")
                           errorCode (Error_of err)))
    | Ok terminalURL =>
        ret (StatusOK,
             json_terminal (mkTerminalURLResponse scenarioID terminalURL
                              "Terminal URL retrieved successfully"))
    end.

(** [Handler.StopScenarioREST] *)
Definition StopScenarioREST (scenarioID : string) : state W response :=
  if String.eqb scenarioID EmptyString then ret missing_scenario_id
  else
    e <- StopScenario ctx_background scenarioID;;
    match e with
    | Some err =>
        let '(statusCode, errorCode) :=
          if errors_Is err scenario_ErrScenarioNotFound
          then (StatusNotFound, "SCENARIO_NOT_FOUND")
          else if errors_Is err scenario_ErrScenarioAlreadyStopped
          then (StatusConflict, "SCENARIO_ALREADY_STOPPED")
          else if errors_Is err scenario_ErrInvalidScenarioID
          then (StatusBadRequest, "INVALID_SCENARIO_ID")
          else if errors_Is err docker_ErrContainerNotFound
          then (StatusOK, "CONTAINER_ALREADY_STOPPED")
          else (StatusInternalServerError, "INTERNAL_ERROR") in
        ret (statusCode,
             json_error (mkErrorResponse (literal "Failed to stop scenario")
                           errorCode (Error_of err)))
    | None =>
        ret (StatusOK,
             json_error (mkErrorResponse (literal EmptyString) "SUCCESS"
                           (literal "Scenario stopped successfully")))
    end.

(** [Handler.GetDirectoryStructureREST] *)
Definition GetDirectoryStructureREST (scenarioID : string) : state W response :=
  if String.eqb scenarioID EmptyString
  then ret (400, json_H_error (literal "scenario ID cannot be empty"))
  else
    r <- GetDirectoryStructure ctx_background scenarioID;;
    match r with
    | Err err => ret (500, json_H_error (Error_of err))
    | Ok resp => ret (200, json_directory resp)
    end.

End Handler.

End api.

(** The manager of [internal/scenario] as the [ScenarioManager] of a
    handler; [order] is the order Go iterates the map of the tree builder
    in. *)
#[global] Instance Manager_ScenarioManager {R : Type} {Docker : docker.Client R}
    (env : storage.Env) (m : scenario.Manager) (order : tree.map_order)
  : api.ScenarioManager (storage.World R) := {|
  api.StartScenario := scenario.StartScenario env m;
  api.GetScenarioStatus := scenario.GetScenarioStatus env m;
  api.GetTerminalURL := scenario.GetTerminalURL env m;
  api.StopScenario := scenario.StopScenario env m;
  api.GetDirectoryStructure := scenario.GetDirectoryStructure env m order
|}.

(** The [Code] of an error response; [None] for the other bodies. *)
Definition code_of (r : api.response) : option string :=
  match r.2 with
  | api.json_error e => Some (api.Code e)
  | _ => None
  end.

(** The error variables of the package [storage]. *)
Definition is_storage_sentinel (t : sentinel) : bool :=
  match t with
  | storage_ErrScenarioNotFound | storage_ErrDatabaseNil | storage_ErrInvalidScenario => true
  | _ => false
  end.


(** ** What a call leaves as it was *)

Section WorldNotions.
Import storage docker.

(** Containers as before, the same ids in the collection, and the records
    of every other id as before. *)
Definition keeps_but (sid : string) (w w' : World Engine) : Prop :=
  containers (runtime w') = containers (runtime w)
  /\ ScenarioID <$> collection w' = ScenarioID <$> collection w
  /\ (forall sid', sid' <> sid ->
        find_first sid' (collection w') = find_first sid' (collection w)).

(** Containers and records as before. *)
Definition keeps_all (w w' : World Engine) : Prop :=
  containers (runtime w') = containers (runtime w) /\ collection w' = collection w.

End WorldNotions.

(** ** Paths *)

(** A path element without a separator. *)
Fixpoint no_slash (s : string) : bool :=
  match s with
  | EmptyString => true
  | String c s' => negb (Ascii.eqb c slash) && no_slash s'
  end.

(** A path element that [filepath.Clean] keeps as it is: not empty, not a
    dot or dot-dot element, and without a separator. *)
Definition plain_element (el : string) : bool :=
  negb (String.eqb el EmptyString) && negb (String.eqb el ".")
  && negb (String.eqb el "..") && no_slash el.

(** The absolute path with the given elements. *)
Definition path_of (els : list string) : string := "/" +:+ Join els "/".

(** ** A store that answers, with a clock whose instants have a part below
    the millisecond *)

Definition wall_clock_env : storage.Env :=
  storage.mkEnv (fun _ _ => false) (fun n => 1700000000123456789 + Z.of_nat n).

(* ===================================================================== *)
(** * Concrete worlds for the examples                                     *)
(* ===================================================================== *)

(** A store and an engine on which no call fails. *)
Definition healthy_env : storage.Env :=
  storage.mkEnv (fun _ _ => false) (fun n => 1000 + Z.of_nat n).

Definition healthy_engine : docker.EngineEnv :=
  docker.mkEngineEnv (fun _ _ _ => false) (fun _ _ => true)
    (fun n => "c" +:+ pretty n) (fun _ => "running")
    (fun _ _ _ => (EmptyString, 0)).

(** A store that refuses every [UpdateOne], and one that refuses every
    [InsertOne]. *)
Definition env_no_update : storage.Env :=
  storage.mkEnv
    (fun _ c => match c with storage.UpdateOne _ => true | _ => false end)
    (fun n => 1000 + Z.of_nat n).

Definition env_no_insert : storage.Env :=
  storage.mkEnv
    (fun _ c => match c with storage.InsertOne _ => true | _ => false end)
    (fun n => 1000 + Z.of_nat n).

(** An engine on which every [ContainerStop] fails, one on which every
    [ContainerInspect] fails, and one on which every [ContainerRemove]
    fails. *)
Definition engine_no_stop : docker.EngineEnv :=
  docker.mkEngineEnv
    (fun _ api _ => match api with docker.ContainerStop => true | _ => false end)
    (fun _ _ => true) (fun n => "c" +:+ pretty n) (fun _ => "running")
    (fun _ _ _ => (EmptyString, 0)).

Definition engine_no_inspect : docker.EngineEnv :=
  docker.mkEngineEnv
    (fun _ api _ => match api with docker.ContainerInspect => true | _ => false end)
    (fun _ _ => true) (fun n => "c" +:+ pretty n) (fun _ => "running")
    (fun _ _ _ => (EmptyString, 0)).

Definition a_scenario (sid cid status : string) (created : Z) : storage.Scenario :=
  storage.mkScenario sid "user-1" "go" cid status 3001 created created.

Definition a_container (st : string) (ports : option (gmap string (list docker.PortBinding)))
  : docker.Container :=
  docker.mkContainer st ports [] "Up".

Definition ttyd_ports : gmap string (list docker.PortBinding) :=
  {[ "3000/tcp" := [docker.mkPortBinding "0.0.0.0" "3001"] ]}.

Definition a_world (cs : list (string * docker.Container)) (docs : list storage.Scenario)
  : storage.World docker.Engine :=
  storage.mkWorld (docker.mkEngine (list_to_map cs) 0) docs 0.

Definition a_manager : scenario.Manager := scenario.mkManager storage.db_handle.

Definition status_of (r : result api_types.ScenarioStatusResponse) : option string :=
  match r with
  | Ok resp => Some (api_types.Status resp)
  | Err _ => None
  end.

(** A request, and a sweep with a maximal age of 100 ns. *)
Definition a_request : api_types.StartScenarioRequest :=
  api_types.mkStartScenarioRequest "user-1" "go" "echo hello".

Definition a_cleanup_manager : cleanup.CleanupManager :=
  cleanup.mkCleanupManager (cleanup.mkCleanupConfig 100 0 true).

(** The listing of C5 under the root of the code. *)
Definition listing_C5 : string :=
  tree.listing_text
    [ tree.entry "/home/devlab" "d"; tree.entry "/home/devlab/a" "f";
      tree.entry "/home/devlab/b" "d"; tree.entry "/home/devlab/b/c" "f" ].

(** A node as the first loop builds it. *)
Definition plain_node (path ty : string) (root : bool) : types.FileNode :=
  {| types.Path := path; types.Type_ := ty; types.IsRoot := root;
     types.Children := []; types.Content := EmptyString;
     types.IsOpen := false; types.IsSaved := true |}.
(* ===================================================================== *)
(** * Facts about the string functions                                     *)
(* ===================================================================== *)

Section StringFacts.

Lemma sapp_nil (t : string) : EmptyString +:+ t = t.
Proof. reflexivity. Qed.

Lemma sapp_cons (a : ascii) (s t : string) :
  String a s +:+ t = String a (s +:+ t).
Proof. reflexivity. Qed.

Lemma sapp_nil_r (s : string) : s +:+ EmptyString = s.
Proof. induction s as [|a s IH]; [done|]. by rewrite sapp_cons, IH. Qed.

Lemma sapp_assoc (s t u : string) : (s +:+ t) +:+ u = s +:+ (t +:+ u).
Proof.
  induction s as [|a s IH]; [done|]. by rewrite !sapp_cons, IH.
Qed.

Lemma isSpace1_not_cont a : isSpace1 a = true -> is_cont a = false.
Proof.
  unfold isSpace1, is_cont. intros H.
  destruct (N.leb_spec 0x80 (byte a)) as [Hle|]; [|done].
  exfalso. destruct (byte a) as [|p]; [lia|].
  do 8 (destruct p as [p|p|]; try discriminate; try lia).
Qed.

Lemma isSpace2_cont a b : isSpace2 a b = true -> is_cont b = true.
Proof.
  unfold isSpace2, is_cont. intros H.
  apply andb_true_iff in H as [_ H]. apply orb_true_iff in H.
  destruct H as [H|H]; apply N.eqb_eq in H; rewrite H; reflexivity.
Qed.

Lemma isSpace3_cont a b c :
  isSpace3 a b c = true -> is_cont b = true /\ is_cont c = true.
Proof.
  unfold isSpace3, is_cont. intros H.
  repeat (apply orb_true_iff in H as [H|H]);
    repeat (apply andb_true_iff in H as [H ?]);
    repeat match goal with
           | H : (_ =? _)%N = true |- _ => apply N.eqb_eq in H
           | H : (_ <=? _)%N = true |- _ => apply N.leb_le in H
           | H : (_ || _) = true |- _ => apply orb_true_iff in H as [H|H]
           | H : (_ && _) = true |- _ => apply andb_true_iff in H as [H ?]
           end;
    split; apply andb_true_iff; split; apply N.leb_le; lia.
Qed.

Lemma isSpace2_clean a b : is_cont b = false -> isSpace2 a b = false.
Proof.
  intros Hb. destruct (isSpace2 a b) eqn:E; [|done].
  apply isSpace2_cont in E. congruence.
Qed.

Lemma isSpace3_clean_2 a b c : is_cont b = false -> isSpace3 a b c = false.
Proof.
  intros Hb. destruct (isSpace3 a b c) eqn:E; [|done].
  apply isSpace3_cont in E as [? ?]. congruence.
Qed.

Lemma isSpace3_clean_3 a b c : is_cont c = false -> isSpace3 a b c = false.
Proof.
  intros Hb. destruct (isSpace3 a b c) eqn:E; [|done].
  apply isSpace3_cont in E as [? ?]. congruence.
Qed.

(** The equations of [lex], one per case. *)
Lemma lex_eq (s : string) :
  lex s =
  match s with
  | EmptyString => []
  | String a s1 =>
      if isSpace1 a then Sp (String a EmptyString) :: lex s1
      else
        match s1 with
        | String b s2 =>
            if isSpace2 a b then Sp (String a (String b EmptyString)) :: lex s2
            else
              match s2 with
              | String c s3 =>
                  if isSpace3 a b c
                  then Sp (String a (String b (String c EmptyString))) :: lex s3
                  else Ch a :: lex s1
              | EmptyString => Ch a :: lex s1
              end
        | EmptyString => Ch a :: lex s1
        end
  end.
Proof. destruct s; reflexivity. Qed.

Ltac lex_step t := rewrite (lex_eq t); cbv beta iota.

Lemma lex_sp1 a s : isSpace1 a = true ->
  lex (String a s) = Sp (String a EmptyString) :: lex s.
Proof. intros E. lex_step (String a s). by rewrite E. Qed.

Lemma lex_sp2 a b s : isSpace1 a = false -> isSpace2 a b = true ->
  lex (String a (String b s)) = Sp (String a (String b EmptyString)) :: lex s.
Proof. intros E1 E2. lex_step (String a (String b s)). by rewrite E1, E2. Qed.

Lemma lex_sp3 a b c s :
  isSpace1 a = false -> isSpace2 a b = false -> isSpace3 a b c = true ->
  lex (String a (String b (String c s)))
  = Sp (String a (String b (String c EmptyString))) :: lex s.
Proof.
  intros E1 E2 E3. lex_step (String a (String b (String c s))).
  by rewrite E1, E2, E3.
Qed.

Lemma lex_ch1 a : isSpace1 a = false -> lex (String a EmptyString) = [Ch a].
Proof. intros E. lex_step (String a EmptyString). by rewrite E. Qed.

Lemma lex_ch2 a b : isSpace1 a = false -> isSpace2 a b = false ->
  lex (String a (String b EmptyString)) = Ch a :: lex (String b EmptyString).
Proof.
  intros E1 E2. lex_step (String a (String b EmptyString)). by rewrite E1, E2.
Qed.

Lemma lex_ch3 a b c s :
  isSpace1 a = false -> isSpace2 a b = false -> isSpace3 a b c = false ->
  lex (String a (String b (String c s))) = Ch a :: lex (String b (String c s)).
Proof.
  intros E1 E2 E3. lex_step (String a (String b (String c s))).
  by rewrite E1, E2, E3.
Qed.

(** Lexing is compositional at a clean boundary. *)
Lemma lex_app_len (n : nat) : forall s1 s2,
  (String.length s1 <= n)%nat -> starts_clean s2 ->
  lex (s1 +:+ s2) = lex s1 ++ lex s2.
Proof.
  induction n as [|n IH]; intros s1 s2 Hlen Hc.
  { destruct s1; [reflexivity|simpl in Hlen; lia]. }
  destruct s1 as [|a s1]; [reflexivity|]. simpl in Hlen.
  rewrite sapp_cons.
  destruct (isSpace1 a) eqn:E1.
  { rewrite !(lex_sp1 a _ E1). rewrite <- app_comm_cons. f_equal.
    apply IH; [lia|done]. }
  destruct s1 as [|b s1].
  { rewrite sapp_nil, (lex_ch1 a E1).
    destruct s2 as [|b s2]; [by rewrite (lex_ch1 a E1)|]. simpl in Hc.
    pose proof (isSpace2_clean a b Hc) as E2.
    destruct s2 as [|c s2]; [by rewrite (lex_ch2 a b E1 E2)|].
    by rewrite (lex_ch3 a b c s2 E1 E2 (isSpace3_clean_2 a b c Hc)). }
  rewrite sapp_cons. simpl in Hlen.
  destruct (isSpace2 a b) eqn:E2.
  { rewrite !(lex_sp2 a b _ E1 E2). rewrite <- app_comm_cons. f_equal.
    apply IH; [lia|done]. }
  destruct s1 as [|c s1].
  { rewrite sapp_nil, (lex_ch2 a b E1 E2).
    destruct s2 as [|c s2].
    - by rewrite (lex_ch2 a b E1 E2), app_nil_r.
    - simpl in Hc.
      rewrite (lex_ch3 a b c s2 E1 E2 (isSpace3_clean_3 a b c Hc)).
      rewrite <- app_comm_cons. f_equal.
      apply (IH (String b EmptyString) (String c s2)); [simpl; lia|done]. }
  rewrite sapp_cons. simpl in Hlen.
  destruct (isSpace3 a b c) eqn:E3.
  { rewrite !(lex_sp3 a b c _ E1 E2 E3). rewrite <- app_comm_cons. f_equal.
    apply IH; [lia|done]. }
  rewrite !(lex_ch3 a b c _ E1 E2 E3). rewrite <- app_comm_cons. f_equal.
  apply (IH (String b (String c s1)) s2); [simpl; lia|done].
Qed.

Lemma lex_app (s1 s2 : string) :
  starts_clean s2 -> lex (s1 +:+ s2) = lex s1 ++ lex s2.
Proof. apply (lex_app_len (String.length s1)). lia. Qed.

Lemma unlex_cons (i : item) (l : list item) :
  unlex (i :: l) = item_bytes i +:+ unlex l.
Proof. reflexivity. Qed.

(** The items of a lexed string carry exactly its bytes. *)
Lemma unlex_lex_len (n : nat) : forall s,
  (String.length s <= n)%nat -> unlex (lex s) = s.
Proof.
  induction n as [|n IH]; intros s Hlen.
  { destruct s; [done|simpl in Hlen; lia]. }
  destruct s as [|a s1]; [done|]. simpl in Hlen.
  destruct (isSpace1 a) eqn:E1.
  { rewrite (lex_sp1 a _ E1), unlex_cons. simpl item_bytes.
    rewrite sapp_cons, sapp_nil. f_equal. apply IH. lia. }
  destruct s1 as [|b s2]; [by rewrite (lex_ch1 a E1)|]. simpl in Hlen.
  destruct (isSpace2 a b) eqn:E2.
  { rewrite (lex_sp2 a b _ E1 E2), unlex_cons. simpl item_bytes.
    rewrite !sapp_cons, sapp_nil. do 2 f_equal. apply IH. lia. }
  destruct s2 as [|c s3].
  { rewrite (lex_ch2 a b E1 E2), unlex_cons. simpl item_bytes.
    rewrite sapp_cons, sapp_nil. f_equal.
    apply (IH (String b EmptyString)). simpl. lia. }
  simpl in Hlen.
  destruct (isSpace3 a b c) eqn:E3.
  { rewrite (lex_sp3 a b c _ E1 E2 E3), unlex_cons. simpl item_bytes.
    rewrite !sapp_cons, sapp_nil. do 3 f_equal. apply IH. lia. }
  rewrite (lex_ch3 a b c _ E1 E2 E3), unlex_cons. simpl item_bytes.
  rewrite sapp_cons, sapp_nil. f_equal.
  apply (IH (String b (String c s3))). simpl. lia.
Qed.

Lemma unlex_lex (s : string) : unlex (lex s) = s.
Proof. apply (unlex_lex_len (String.length s)). lia. Qed.

Lemma unlex_app (l1 l2 : list item) : unlex (l1 ++ l2) = unlex l1 +:+ unlex l2.
Proof.
  induction l1 as [|i l1 IH]; [done|].
  rewrite <- app_comm_cons, !unlex_cons, IH. by rewrite sapp_assoc.
Qed.

(** Induction along the cases of [lex]. *)
Lemma lex_cases_ind (P : string -> Prop) :
  P EmptyString ->
  (forall a s, isSpace1 a = true -> P s -> P (String a s)) ->
  (forall a b s, isSpace1 a = false -> isSpace2 a b = true ->
                 P s -> P (String a (String b s))) ->
  (forall a b c s, isSpace1 a = false -> isSpace2 a b = false ->
                   isSpace3 a b c = true ->
                   P s -> P (String a (String b (String c s)))) ->
  (forall a, isSpace1 a = false -> P (String a EmptyString)) ->
  (forall a b, isSpace1 a = false -> isSpace2 a b = false ->
               P (String b EmptyString) -> P (String a (String b EmptyString))) ->
  (forall a b c s, isSpace1 a = false -> isSpace2 a b = false ->
                   isSpace3 a b c = false ->
                   P (String b (String c s)) ->
                   P (String a (String b (String c s)))) ->
  forall s, P s.
Proof.
  intros H0 H1 H2 H3 H4 H5 H6 s.
  assert (forall n s, (String.length s <= n)%nat -> P s) as Hn.
  { clear s. induction n as [|n IH]; intros s Hlen.
    { destruct s; [done|simpl in Hlen; lia]. }
    destruct s as [|a s1]; [done|]. simpl in Hlen.
    destruct (isSpace1 a) eqn:E1; [apply H1; [done|apply IH; lia]|].
    destruct s1 as [|b s2]; [by apply H4|]. simpl in Hlen.
    destruct (isSpace2 a b) eqn:E2; [apply H2; [done..|apply IH; lia]|].
    destruct s2 as [|c s3]; [apply H5; [done..|apply IH; simpl; lia]|].
    simpl in Hlen.
    destruct (isSpace3 a b c) eqn:E3; [apply H3; [done..|apply IH; lia]|].
    apply H6; [done..|]. apply IH. simpl. lia. }
  apply (Hn (String.length s)). lia.
Qed.

Lemma lex_items_ok (s : string) : Forall item_ok (lex s).
Proof.
  induction s using lex_cases_ind.
  - constructor.
  - rewrite lex_sp1 by done. constructor; [|done]. left. eauto.
  - rewrite lex_sp2 by done. constructor; [|done]. right. left. eauto 6.
  - rewrite lex_sp3 by done. constructor; [|done]. right. right. eauto 8.
  - rewrite lex_ch1 by done. by repeat constructor.
  - rewrite lex_ch2 by done. by constructor.
  - rewrite lex_ch3 by done. by constructor.
Qed.

Lemma lex_space_bytes (w r : string) :
  space_bytes w -> lex (w +:+ r) = Sp w :: lex r.
Proof.
  intros [(a & -> & E1)|[(a & b & -> & E1 & E2)|(a & b & c & -> & E1 & E2 & E3)]].
  - rewrite sapp_cons, sapp_nil. by apply lex_sp1.
  - rewrite !sapp_cons, sapp_nil. by apply lex_sp2.
  - rewrite !sapp_cons, sapp_nil. by apply lex_sp3.
Qed.

Lemma space_bytes_clean (w r : string) : space_bytes w -> starts_clean (w +:+ r).
Proof.
  intros [(a & -> & E1)|[(a & b & -> & E1 & E2)|(a & b & c & -> & E1 & E2 & E3)]];
    rewrite sapp_cons; simpl.
  - by apply isSpace1_not_cont.
  - unfold isSpace2 in E2. apply andb_true_iff in E2 as [E2 _].
    apply N.eqb_eq in E2. unfold is_cont. by rewrite E2.
  - unfold isSpace3 in E3. unfold is_cont.
    repeat (apply orb_true_iff in E3 as [E3|E3]);
      repeat (apply andb_true_iff in E3 as [E3 ?]);
      repeat match goal with
             | H : (_ && _) = true |- _ => apply andb_true_iff in H as [H ?]
             | H : (byte a =? _)%N = true |- _ => apply N.eqb_eq in H; rewrite H
             end; reflexivity.
Qed.

Lemma lex_unlex_spaces (ws : list item) (r : string) :
  Forall item_ok ws -> Forall (fun i => is_sp i = true) ws ->
  lex (unlex ws +:+ r) = ws ++ lex r.
Proof.
  induction ws as [|i ws IH]; intros Hok Hsp; [done|].
  inversion Hok as [|? ? Hi Hok']; inversion Hsp as [|? ? Si Hsp']; subst.
  destruct i as [w|c]; [|done].
  rewrite unlex_cons. simpl item_bytes. rewrite sapp_assoc.
  rewrite lex_space_bytes by done. rewrite <- app_comm_cons. f_equal. by apply IH.
Qed.

Lemma unlex_spaces_clean (ws : list item) :
  Forall item_ok ws -> Forall (fun i => is_sp i = true) ws ->
  starts_clean (unlex ws).
Proof.
  destruct ws as [|i ws]; intros Hok Hsp; [done|].
  inversion Hok; inversion Hsp; subst. destruct i as [w|c]; [|done].
  rewrite unlex_cons. by apply space_bytes_clean.
Qed.

(** [drop_spaces] removes a run of white space and nothing else. *)
Lemma drop_spaces_split (l : list item) :
  exists ws, Forall (fun i => is_sp i = true) ws /\ l = ws ++ drop_spaces l.
Proof.
  induction l as [|i l IH]; [by exists []|].
  destruct i as [w|c]; [|by exists []].
  destruct IH as (ws & Hws & Heq). exists (Sp w :: ws). split.
  - by constructor.
  - simpl. by rewrite <- Heq.
Qed.

Lemma trim_items_split (l : list item) :
  exists ws1 ws2,
    Forall (fun i => is_sp i = true) ws1 /\ Forall (fun i => is_sp i = true) ws2
    /\ l = ws1 ++ trim_items l ++ ws2.
Proof.
  destruct (drop_spaces_split l) as (ws1 & H1 & E1).
  destruct (drop_spaces_split (rev (drop_spaces l))) as (ws2 & H2 & E2).
  exists ws1, (rev ws2). split; [done|]. split.
  - by apply Forall_rev.
  - unfold trim_items. rewrite <- rev_app_distr, <- E2, rev_involutive. done.
Qed.

(** Lexing the trimmed string gives the trimmed items. *)
Lemma lex_TrimSpace (s : string) : lex (TrimSpace s) = trim_items (lex s).
Proof.
  unfold TrimSpace.
  destruct (trim_items_split (lex s)) as (ws1 & ws2 & H1 & H2 & E).
  pose proof (lex_items_ok s) as Hok. rewrite E in Hok.
  apply Forall_app in Hok as [Hok1 Hok]. apply Forall_app in Hok as [_ Hok2].
  pose proof (unlex_lex s) as Hs. rewrite E in Hs at 1.
  rewrite !unlex_app in Hs.
  assert (lex s = ws1 ++ lex (unlex (trim_items (lex s))) ++ ws2) as E'.
  { rewrite <- Hs at 1. rewrite lex_unlex_spaces by done. f_equal.
    rewrite lex_app by (by apply unlex_spaces_clean). f_equal.
    rewrite <- (sapp_nil_r (unlex ws2)).
    rewrite lex_unlex_spaces by done. by rewrite app_nil_r. }
  rewrite E in E' at 1.
  apply app_inv_head in E'. by apply app_inv_tail in E'.
Qed.

(** ** Lines *)

Lemma slength_app (s t : string) :
  String.length (s +:+ t) = (String.length s + String.length t)%nat.
Proof.
  induction s as [|a s IH]; [done|]. rewrite sapp_cons. simpl. by rewrite IH.
Qed.

Lemma SplitByte_nl_first (s : string) :
  exists x xs, SplitByte newline s = x :: xs /\ no_nl x
    /\ ((xs = [] /\ s = x)
        \/ exists r, s = x +:+ String newline r /\ xs = SplitByte newline r).
Proof.
  induction s as [|c s IH].
  - exists EmptyString, []. simpl. auto.
  - destruct IH as (x & xs & Hs & Hx & Hr). simpl.
    destruct (Ascii.eqb c newline) eqn:Ec.
    + apply Ascii.eqb_eq in Ec as ->.
      exists EmptyString, (SplitByte newline s). repeat split.
      right. by exists s.
    + apply Ascii.eqb_neq in Ec. rewrite Hs.
      exists (String c x), xs. repeat split; [done..|].
      destruct Hr as [[-> ->]|(r & -> & ->)]; [by left|right].
      exists r. by rewrite sapp_cons.
Qed.

Lemma isSpace1_newline : isSpace1 newline = true.
Proof. reflexivity. Qed.

Lemma is_nl_sp1 a :
  a <> newline -> is_nl (Sp (String a EmptyString)) = false.
Proof.
  intros Ha. unfold is_nl. apply String.eqb_neq. congruence.
Qed.

Lemma lex_no_nl (s : string) :
  no_nl s -> Forall (fun i => is_nl i = false) (lex s).
Proof.
  induction s using lex_cases_ind; intros Hn.
  - constructor.
  - rewrite lex_sp1 by done. destruct Hn as [Ha Hn].
    constructor; [by apply is_nl_sp1|auto].
  - rewrite lex_sp2 by done. destruct Hn as (Ha & Hb & Hn).
    constructor; [|auto]. unfold is_nl. apply String.eqb_neq. congruence.
  - rewrite lex_sp3 by done. destruct Hn as (Ha & Hb & Hc & Hn).
    constructor; [|auto]. unfold is_nl. apply String.eqb_neq. congruence.
  - rewrite lex_ch1 by done. by repeat constructor.
  - rewrite lex_ch2 by done. destruct Hn as (Ha & Hn). constructor; auto.
  - rewrite lex_ch3 by done. destruct Hn as (Ha & Hn). constructor; auto.
Qed.

Lemma split_items_no_nl (l : list item) :
  Forall (fun i => is_nl i = false) l -> split_items l = [l].
Proof.
  induction 1 as [|i l Hi Hl IH]; [done|]. simpl. by rewrite Hi, IH.
Qed.

Lemma split_items_at_nl (l1 l2 : list item) :
  Forall (fun i => is_nl i = false) l1 ->
  split_items (l1 ++ Sp (String newline EmptyString) :: l2)
  = l1 :: split_items l2.
Proof.
  induction 1 as [|i l Hi Hl IH]; [done|].
  rewrite <- app_comm_cons. simpl. simpl in IH. by rewrite Hi, IH.
Qed.

(** Splitting the bytes at newlines and splitting the items at newline
    items give the same lines. *)
Lemma lex_SplitByte_len (n : nat) : forall s,
  (String.length s <= n)%nat ->
  lex <$> SplitByte newline s = split_items (lex s).
Proof.
  induction n as [|n IH]; intros s Hlen.
  { destruct s; [done|simpl in Hlen; lia]. }
  destruct (SplitByte_nl_first s) as (x & xs & Hs & Hx & Hr).
  rewrite Hs. destruct Hr as [[-> ->]|(r & -> & ->)].
  - simpl. by rewrite split_items_no_nl by (by apply lex_no_nl).
  - rewrite lex_app by done.
    rewrite (lex_sp1 newline r isSpace1_newline).
    rewrite split_items_at_nl by (by apply lex_no_nl).
    rewrite fmap_cons. f_equal. apply IH.
    rewrite slength_app in Hlen. simpl in Hlen. lia.
Qed.

Lemma lex_SplitByte (s : string) :
  lex <$> SplitByte newline s = split_items (lex s).
Proof. apply (lex_SplitByte_len (String.length s)). lia. Qed.

Lemma split_items_nonempty (l : list item) : split_items l <> [].
Proof.
  destruct l as [|i l]; [done|]. simpl.
  destruct (is_nl i); [done|]. by destruct (split_items l).
Qed.

(** ** Fields of the lines, and white space at either end *)

Lemma fields_items_snoc_sp (x : list item) (w : string) :
  fields_items (x ++ [Sp w]) = fields_items x.
Proof.
  induction x as [|i x IH]; [done|].
  destruct i as [v|c]; [done|].
  rewrite <- app_comm_cons. simpl.
  destruct x as [|[v|d] x]; [done| |].
  - rewrite <- app_comm_cons. simpl. simpl in IH. by rewrite IH.
  - rewrite <- app_comm_cons. rewrite <- app_comm_cons in IH. by rewrite IH.
Qed.

Lemma split_items_snoc_sp (l : list item) (w : string) :
  split_items (l ++ [Sp w])
  = if is_nl (Sp w) then split_items l ++ [[]]
    else app_last (split_items l) [Sp w].
Proof.
  induction l as [|i l IH].
  - simpl. by destruct (String.eqb w _).
  - rewrite <- app_comm_cons.
    change (split_items (i :: l ++ [Sp w])) with
      (if is_nl i then [] :: split_items (l ++ [Sp w])
       else match split_items (l ++ [Sp w]) with
            | x :: xs => (i :: x) :: xs
            | [] => [[i]]
            end).
    change (split_items (i :: l)) with
      (if is_nl i then [] :: split_items l
       else match split_items l with
            | x :: xs => (i :: x) :: xs
            | [] => [[i]]
            end).
    rewrite IH. pose proof (split_items_nonempty l) as Hne.
    destruct (split_items l) as [|x xs]; [done|].
    destruct (is_nl (Sp w)), (is_nl i); try done; by destruct xs.
Qed.

Lemma line_fields_snoc_sp (l : list item) (w : string) :
  nonblank (line_fields (l ++ [Sp w])) = nonblank (line_fields l).
Proof.
  unfold line_fields. rewrite split_items_snoc_sp.
  destruct (is_nl (Sp w)).
  - rewrite fmap_app. unfold nonblank. rewrite filter_app. simpl.
    rewrite filter_cons_False by (intros H; by apply H).
    by rewrite filter_nil, app_nil_r.
  - f_equal. pose proof (split_items_nonempty l) as Hne.
    induction (split_items l) as [|x xs IH]; [done|].
    destruct xs as [|x' xs].
    + simpl. by rewrite fields_items_snoc_sp.
    + change (app_last (x :: x' :: xs) [Sp w]) with (x :: app_last (x' :: xs) [Sp w]).
      rewrite !fmap_cons. f_equal. by apply IH.
Qed.

Lemma line_fields_app_spaces (l ws : list item) :
  Forall (fun i => is_sp i = true) ws ->
  nonblank (line_fields (l ++ ws)) = nonblank (line_fields l).
Proof.
  intros Hws. revert l. induction Hws as [|i ws Hi Hws IH]; intros l.
  - by rewrite app_nil_r.
  - destruct i as [w|c]; [|done].
    rewrite (cons_middle (Sp w) l ws), app_assoc, IH.
    apply line_fields_snoc_sp.
Qed.

Lemma line_fields_cons_sp (l : list item) (w : string) :
  nonblank (line_fields (Sp w :: l)) = nonblank (line_fields l).
Proof.
  unfold line_fields. simpl.
  pose proof (split_items_nonempty l) as Hne.
  destruct (String.eqb w _).
  - rewrite fmap_cons. unfold nonblank.
    by rewrite filter_cons_False by (intros H; by apply H).
  - by destruct (split_items l).
Qed.

Lemma line_fields_spaces_app (ws l : list item) :
  Forall (fun i => is_sp i = true) ws ->
  nonblank (line_fields (ws ++ l)) = nonblank (line_fields l).
Proof.
  induction 1 as [|i ws Hi Hws IH]; [done|].
  destruct i as [w|c]; [|done].
  rewrite <- app_comm_cons, line_fields_cons_sp. apply IH.
Qed.

Lemma line_fields_trim (l : list item) :
  nonblank (line_fields (trim_items l)) = nonblank (line_fields l).
Proof.
  destruct (trim_items_split l) as (ws1 & ws2 & H1 & H2 & E).
  rewrite E at 2.
  by rewrite line_fields_spaces_app, line_fields_app_spaces.
Qed.

(** The fields of the lines of a text do not depend on the white space
    [strings.TrimSpace] removes around it. *)
Lemma Fields_lines_TrimSpace (s : string) :
  nonblank (Fields <$> SplitByte newline (TrimSpace s))
  = nonblank (Fields <$> SplitByte newline s).
Proof.
  unfold Fields.
  rewrite !(list_fmap_compose lex fields_items), !lex_SplitByte, lex_TrimSpace.
  apply line_fields_trim.
Qed.

End StringFacts.
(* ===================================================================== *)
(** * The Directory Tree Builder                                           *)
(* ===================================================================== *)

Section TreeBuilder.
Import types tree.

Lemma fields_items_spaces (l : list item) :
  Forall (fun i => is_sp i = true) l -> fields_items l = [].
Proof.
  induction 1 as [|i l Hi Hl IH]; [done|]. by destruct i.
Qed.

Lemma unlex_nil_inv (l : list item) :
  Forall item_ok l -> unlex l = EmptyString -> l = [].
Proof.
  destruct l as [|i l]; [done|]. intros Hok. inversion Hok as [|? ? Hi _]; subst.
  rewrite unlex_cons. destruct i as [w|c]; [|done]. simpl.
  destruct Hi as [(a & -> & _)|[(a & b & -> & _)|(a & b & c & -> & _)]]; done.
Qed.

(** A line [strings.TrimSpace] empties has no fields. *)
Lemma blank_line_no_fields (line : string) :
  TrimSpace line = EmptyString -> Fields line = [].
Proof.
  intros Hb. apply (f_equal lex) in Hb. rewrite lex_TrimSpace in Hb.
  change (lex EmptyString) with (@nil item) in Hb.
  destruct (trim_items_split (lex line)) as (ws1 & ws2 & H1 & H2 & E).
  rewrite Hb in E. unfold Fields. rewrite E. apply fields_items_spaces.
  apply Forall_app. split; [done|]. by apply Forall_app.
Qed.

Lemma first_pass_line_eq (st : locals) (line : string) :
  first_pass_line st line =
  match node_of_fields (Fields line) with
  | Some node => {| structure := structure st ++ [node];
                    pathMap := <[Path node := node]> (pathMap st) |}
  | None => st
  end.
Proof.
  unfold first_pass_line.
  destruct (String.eqb (TrimSpace line) EmptyString) eqn:Eb.
  { apply String.eqb_eq in Eb. by rewrite (blank_line_no_fields line Eb). }
  destruct (Fields line) as [|path [|fileType [|? ?]]]; try done.
  simpl. destruct (HasPrefix path "/home/devlab"); [|done].
  simpl. by destruct (shouldSkipPath path).
Qed.

Lemma first_pass_structure (lines : list string) (st : locals) :
  structure (fold_left first_pass_line lines st)
  = structure st ++ omap node_of_fields (Fields <$> lines).
Proof.
  revert st. induction lines as [|line lines IH]; intros st.
  - simpl. by rewrite app_nil_r.
  - simpl fold_left. rewrite IH, first_pass_line_eq, fmap_cons. simpl omap.
    destruct (node_of_fields (Fields line)); [|done].
    simpl. by rewrite <- app_assoc.
Qed.

(** The second loop never writes to the slice that is returned. *)
Lemma second_pass_structure (keys : list string) (st : locals) :
  structure (fold_left second_pass_key keys st) = structure st.
Proof.
  revert st. induction keys as [|k keys IH]; intros st; [done|].
  simpl fold_left. rewrite IH. unfold second_pass_key.
  destruct (String.eqb k "/home/devlab"); [done|].
  by destruct (pathMap st !! getParentPath k).
Qed.

Lemma omap_nonblank (fs : list (list string)) :
  omap node_of_fields (nonblank fs) = omap node_of_fields fs.
Proof.
  induction fs as [|f fs IH]; [done|]. unfold nonblank in *.
  destruct f as [|x f].
  - rewrite filter_cons_False by (intros H; by apply H). done.
  - rewrite filter_cons_True by done.
    change (omap node_of_fields ((x :: f) :: filter (fun f => f <> []) fs))
      with (match node_of_fields (x :: f) with
            | Some y => y :: omap node_of_fields (filter (fun f => f <> []) fs)
            | None => omap node_of_fields (filter (fun f => f <> []) fs)
            end).
    by rewrite IH.
Qed.

(** What [parseDirectoryStructure] returns, for every order of the map
    iteration: one node per line that has exactly two fields, a path that
    starts with the root and no cache prefix; and a [nil] error. *)
Lemma parseDirectoryStructure_eq (order : map_order) (output : string) :
  parseDirectoryStructure order output
  = (omap node_of_fields (Fields <$> SplitByte newline output), None).
Proof.
  unfold parseDirectoryStructure, parse_locals.
  rewrite <- (omap_nonblank (Fields <$> SplitByte newline output)).
  rewrite <- Fields_lines_TrimSpace, omap_nonblank.
  destruct (length (SplitByte newline (TrimSpace output)) =? 0)%nat eqn:El.
  - apply Nat.eqb_eq in El. apply length_zero_iff_nil in El. by rewrite El.
  - by rewrite second_pass_structure, first_pass_structure.
Qed.

Lemma node_of_fields_Some (fs : list string) (n : FileNode) :
  node_of_fields fs = Some n ->
  exists fileType,
    fs = [Path n; fileType]
    /\ HasPrefix (Path n) "/home/devlab" = true
    /\ shouldSkipPath (Path n) = false
    /\ Type_ n = getNodeType fileType
    /\ IsRoot n = String.eqb (Path n) "/home/devlab"
    /\ Children n = [].
Proof.
  destruct fs as [|path [|fileType [|? ?]]]; try done. simpl.
  destruct (HasPrefix path "/home/devlab") eqn:Ep; [|done]. simpl.
  destruct (shouldSkipPath path) eqn:Es; [done|].
  intros [= <-]. exists fileType. by simpl.
Qed.

(** The builder is total and its error is always [nil]; every node it
    returns comes from a line of the trimmed text with exactly two fields
    whose path starts with the text of the root and with none of the cache
    prefixes. *)
Lemma parseDirectoryStructure_total (order : map_order) (output : string) :
  (parseDirectoryStructure order output).2 = None
  /\ forall n, n ∈ (parseDirectoryStructure order output).1 ->
       exists line fileType,
         line ∈ SplitByte newline output
         /\ Fields line = [Path n; fileType]
         /\ HasPrefix (Path n) "/home/devlab" = true
         /\ shouldSkipPath (Path n) = false.
Proof.
  rewrite parseDirectoryStructure_eq. split; [done|]. simpl. intros n Hn.
  apply list_elem_of_omap in Hn as (fs & Hfs & Hn).
  apply list_elem_of_fmap in Hfs as (line & -> & Hline).
  apply node_of_fields_Some in Hn as (ty & Hf & Hp & Hs & _).
  by exists line, ty.
Qed.

(** Lines the loop passes over leave no trace: a text made only of blank
    lines, of lines without exactly two fields, of paths that do not start
    with the root text or that start with a cache prefix, gives no node. *)
Lemma parseDirectoryStructure_passed_over (order : map_order) (output : string) :
  Forall passed_over (SplitByte newline output) ->
  parseDirectoryStructure order output = ([], None).
Proof.
  intros Hall. rewrite parseDirectoryStructure_eq. f_equal.
  induction Hall as [|line lines Hl Hall IH]; [done|].
  rewrite fmap_cons.
  change (omap node_of_fields (Fields line :: (Fields <$> lines)))
    with (match node_of_fields (Fields line) with
          | Some y => y :: omap node_of_fields (Fields <$> lines)
          | None => omap node_of_fields (Fields <$> lines)
          end).
  rewrite IH. unfold passed_over in Hl.
  destruct (Fields line) as [|path [|fileType [|? ?]]]; try done. simpl.
  destruct Hl as [-> | Hs]; [done|]. rewrite Hs. by destruct (HasPrefix _ _).
Qed.

Lemma SplitByte_nonempty (sep : ascii) (s : string) : SplitByte sep s <> [].
Proof.
  destruct s as [|c s]; [done|]. simpl.
  destruct (Ascii.eqb c sep); [done|]. by destruct (SplitByte sep s).
Qed.

Lemma SplitByte_app_sep (sep : ascii) (x r : string) :
  SplitByte sep (x +:+ String sep r) = SplitByte sep x ++ SplitByte sep r.
Proof.
  induction x as [|c x IH].
  - rewrite sapp_nil. simpl. by rewrite Ascii.eqb_refl.
  - rewrite sapp_cons. simpl. rewrite IH.
    destruct (Ascii.eqb c sep); [done|].
    pose proof (SplitByte_nonempty sep x). by destruct (SplitByte sep x).
Qed.

Lemma SplitByte_listing_text (entries : list string) :
  SplitByte newline (listing_text entries)
  = (entries ≫= SplitByte newline) ++ [EmptyString].
Proof.
  induction entries as [|e es IH]; [done|].
  simpl listing_text. rewrite SplitByte_app_sep, IH.
  by rewrite bind_cons, <- app_assoc.
Qed.

End TreeBuilder.

(** C9.  Order-insensitivity: whatever order the listing comes in, and
    whatever order Go iterates the map in, the builder returns the same
    nodes (path, type, root flag, children and the other fields), each as
    often as before, and the same error. *)
Theorem parseDirectoryStructure_order_insensitive
    (order1 order2 : tree.map_order) (l1 l2 : list string) :
  l1 ≡ₚ l2 ->
  (tree.parseDirectoryStructure order1 (tree.listing_text l1)).1
    ≡ₚ (tree.parseDirectoryStructure order2 (tree.listing_text l2)).1
  /\ (tree.parseDirectoryStructure order1 (tree.listing_text l1)).2
     = (tree.parseDirectoryStructure order2 (tree.listing_text l2)).2.
Proof.
  intros Hperm. rewrite !parseDirectoryStructure_eq. split; [|done]. simpl.
  rewrite !SplitByte_listing_text, !fmap_app, !omap_app.
  by rewrite Hperm.
Qed.

Lemma parseDirectoryStructure_order_insensitive_witness :
  [tree.entry "/home/devlab/a" "f"; tree.entry "/home/devlab" "d"]
    ≡ₚ [tree.entry "/home/devlab" "d"; tree.entry "/home/devlab/a" "f"]
  /\ (tree.parseDirectoryStructure tree.keys_order
        (tree.listing_text [tree.entry "/home/devlab/a" "f"; tree.entry "/home/devlab" "d"])).1
     ≡ₚ (tree.parseDirectoryStructure tree.keys_order
           (tree.listing_text [tree.entry "/home/devlab" "d"; tree.entry "/home/devlab/a" "f"])).1.
Proof.
  split; [apply Permutation_swap|].
  apply (parseDirectoryStructure_order_insensitive tree.keys_order tree.keys_order).
  apply Permutation_swap.
Defined.

(** Every node the builder returns has an empty children list: the links
    the second loop builds go into the nodes [pathMap] points to, and the
    returned slice holds copies made before any link existed. *)
Lemma parseDirectoryStructure_children_nil (order : tree.map_order) (output : string) :
  Forall (fun n => types.Children n = []) (tree.parseDirectoryStructure order output).1.
Proof.
  rewrite parseDirectoryStructure_eq. simpl. apply Forall_forall. intros n Hn.
  apply list_elem_of_omap in Hn as (fs & _ & Hn).
  by apply node_of_fields_Some in Hn as (ty & _ & _ & _ & _ & _ & Hc).
Qed.

(** C5 (the code at the listing of the claim).  The four nodes come back
    with empty children lists: the root does not list its two children, and
    no node is a child of any returned node. *)
Theorem parseDirectoryStructure_listing_C5 (order : tree.map_order) :
  tree.parseDirectoryStructure order listing_C5
  = ([ plain_node "/home/devlab" "folder" true;
       plain_node "/home/devlab/a" "file" false;
       plain_node "/home/devlab/b" "folder" false;
       plain_node "/home/devlab/b/c" "file" false ], None).
Proof. rewrite parseDirectoryStructure_eq. reflexivity. Qed.

(** The links exist, but only in the map the function drops at return. *)
Example parse_locals_listing_C5 :
  types.Children <$> (tree.pathMap (tree.parse_locals tree.keys_order listing_C5)
                        !! "/home/devlab")
    = Some ["/home/devlab/a"; "/home/devlab/b"]
  /\ types.Children <$> (tree.pathMap (tree.parse_locals tree.keys_order listing_C5)
                           !! "/home/devlab/b")
     = Some ["/home/devlab/b/c"].
Proof. split; vm_compute; reflexivity. Qed.

(** With the paths of the claim taken literally (root [/root]) nothing
    passes the root test of the code. *)
Example parseDirectoryStructure_listing_root (order : tree.map_order) :
  tree.parseDirectoryStructure order
    (tree.listing_text [ tree.entry "/root" "d"; tree.entry "/root/a" "f";
                         tree.entry "/root/b" "d"; tree.entry "/root/b/c" "f" ])
  = ([], None).
Proof. rewrite parseDirectoryStructure_eq. reflexivity. Qed.

(** C10 (the code at the failing input).  A path outside the workspace
    root whose text starts with the text of the root is not passed over:
    it gets a node. *)
Theorem parseDirectoryStructure_sibling_of_root (order : tree.map_order) :
  tree.parseDirectoryStructure order
    (tree.listing_text [tree.entry "/home/devlabx" "d"])
  = ([plain_node "/home/devlabx" "folder" false], None).
Proof. rewrite parseDirectoryStructure_eq. reflexivity. Qed.

(** The same through [find]: a directory whose name ends in a newline
    puts a line of its own into the listing. *)
Example parseDirectoryStructure_newline_in_name (order : tree.map_order) :
  tree.parseDirectoryStructure order
    (tree.listing_text
       [ tree.entry "/home/devlab" "d";
         tree.entry ("/home/devlab/x" +:+ String newline "/home/devlabx") "d" ])
  = ([ plain_node "/home/devlab" "folder" true;
       plain_node "/home/devlabx" "folder" false ], None).
Proof. rewrite parseDirectoryStructure_eq. reflexivity. Qed.

Example parseDirectoryStructure_skips :
  tree.parseDirectoryStructure tree.keys_order EmptyString = ([], None)
  /\ tree.parseDirectoryStructure tree.keys_order
       (tree.listing_text [ "   "; "one"; "a b c"; tree.entry "/tmp/x" "f";
                            tree.entry "/home/devlab/.cache/pip" "d" ])
     = ([], None).
Proof. split; reflexivity. Qed.

Example Fields_examples :
  Fields "/home/devlab/a f" = ["/home/devlab/a"; "f"]
  /\ Fields (String (ascii_of_N 0xC2) (String (ascii_of_N 0xA0) "a  b ")) = ["a"; "b"]
  /\ TrimSpace (String newline " a b  ") = "a b"
  /\ SplitByte newline (String "a" (String newline (String newline "b")))
     = ["a"; EmptyString; "b"].
Proof. repeat split; reflexivity. Qed.

Example Dir_examples :
  Dir "/home/devlab/a" = "/home/devlab" /\ Dir "/home/devlab" = "/home"
  /\ Dir "a" = "." /\ Dir "/" = "/" /\ Dir "/a" = "/"
  /\ Dir "/home/devlab/b/../c" = "/home/devlab" /\ Dir "x/y/" = "x/y"
  /\ Dir "../../a" = "../..".
Proof. repeat split; reflexivity. Qed.

(* ===================================================================== *)
(** * Host-port allocation                                                 *)
(* ===================================================================== *)

Section PortAllocation.
Import docker.

(** The loop from any port of the range on, with fuel for the tests that
    are left: it ends, probes only ports from there to 3009, and returns the
    first free one or the exhaustion error. *)
Lemma findAvailablePort_loop_spec (listen : Z -> bool) (fuel : nat) : forall port,
  3001 <= port <= 3010 -> (Z.to_nat (3010 - port) < fuel)%nat ->
  exists r probed,
    findAvailablePort_loop fuel listen port = Some (r, probed)
    /\ Forall (fun p => port <= p < 3010) probed
    /\ (length probed <= Z.to_nat (3010 - port))%nat
    /\ ((exists p, r = Ok p /\ port <= p < 3010 /\ listen p = true
                   /\ forall q, port <= q < p -> listen q = false)
        \/ (exists e, r = Err e /\ errors_Is e docker_ErrPortUnavailable = true
                      /\ forall q, port <= q < 3010 -> listen q = false)).
Proof.
  induction fuel as [|fuel IH]; intros port Hport Hfuel; [lia|].
  simpl. destruct (Z.ltb_spec port 3010) as [Hlt|Hge].
  - destruct (listen port) eqn:El.
    + exists (Ok port), [port]. split; [done|]. split; [repeat constructor; lia|].
      split; [simpl; lia|]. left. exists port.
      split; [done|]. split; [lia|]. split; [done|]. intros q Hq. lia.
    + destruct (IH (port + 1)) as (r & probed & Hloop & Hin & Hlen & Hres); [lia|lia|].
      rewrite Hloop. exists r, (port :: probed). split; [done|]. split.
      { constructor; [lia|]. eapply Forall_impl; [exact Hin|]. simpl. intros; lia. }
      split; [simpl; lia|].
      destruct Hres as [(p & -> & Hp & Hlp & Hbelow)|(e & -> & He & Hall)].
      * left. exists p. split; [done|]. split; [lia|]. split; [done|].
        intros q Hq.
        destruct (decide (q = port)) as [->|]; [done|]. apply Hbelow. lia.
      * right. exists e. split; [done|]. split; [done|]. intros q Hq.
        destruct (decide (q = port)) as [->|]; [done|]. apply Hall. lia.
  - eexists _, []. split; [done|]. split; [constructor|]. split; [simpl; lia|].
    right. eexists. split; [done|]. split; [done|]. intros q Hq. lia.
Qed.

End PortAllocation.

(** C8.  For every availability of the ports, the allocation loop ends
    within ten tests of its condition, probes at most the nine ports
    3001..3009, each at most once and in order, and returns either the
    lowest free port of that range or, when none of them is free, an error
    that is [ErrPortUnavailable]. *)
Theorem findAvailablePort_bounded (listen : Z -> bool) :
  exists r probed,
    docker.findAvailablePort_loop 10 listen 3001 = Some (r, probed)
    /\ docker.findAvailablePort listen = r
    /\ Forall (fun p => 3001 <= p < 3010) probed
    /\ (length probed <= 9)%nat
    /\ ((exists p, r = Ok p /\ 3001 <= p < 3010 /\ listen p = true
                   /\ forall q, 3001 <= q < p -> listen q = false)
        \/ (exists e, r = Err e /\ errors_Is e docker_ErrPortUnavailable = true
                      /\ forall q, 3001 <= q < 3010 -> listen q = false)).
Proof.
  destruct (findAvailablePort_loop_spec listen 10 3001) as (r & probed & Hl & Hin & Hlen & Hres);
    [lia|simpl; lia|].
  exists r, probed. split; [done|]. split.
  { unfold docker.findAvailablePort. by rewrite Hl. }
  split; [done|]. split; [|done]. simpl in Hlen. lia.
Qed.

Example findAvailablePort_examples :
  docker.findAvailablePort (fun _ => true) = Ok 3001
  /\ docker.findAvailablePort (fun p => 3005 <=? p) = Ok 3005
  /\ docker.findAvailablePort (fun p => 3010 <=? p)
     = Err (Errorf_w "%w: no available ports found in range 3001-3009"
              (ErrVar docker_ErrPortUnavailable))
  /\ docker.findAvailablePort_loop 9 (fun _ => false) 3001 = None.
Proof. repeat split; reflexivity. Qed.

(* ===================================================================== *)
(** * The metadata store                                                   *)
(* ===================================================================== *)

#[global] Arguments storage.UpdateScenario : simpl never.
#[global] Arguments storage.GetScenario : simpl never.
#[global] Arguments storage.StoreScenario : simpl never.

Section StoreFacts.
Import storage.
Context {R : Type} (env : Env).

Lemma find_first_id (sid : string) (docs : list Scenario) (d : Scenario) :
  find_first sid docs = Some d -> ScenarioID d = sid.
Proof.
  induction docs as [|x docs IH]; [done|]. simpl.
  destruct (decide (ScenarioID x = sid)); [by intros [= <-]|done].
Qed.

Lemma find_first_elem (sid : string) (docs : list Scenario) (d : Scenario) :
  find_first sid docs = Some d -> d ∈ docs.
Proof.
  induction docs as [|x docs IH]; [done|]. simpl.
  destruct (decide (ScenarioID x = sid)).
  - intros [= <-]. apply list_elem_of_here.
  - intros H. apply list_elem_of_further. auto.
Qed.

Lemma find_first_is_Some (sid : string) (docs : list Scenario) :
  (exists d, d ∈ docs /\ ScenarioID d = sid) -> is_Some (find_first sid docs).
Proof.
  induction docs as [|x docs IH]; intros (d & Hd & Hid).
  - by apply elem_of_nil in Hd.
  - simpl. destruct (decide (ScenarioID x = sid)); [done|].
    apply IH. apply elem_of_cons in Hd as [->|Hd]; [done|]. eauto.
Qed.

Lemma find_first_update_first (sid : string) (s d : Scenario) (docs : list Scenario) :
  ScenarioID s = sid -> find_first sid docs = Some d ->
  find_first sid (update_first sid s docs) = Some (apply_set d s).
Proof.
  intros Hs. induction docs as [|x docs IH]; [done|]. simpl.
  destruct (decide (ScenarioID x = sid)) as [Hx|Hx].
  - intros [= <-]. simpl. by rewrite decide_True.
  - intros Hf. simpl. rewrite decide_False by done. auto.
Qed.

Lemma find_first_update_first_ne (sid sid' : string) (s : Scenario)
    (docs : list Scenario) :
  ScenarioID s = sid -> sid' <> sid ->
  find_first sid' (update_first sid s docs) = find_first sid' docs.
Proof.
  intros Hs Hne. induction docs as [|x docs IH]; [done|]. simpl.
  destruct (decide (ScenarioID x = sid)) as [Hx|Hx]; simpl.
  - rewrite Hs. rewrite !decide_False by congruence. done.
  - destruct (decide (ScenarioID x = sid')); [done|]. apply IH.
Qed.

Lemma update_first_ids (sid : string) (s : Scenario) (docs : list Scenario) :
  ScenarioID s = sid ->
  ScenarioID <$> update_first sid s docs = ScenarioID <$> docs.
Proof.
  intros Hs. induction docs as [|x docs IH]; [done|]. simpl update_first.
  destruct (decide (ScenarioID x = sid)) as [Hx|Hx]; rewrite !fmap_cons.
  - simpl. by rewrite Hs, Hx.
  - by rewrite IH.
Qed.

(** [GetScenario] returns a record exactly when the handle is live, the id
    is not empty, [FindOne] does not fail and the collection holds a
    document with the id. *)
Lemma GetScenario_Ok (ctx : Context_) (db : Database) (sid : string)
    (w w1 : World R) (s : Scenario) :
  GetScenario env ctx db sid w = (Ok s, w1) ->
  db = db_handle /\ sid <> EmptyString
  /\ store_fails env (steps w) (FindOne sid) = false
  /\ w1 = tick w /\ find_first sid (collection w) = Some s.
Proof.
  unfold GetScenario. destruct db; [done|].
  destruct (String.eqb sid EmptyString) eqn:Es; [done|].
  apply String.eqb_neq in Es.
  unfold bind, store_op, gets, ret. simpl.
  destruct (store_fails env (steps w) (FindOne sid)); [done|].
  destruct (find_first sid (collection w)) as [d|]; [|done].
  by intros [= <- <-].
Qed.

Lemma GetScenario_found (ctx : Context_) (sid : string) (w : World R) (s : Scenario) :
  sid <> EmptyString ->
  store_fails env (steps w) (FindOne sid) = false ->
  find_first sid (collection w) = Some s ->
  GetScenario env ctx db_handle sid w = (Ok s, tick w).
Proof.
  intros Hs Hf Hd. unfold GetScenario.
  apply String.eqb_neq in Hs. rewrite Hs.
  unfold bind, store_op, gets, ret. simpl. by rewrite Hf, Hd.
Qed.

(** [UpdateScenario] on a live handle, for a record with an id. *)
Lemma UpdateScenario_eq (ctx : Context_) (s : Scenario) (w : World R) :
  ScenarioID s <> EmptyString ->
  UpdateScenario env ctx db_handle (Some s) w =
  if store_fails env (S (steps w)) (UpdateOne (ScenarioID s))
  then (Some (Errorf_w "failed to update scenario: %w" (ErrText "UpdateOne")),
        tick (tick w))
  else (None,
        mkWorld (runtime w)
          (update_first (ScenarioID s) (stamped s (clock env (steps w))) (collection w))
          (S (S (steps w)))).
Proof.
  intros Hs. unfold UpdateScenario. apply String.eqb_neq in Hs. rewrite Hs.
  unfold bind, time_Now, store_op, gets, ret, set_collection. simpl.
  by destruct (store_fails env (S (steps w)) (UpdateOne (ScenarioID s))).
Qed.

Lemma persisted_status_update (sid : string) (s d : Scenario) (docs : list Scenario)
    (r : R) (n : nat) :
  ScenarioID s = sid -> find_first sid docs = Some d ->
  persisted_status (mkWorld r (update_first sid s docs) n) sid = Some (Status s).
Proof.
  intros Hs Hd. unfold persisted_status. simpl.
  by rewrite (find_first_update_first sid s d docs Hs Hd).
Qed.

End StoreFacts.

(* ===================================================================== *)
(** * RealClient on the engine                                             *)
(* ===================================================================== *)

Section EngineFacts.
Import docker.
Context (ee : EngineEnv).

Ltac run_engine :=
  repeat (unfold bind, ret, gets, inspect, engine_op, set_containers, stop, remove,
            after_calls;
          simpl).

Lemma Real_ContainerExists_eq (containerID : string) (e : Engine) :
  containerID <> EmptyString ->
  Real_ContainerExists ee ctx_background containerID e =
  if engine_fails ee (calls e) NewClientWithOpts containerID
  then (Err (Errorf_w "%w: %v" (ErrVar docker_ErrDockerDaemonUnavailable)),
        after_calls 1 e)
  else if engine_fails ee (S (calls e)) ContainerInspect containerID
  then (Err (Errorf_w "failed to inspect container: %w" (ErrText "ContainerInspect")),
        after_calls 2 e)
  else (Ok (bool_decide (is_Some (containers e !! containerID))), after_calls 2 e).
Proof.
  intros Hne. apply String.eqb_neq in Hne. unfold Real_ContainerExists. rewrite Hne.
  run_engine.
  destruct (engine_fails ee (calls e) NewClientWithOpts containerID); [done|].
  run_engine.
  destruct (engine_fails ee (S (calls e)) ContainerInspect containerID); [done|].
  by destruct (containers e !! containerID).
Qed.

Lemma Real_GetContainerStatus_eq (containerID : string) (e : Engine) :
  containerID <> EmptyString ->
  Real_GetContainerStatus ee ctx_background containerID e =
  if engine_fails ee (calls e) NewClientWithOpts containerID
  then (Err (Errorf_w "%w: %v" (ErrVar docker_ErrDockerDaemonUnavailable)),
        after_calls 1 e)
  else if engine_fails ee (S (calls e)) ContainerInspect containerID
  then (Err (Errorf_w "%w: %v" (ErrVar docker_ErrContainerNotFound)), after_calls 2 e)
  else
    match containers e !! containerID with
    | None => (Err (Errorf_w "%w: %v" (ErrVar docker_ErrContainerNotFound)),
               after_calls 2 e)
    | Some c => (Ok (State_Status c), after_calls 2 e)
    end.
Proof.
  intros Hne. apply String.eqb_neq in Hne. unfold Real_GetContainerStatus. rewrite Hne.
  run_engine.
  destruct (engine_fails ee (calls e) NewClientWithOpts containerID); [done|].
  run_engine.
  destruct (engine_fails ee (S (calls e)) ContainerInspect containerID); [done|].
  by destruct (containers e !! containerID).
Qed.

Lemma Real_GetTerminalURL_eq (containerID : string) (e : Engine) :
  containerID <> EmptyString ->
  Real_GetTerminalURL ee ctx_background containerID e =
  if engine_fails ee (calls e) NewClientWithOpts containerID
  then (Err (Errorf_w "%w: %v" (ErrVar docker_ErrDockerDaemonUnavailable)),
        after_calls 1 e)
  else if engine_fails ee (S (calls e)) ContainerInspect containerID
  then (Err (Errorf_w "%w: %v" (ErrVar docker_ErrContainerNotFound)), after_calls 2 e)
  else
    match containers e !! containerID with
    | None => (Err (Errorf_w "%w: %v" (ErrVar docker_ErrContainerNotFound)),
               after_calls 2 e)
    | Some c =>
        if negb (String.eqb (State_Status c) "running")
        then (Err (Errorf_w "%w: container status is %s"
                     (ErrVar docker_ErrContainerNotRunning)), after_calls 2 e)
        else
          match Ports c with
          | None => (Err (ErrText "no port mappings found for container %s"),
                     after_calls 2 e)
          | Some ports =>
              match ports !! "3000/tcp" with
              | None | Some [] =>
                  (Err (ErrText "port 3000 not mapped for container %s"), after_calls 2 e)
              | Some (binding :: _) =>
                  (Ok ("http://"
                       +:+ (if String.eqb (HostIP binding) EmptyString
                            then "localhost" else HostIP binding)
                       +:+ ":" +:+ HostPort binding), after_calls 2 e)
              end
          end
    end.
Proof.
  intros Hne. apply String.eqb_neq in Hne. unfold Real_GetTerminalURL. rewrite Hne.
  run_engine.
  destruct (engine_fails ee (calls e) NewClientWithOpts containerID); [done|].
  run_engine.
  destruct (engine_fails ee (S (calls e)) ContainerInspect containerID); [done|].
  destruct (containers e !! containerID) as [c|]; [|done]. simpl.
  destruct (negb (String.eqb (State_Status c) "running")); [done|].
  destruct (Ports c) as [ports|]; [|done].
  by destruct (ports !! "3000/tcp") as [[|? ?]|].
Qed.

(** [StopContainer] when no call for the container fails: a container
    that is not there is reported as not found, one that is there is stopped
    if need be and removed. *)
Lemma Real_StopContainer_healthy (containerID : string) (e : Engine) :
  containerID <> EmptyString ->
  (forall t api, engine_fails ee t api containerID = false) ->
  Real_StopContainer ee ctx_background containerID e =
  match containers e !! containerID with
  | None => (Some (Errorf_w "%w: container %s" (ErrVar docker_ErrContainerNotFound)),
             after_calls 2 e)
  | Some c =>
      if String.eqb (State_Status c) "exited" || String.eqb (State_Status c) "stopped"
      then (None, mkEngine (delete containerID (containers e)) (3 + calls e))
      else (None, mkEngine (delete containerID (containers e)) (4 + calls e))
  end.
Proof.
  intros Hne Hok. apply String.eqb_neq in Hne. unfold Real_StopContainer. rewrite Hne.
  do 3 (rewrite ?Hok; run_engine).
  destruct (containers e !! containerID) as [c|] eqn:Ec; [|done]. simpl.
  destruct (String.eqb (State_Status c) "exited" || String.eqb (State_Status c) "stopped").
  - do 3 (rewrite ?Hok; run_engine). done.
  - do 3 (rewrite ?Hok; run_engine).
    f_equal. f_equal. apply map_eq. intros k.
    destruct (decide (k = containerID)) as [->|Hk].
    + by rewrite !lookup_delete_eq.
    + rewrite !lookup_delete_ne by done. by rewrite lookup_alter_ne.
Qed.

(** [RemoveContainer] when no call for the container fails. *)
Lemma Real_RemoveContainer_healthy (containerID : string) (e : Engine) :
  containerID <> EmptyString ->
  (forall t api, engine_fails ee t api containerID = false) ->
  exists err n,
    Real_RemoveContainer ee ctx_background containerID e
    = (err, mkEngine (delete containerID (containers e)) n).
Proof.
  intros Hne Hok. apply String.eqb_neq in Hne. unfold Real_RemoveContainer. rewrite Hne.
  do 3 (rewrite ?Hok; run_engine).
  destruct (containers e !! containerID) as [c|] eqn:Ec; simpl.
  - destruct (String.eqb (State_Status c) "running").
    + do 3 (rewrite ?Hok; run_engine).
      eexists _, _. f_equal. f_equal. apply map_eq. intros k.
      destruct (decide (k = containerID)) as [->|Hk].
      * by rewrite !lookup_delete_eq.
      * rewrite !lookup_delete_ne by done. by rewrite lookup_alter_ne.
    + do 3 (rewrite ?Hok; run_engine). by eexists _, _.
  - eexists _, _. f_equal. f_equal. by rewrite delete_id.
Qed.

Lemma only_touches_id containerID e : only_touches containerID e e.
Proof. by split. Qed.

Lemma only_touches_refl containerID e n :
  only_touches containerID e (mkEngine (containers e) n).
Proof. by split. Qed.

Lemma only_touches_delete containerID e n :
  only_touches containerID e (mkEngine (delete containerID (containers e)) n).
Proof.
  split.
  - intros k Hk. simpl. by rewrite lookup_delete_ne.
  - intros _. simpl. by rewrite lookup_delete_eq.
Qed.

Lemma only_touches_alter containerID f e n :
  only_touches containerID e (mkEngine (alter f containerID (containers e)) n).
Proof.
  split.
  - intros k Hk. simpl. by rewrite lookup_alter_ne.
  - intros Hn. simpl. by rewrite lookup_alter_eq, Hn.
Qed.

Lemma only_touches_delete_alter containerID f e n :
  only_touches containerID e
    (mkEngine (delete containerID (alter f containerID (containers e))) n).
Proof.
  split.
  - intros k Hk. simpl. by rewrite lookup_delete_ne, lookup_alter_ne.
  - intros _. simpl. by rewrite lookup_delete_eq.
Qed.

Create HintDb engine.
#[local] Hint Resolve only_touches_id only_touches_refl only_touches_delete
  only_touches_alter only_touches_delete_alter : engine.

Ltac touches := simpl; auto with engine.

(** Whatever fails, the four methods the sweeps and the manager use only
    ever stop and remove the container they are called for: every other
    container stays as it is, and no container appears. *)
Lemma Real_ContainerExists_touches ctx containerID e :
  only_touches containerID e (Real_ContainerExists ee ctx containerID e).2.
Proof.
  unfold Real_ContainerExists. destruct ctx; [touches|].
  destruct (String.eqb containerID EmptyString); [touches|].
  run_engine.
  destruct (engine_fails ee (calls e) NewClientWithOpts containerID);
    [touches|].
  run_engine.
  destruct (engine_fails ee (S (calls e)) ContainerInspect containerID);
    [touches|].
  destruct (containers e !! containerID); touches.
Qed.

Lemma Real_GetContainerStatus_touches ctx containerID e :
  only_touches containerID e (Real_GetContainerStatus ee ctx containerID e).2.
Proof.
  unfold Real_GetContainerStatus. destruct ctx; [touches|].
  destruct (String.eqb containerID EmptyString); [touches|].
  run_engine.
  destruct (engine_fails ee (calls e) NewClientWithOpts containerID);
    [touches|].
  run_engine.
  destruct (engine_fails ee (S (calls e)) ContainerInspect containerID);
    [touches|].
  destruct (containers e !! containerID); touches.
Qed.

Lemma Real_StopContainer_touches ctx containerID e :
  only_touches containerID e (Real_StopContainer ee ctx containerID e).2.
Proof.
  unfold Real_StopContainer. destruct ctx; [touches|].
  destruct (String.eqb containerID EmptyString); [touches|].
  run_engine.
  destruct (engine_fails ee (calls e) NewClientWithOpts containerID);
    [touches|].
  run_engine.
  destruct (engine_fails ee (S (calls e)) ContainerInspect containerID);
    [touches|].
  destruct (containers e !! containerID) as [c|]; [|touches]. simpl.
  destruct (String.eqb (State_Status c) "exited" || String.eqb (State_Status c) "stopped").
  - run_engine.
    destruct (engine_fails ee (S (S (calls e))) ContainerRemove containerID);
      touches.
  - run_engine.
    destruct (engine_fails ee (S (S (calls e))) ContainerStop containerID);
      [touches|].
    run_engine.
    destruct (engine_fails ee (S (S (S (calls e)))) ContainerRemove containerID);
      touches.
Qed.

Lemma Real_RemoveContainer_touches ctx containerID e :
  only_touches containerID e (Real_RemoveContainer ee ctx containerID e).2.
Proof.
  unfold Real_RemoveContainer. destruct ctx; [touches|].
  destruct (String.eqb containerID EmptyString); [touches|].
  run_engine.
  destruct (engine_fails ee (calls e) NewClientWithOpts containerID);
    [touches|].
  run_engine.
  destruct (engine_fails ee (S (calls e)) ContainerInspect containerID);
    [touches|].
  destruct (containers e !! containerID) as [c|]; [|touches]. simpl.
  destruct (String.eqb (State_Status c) "running").
  - run_engine.
    destruct (engine_fails ee (S (S (calls e))) ContainerStop containerID);
      [touches|].
    run_engine.
    destruct (engine_fails ee (S (S (S (calls e)))) ContainerRemove containerID);
      touches.
  - run_engine.
    destruct (engine_fails ee (S (S (calls e))) ContainerRemove containerID);
      touches.
Qed.

Lemma only_touches_trans containerID e1 e2 e3 :
  only_touches containerID e1 e2 -> only_touches containerID e2 e3 ->
  only_touches containerID e1 e3.
Proof.
  intros [Ha Hb] [Hc Hd]. split.
  - intros k Hk. by rewrite Hc, Ha.
  - auto.
Qed.

End EngineFacts.

#[global] Arguments docker.Real_ContainerExists : simpl never.
#[global] Arguments docker.Real_GetContainerStatus : simpl never.
#[global] Arguments docker.Real_GetTerminalURL : simpl never.
#[global] Arguments docker.Real_StopContainer : simpl never.
#[global] Arguments docker.Real_RemoveContainer : simpl never.
#[global] Arguments docker.Real_ListContainers : simpl never.
#[global] Arguments docker.Real_StartScenarioContainer : simpl never.
#[global] Arguments docker.Real_ExecuteCommand : simpl never.

(* ===================================================================== *)
(** * GetScenarioStatus: reconciliation                                    *)
(* ===================================================================== *)

Section Reconciliation.
Import storage docker.
Context {R : Type} {Docker : Client R} (env : Env) (m : scenario.Manager).

Lemma persisted_status_tick (w : World R) (sid : string) :
  persisted_status (tick w) sid = persisted_status w sid.
Proof. reflexivity. Qed.

(** The update [GetScenarioStatus] issues for a transition: the status it
    writes is the status the collection holds afterwards, unless the store
    refuses the update. *)
Lemma update_status_persisted (ctx : Context_) (s : Scenario) (status : string)
    (now : Z) (w : World R) :
  ScenarioID s <> EmptyString ->
  find_first (ScenarioID s) (collection w) = Some s ->
  (forall t, store_fails env t (UpdateOne (ScenarioID s)) = false) ->
  persisted_status
    (UpdateScenario env ctx db_handle (Some (scenario.with_status s status now)) w).2
    (ScenarioID s)
  = Some status.
Proof.
  intros Hid Hfound Hok.
  rewrite UpdateScenario_eq by done. simpl. rewrite Hok. simpl.
  by erewrite persisted_status_update.
Qed.

End Reconciliation.

(** C1 (as amended).  For every record [GetScenarioStatus] finds, the
    status it returns follows the reconciliation rule; the returned status
    is also the persisted one whenever the store accepts the update of that
    record (a refused update is logged and the call still succeeds). *)
Theorem GetScenarioStatus_reconciles {R : Type} {Docker : docker.Client R}
    (env : storage.Env) (m : scenario.Manager) (ctx : Context_) (sid : string)
    (w w1 : storage.World R) (s : storage.Scenario) :
  ctx = ctx_background ->
  storage.GetScenario env ctx (scenario.DB m) sid w = (Ok s, w1) ->
  exists resp w',
    scenario.GetScenarioStatus env m ctx sid w = (Ok resp, w')
    /\ api_types.Status resp
       = reconcile (storage.Status s)
           (observe ctx (storage.ContainerID s) (storage.runtime w))
    /\ ((forall t, storage.store_fails env t (storage.UpdateOne sid) = false) ->
        storage.persisted_status w' sid = Some (api_types.Status resp)).
Proof.
  intros -> Hget.
  pose proof (GetScenario_Ok env _ _ _ _ _ _ Hget) as (Hdb & Hsid & Hf & -> & Hfound).
  pose proof (find_first_id _ _ _ Hfound) as Hid.
  unfold scenario.GetScenarioStatus.
  apply String.eqb_neq in Hsid as Hsid'. rewrite Hsid'.
  unfold bind at 1. rewrite Hget. rewrite Hdb.
  unfold observe, bind, scenario.on_docker, ret, storage.time_Now. simpl.
  destruct (docker.ContainerExists ctx_background (storage.ContainerID s) (storage.runtime w))
    as [[[|]|e] r1] eqn:Ex; simpl.
  - (* the container exists *)
    destruct (docker.GetContainerStatus ctx_background (storage.ContainerID s) r1)
      as [[status|e] r2] eqn:Est; simpl.
    + destruct (String.eqb status "running") eqn:Erun;
        destruct (String.eqb (storage.Status s) "provisioning") eqn:Eprov; simpl.
      * (* promoted *)
        match goal with
        | |- context [storage.UpdateScenario ?e ?c ?d ?x ?w0] =>
            destruct (storage.UpdateScenario e c d x w0) as [e' w'] eqn:Eu
        end.
        eexists _, _. split; [reflexivity|]. split; [done|]. simpl. intros Hok.
        replace w' with (storage.UpdateScenario env ctx_background storage.db_handle
          (Some (scenario.with_status s "running" (storage.clock env (S (storage.steps w)))))
          (storage.tick (storage.mkWorld r2 (storage.collection w) (S (storage.steps w))))).2
          by (by rewrite Eu).
        subst sid. by apply update_status_persisted.
      * apply String.eqb_eq in Erun as ->. simpl.
        eexists _, _. split; [reflexivity|]. split; [done|]. simpl. intros _.
        unfold storage.persisted_status. simpl. by rewrite Hfound.
      * destruct (String.eqb status "exited" || String.eqb status "stopped") eqn:Eex; simpl.
        -- match goal with
           | |- context [storage.UpdateScenario ?e ?c ?d ?x ?w0] =>
               destruct (storage.UpdateScenario e c d x w0) as [e' w'] eqn:Eu
           end.
           eexists _, _. split; [reflexivity|]. split; [done|]. simpl. intros Hok.
           replace w' with (storage.UpdateScenario env ctx_background storage.db_handle
             (Some (scenario.with_status s "stopped" (storage.clock env (S (storage.steps w)))))
             (storage.tick (storage.mkWorld r2 (storage.collection w) (S (storage.steps w))))).2
             by (by rewrite Eu).
           subst sid. by apply update_status_persisted.
        -- eexists _, _. split; [reflexivity|]. split; [done|]. simpl. intros _.
           unfold storage.persisted_status. simpl. by rewrite Hfound.
      * destruct (String.eqb status "exited" || String.eqb status "stopped") eqn:Eex; simpl.
        -- match goal with
           | |- context [storage.UpdateScenario ?e ?c ?d ?x ?w0] =>
               destruct (storage.UpdateScenario e c d x w0) as [e' w'] eqn:Eu
           end.
           eexists _, _. split; [reflexivity|]. split; [done|]. simpl. intros Hok.
           replace w' with (storage.UpdateScenario env ctx_background storage.db_handle
             (Some (scenario.with_status s "stopped" (storage.clock env (S (storage.steps w)))))
             (storage.tick (storage.mkWorld r2 (storage.collection w) (S (storage.steps w))))).2
             by (by rewrite Eu).
           subst sid. by apply update_status_persisted.
        -- eexists _, _. split; [reflexivity|]. split; [done|]. simpl. intros _.
           unfold storage.persisted_status. simpl. by rewrite Hfound.
    + eexists _, _. split; [reflexivity|]. split; [done|]. simpl. intros _.
      unfold storage.persisted_status. simpl. by rewrite Hfound.
  - (* the container does not exist *)
    match goal with
    | |- context [storage.UpdateScenario ?e ?c ?d ?x ?w0] =>
        destruct (storage.UpdateScenario e c d x w0) as [e' w'] eqn:Eu
    end.
    eexists _, _. split; [reflexivity|]. split; [done|]. simpl. intros Hok.
    replace w' with (storage.UpdateScenario env ctx_background storage.db_handle
      (Some (scenario.with_status s "stopped" (storage.clock env (S (storage.steps w)))))
      (storage.tick (storage.mkWorld r1 (storage.collection w) (S (storage.steps w))))).2
      by (by rewrite Eu).
    subst sid. by apply update_status_persisted.
  - (* the question failed *)
    eexists _, _. split; [reflexivity|]. split; [done|]. simpl. intros _.
    unfold storage.persisted_status. simpl. by rewrite Hfound.
Qed.

Lemma GetScenarioStatus_reconciles_witness :
  exists resp w',
    scenario.GetScenarioStatus (Docker := docker.RealClient healthy_engine)
      healthy_env a_manager ctx_background "scn-1"
      (a_world [("c1", a_container "running" (Some ttyd_ports))]
         [a_scenario "scn-1" "c1" "provisioning" 5]) = (Ok resp, w')
    /\ api_types.Status resp
       = reconcile "provisioning"
           (observe (Docker := docker.RealClient healthy_engine) ctx_background "c1"
              (docker.mkEngine (list_to_map [("c1", a_container "running" (Some ttyd_ports))]) 0))
    /\ ((forall t, storage.store_fails healthy_env t (storage.UpdateOne "scn-1") = false) ->
        storage.persisted_status w' "scn-1" = Some (api_types.Status resp)).
Proof.
  apply (GetScenarioStatus_reconciles (Docker := docker.RealClient healthy_engine)
           healthy_env a_manager ctx_background "scn-1"
           (a_world [("c1", a_container "running" (Some ttyd_ports))]
              [a_scenario "scn-1" "c1" "provisioning" 5])
           (storage.tick (a_world [("c1", a_container "running" (Some ttyd_ports))]
              [a_scenario "scn-1" "c1" "provisioning" 5]))
           (a_scenario "scn-1" "c1" "provisioning" 5)).
  - reflexivity.
  - reflexivity.
Defined.

(** C1 (counterexample).  The container of a running scenario is gone and
    the store refuses the update: the call returns [stopped], the
    collection still says [running]. *)
Lemma GetScenarioStatus_update_refused :
  let out := scenario.GetScenarioStatus (Docker := docker.RealClient healthy_engine)
               env_no_update a_manager ctx_background "scn-1"
               (a_world [] [a_scenario "scn-1" "c1" "running" 5]) in
  status_of out.1 = Some "stopped"
  /\ reconcile "running"
       (observe (Docker := docker.RealClient healthy_engine) ctx_background "c1"
          (docker.mkEngine ∅ 0)) = "stopped"
  /\ storage.persisted_status out.2 "scn-1" = Some "running".
Proof. vm_compute. done. Qed.

Example GetScenarioStatus_examples :
  (* promoted when the container runs *)
  status_of (scenario.GetScenarioStatus (Docker := docker.RealClient healthy_engine)
               healthy_env a_manager ctx_background "scn-1"
               (a_world [("c1", a_container "running" None)]
                  [a_scenario "scn-1" "c1" "provisioning" 5])).1 = Some "running"
  (* kept while the container is only created *)
  /\ status_of (scenario.GetScenarioStatus (Docker := docker.RealClient healthy_engine)
                  healthy_env a_manager ctx_background "scn-1"
                  (a_world [("c1", a_container "created" None)]
                     [a_scenario "scn-1" "c1" "provisioning" 5])).1 = Some "provisioning"
  (* demoted when the container exited, whatever was stored *)
  /\ status_of (scenario.GetScenarioStatus (Docker := docker.RealClient healthy_engine)
                  healthy_env a_manager ctx_background "scn-1"
                  (a_world [("c1", a_container "exited" None)]
                     [a_scenario "scn-1" "c1" "cleaned_up" 5])).1 = Some "stopped"
  (* the stored status when the engine cannot be asked *)
  /\ status_of (scenario.GetScenarioStatus (Docker := docker.RealClient engine_no_inspect)
                  healthy_env a_manager ctx_background "scn-1"
                  (a_world [("c1", a_container "exited" None)]
                     [a_scenario "scn-1" "c1" "running" 5])).1 = Some "running".
Proof. repeat split; vm_compute; reflexivity. Qed.

(* ===================================================================== *)
(** * GetTerminalURL                                                       *)
(* ===================================================================== *)

Ltac case_engine_fails :=
  repeat match goal with
         | |- context [docker.engine_fails ?ee ?n ?api ?t] =>
             destruct (docker.engine_fails ee n api t) eqn:?; simpl
         end.

(** C7 (as amended).  For a record that is found: a stored status other
    than [running] and a runtime that reports the container gone both fail
    with [ErrScenarioNotRunning]; a container without a binding for port
    3000 makes the call fail as well, but with an error that is not
    [ErrScenarioNotRunning]; and an address is returned only for a stored
    status [running], a container that exists, runs and has such a
    binding. *)
Theorem GetTerminalURL_outcomes (env : storage.Env) (ee : docker.EngineEnv)
    (m : scenario.Manager) (ctx : Context_) (sid : string)
    (w w1 : storage.World docker.Engine) (s : storage.Scenario) :
  ctx = ctx_background ->
  storage.GetScenario env ctx (scenario.DB m) sid w = (Ok s, w1) ->
  let r := (scenario.GetTerminalURL (Docker := docker.RealClient ee) env m ctx sid w).1 in
  let cid := storage.ContainerID s in
  (storage.Status s <> "running" ->
     exists e, r = Err e /\ errors_Is e scenario_ErrScenarioNotRunning = true)
  /\ (storage.Status s = "running" ->
      (docker.ContainerExists (Client := docker.RealClient ee) ctx cid (storage.runtime w)).1
        = Ok false ->
      exists e, r = Err e /\ errors_Is e scenario_ErrScenarioNotRunning = true)
  /\ (storage.Status s = "running" ->
      forall c, docker.containers (storage.runtime w) !! cid = Some c ->
                shell_binding c = None ->
      exists e, r = Err e /\ errors_Is e scenario_ErrScenarioNotRunning = false)
  /\ (forall url, r = Ok url ->
      storage.Status s = "running"
      /\ exists c binding,
           docker.containers (storage.runtime w) !! cid = Some c
           /\ docker.State_Status c = "running"
           /\ shell_binding c = Some binding).
Proof.
  intros -> Hget.
  pose proof (GetScenario_Ok env _ _ _ _ _ _ Hget) as (Hdb & Hsid & Hf & -> & Hfound).
  cbv zeta.
  remember (scenario.GetTerminalURL (Docker := docker.RealClient ee) env m
              ctx_background sid w).1 as r eqn:Hr.
  unfold scenario.GetTerminalURL in Hr.
  apply String.eqb_neq in Hsid as Hsid'. rewrite Hsid' in Hr.
  unfold bind at 1 in Hr. rewrite Hget in Hr.
  destruct (String.eqb (storage.Status s) "running") eqn:Erun; simpl in Hr.
  2:{ apply String.eqb_neq in Erun. unfold ret in Hr. simpl in Hr. subst r.
      split; [eauto|]. split; [done|]. split; [done|]. done. }
  apply String.eqb_eq in Erun.
  unfold bind, scenario.on_docker, ret in Hr. simpl in Hr. simpl.
  destruct (decide (storage.ContainerID s = EmptyString)) as [Ecid|Ecid].
  { rewrite Ecid in *. unfold docker.Real_ContainerExists in *. simpl in *.
    subst r. unfold ret. simpl. repeat split; try done; eauto. }
  rewrite Real_ContainerExists_eq in * by done.
  destruct (docker.engine_fails ee (docker.calls (storage.runtime w))
              docker.NewClientWithOpts (storage.ContainerID s)) eqn:F1; simpl in *.
  { subst r. repeat split; try done; eauto. }
  destruct (docker.engine_fails ee (S (docker.calls (storage.runtime w)))
              docker.ContainerInspect (storage.ContainerID s)) eqn:F2; simpl in *.
  { subst r. repeat split; try done; eauto. }
  destruct (docker.containers (storage.runtime w) !! storage.ContainerID s)
    as [c|] eqn:Ec; simpl in *.
  2:{ subst r. repeat split; try done; eauto. }
  rewrite ?bool_decide_true in Hr by eauto. simpl in Hr.
  rewrite Real_GetTerminalURL_eq in Hr by done. simpl in Hr.
  destruct (docker.engine_fails ee (S (S (docker.calls (storage.runtime w))))
              docker.NewClientWithOpts (storage.ContainerID s)) eqn:F3; simpl in Hr.
  { subst r. repeat split; try done; eauto. }
  destruct (docker.engine_fails ee (S (S (S (docker.calls (storage.runtime w)))))
              docker.ContainerInspect (storage.ContainerID s)) eqn:F4; simpl in Hr.
  { subst r. repeat split; try done; eauto. }
  rewrite Ec in Hr. simpl in Hr. unfold shell_binding.
  destruct (String.eqb (docker.State_Status c) "running") eqn:Est; simpl in Hr.
  2:{ subst r. repeat split; try done; eauto. }
  apply String.eqb_eq in Est.
  split; [done|]. split; [by rewrite ?bool_decide_true by eauto|].
  destruct (docker.Ports c) as [ports|] eqn:Ep; simpl in Hr.
  2:{ subst r. split; [eauto|done]. }
  destruct (ports !! "3000/tcp") as [[|binding bs]|] eqn:Eb; simpl in Hr.
  - subst r. split; [eauto|done].
  - subst r. split.
    + intros _ c' [= <-]. by rewrite Ep, Eb.
    + intros url _. split; [done|]. exists c, binding. by rewrite Ep, Eb.
  - subst r. split; [eauto|done].
Qed.

Lemma GetTerminalURL_outcomes_witness :
  let w := a_world [("c1", a_container "running" (Some ttyd_ports))]
             [a_scenario "scn-1" "c1" "running" 5] in
  let r := (scenario.GetTerminalURL (Docker := docker.RealClient healthy_engine)
              healthy_env a_manager ctx_background "scn-1" w).1 in
  ctx_background = ctx_background
  /\ storage.GetScenario healthy_env ctx_background (scenario.DB a_manager) "scn-1" w
     = (Ok (a_scenario "scn-1" "c1" "running" 5), storage.tick w)
  /\ (forall url, r = Ok url ->
      storage.Status (a_scenario "scn-1" "c1" "running" 5) = "running"
      /\ exists c binding,
           docker.containers (storage.runtime w) !! "c1" = Some c
           /\ docker.State_Status c = "running"
           /\ shell_binding c = Some binding).
Proof.
  intros w r. split; [reflexivity|]. split; [reflexivity|].
  exact (proj2 (proj2 (proj2
           (GetTerminalURL_outcomes healthy_env healthy_engine a_manager ctx_background
              "scn-1" w (storage.tick w) (a_scenario "scn-1" "c1" "running" 5)
              eq_refl eq_refl)))).
Defined.

(** C7 (counterexample).  The scenario is [running], its container exists
    and runs, but port 3000 has no binding: the call fails with an error
    that is neither [ErrScenarioNotRunning] nor the client's
    [ErrContainerNotRunning]. *)
Lemma GetTerminalURL_no_port_mapping :
  let r := (scenario.GetTerminalURL (Docker := docker.RealClient healthy_engine)
              healthy_env a_manager ctx_background "scn-1"
              (a_world [("c1", a_container "running" (Some ∅))]
                 [a_scenario "scn-1" "c1" "running" 5])).1 in
  r = Err (Errorf_w "failed to get terminal URL: %w"
             (ErrText "port 3000 not mapped for container %s"))
  /\ (forall e, r = Err e ->
        errors_Is e scenario_ErrScenarioNotRunning = false
        /\ errors_Is e docker_ErrContainerNotRunning = false).
Proof.
  vm_compute. split; [reflexivity|]. intros e [= <-]. by split.
Qed.

Example GetTerminalURL_examples :
  (scenario.GetTerminalURL (Docker := docker.RealClient healthy_engine)
     healthy_env a_manager ctx_background "scn-1"
     (a_world [("c1", a_container "running" (Some ttyd_ports))]
        [a_scenario "scn-1" "c1" "running" 5])).1 = Ok "http://0.0.0.0:3001"
  /\ (scenario.GetTerminalURL (Docker := docker.RealClient healthy_engine)
        healthy_env a_manager ctx_background "scn-1"
        (a_world [("c1", a_container "running" (Some ttyd_ports))]
           [a_scenario "scn-1" "c1" "provisioning" 5])).1
     = Err (Errorf_w "%w: scenario status is %s" (ErrVar scenario_ErrScenarioNotRunning))
  /\ (scenario.GetTerminalURL (Docker := docker.RealClient healthy_engine)
        healthy_env a_manager ctx_background "scn-1"
        (a_world [] [a_scenario "scn-1" "c1" "running" 5])).1
     = Err (Errorf_w "%w: container %s not found" (ErrVar scenario_ErrScenarioNotRunning))
  /\ (scenario.GetTerminalURL (Docker := docker.RealClient healthy_engine)
        healthy_env a_manager ctx_background "scn-1"
        (a_world [("c1", a_container "exited" (Some ttyd_ports))]
           [a_scenario "scn-1" "c1" "running" 5])).1
     = Err (Errorf_w "failed to get terminal URL: %w"
              (Errorf_w "%w: container status is %s" (ErrVar docker_ErrContainerNotRunning))).
Proof. repeat split; vm_compute; reflexivity. Qed.

(* ===================================================================== *)
(** * StartScenario: the rollback                                          *)
(* ===================================================================== *)

Section Rollback.
Import storage docker.

Lemma StoreScenario_failed_collection {R} (env : Env) ctx db s (w : World R) err w' :
  StoreScenario env ctx db s w = (Some err, w') ->
  collection w' = collection w /\ runtime w' = runtime w.
Proof.
  unfold StoreScenario. destruct db; [by intros [= _ <-]|].
  destruct s as [s|]; [|by intros [= _ <-]].
  destruct (String.eqb (ScenarioID s) EmptyString); [by intros [= _ <-]|].
  unfold bind, store_op, gets, ret, set_collection. simpl.
  destruct (store_fails env (steps w) (InsertOne (ScenarioID s))); [by intros [= _ <-]|].
  destruct (find_first (ScenarioID s) (collection w)); [by intros [= _ <-]|done].
Qed.

(** For any client: when the container was created and the record cannot
    be stored, [StartScenario] calls [StopContainer] for the new container,
    then returns the error of the store, wrapped; nothing is persisted. *)
Lemma StartScenario_rollback_any {R} {Docker : Client R} (env : Env)
    (m : scenario.Manager) (req : api_types.StartScenarioRequest)
    (w : World R) (containerID : string) (terminalPort : Z) (r1 : R)
    (err : error) (w1 : World R) :
  api_types.req_UserID req <> EmptyString ->
  api_types.req_ScenarioType req <> EmptyString ->
  StartScenarioContainer ctx_background (api_types.req_ScenarioType req)
    (api_types.req_Script req) (runtime w) = (Ok (containerID, terminalPort), r1) ->
  StoreScenario env ctx_background (scenario.DB m)
    (Some (new_record env w req containerID terminalPort))
    (mkWorld r1 (collection w) (S (S (S (steps w))))) = (Some err, w1) ->
  exists w',
    scenario.StartScenario env m ctx_background (Some req) w
    = (Err (Errorf_w "failed to store scenario metadata: %w" err), w')
    /\ runtime w' = (StopContainer ctx_background containerID r1).2
    /\ collection w' = collection w.
Proof.
  intros Hu Ht Hstart Hstore.
  apply String.eqb_neq in Hu, Ht.
  unfold scenario.StartScenario. rewrite Hu, Ht.
  unfold bind at 1. unfold scenario.on_docker at 1. rewrite Hstart.
  unfold bind, time_Now, tick. simpl. unfold new_record in Hstore. rewrite Hstore.
  apply StoreScenario_failed_collection in Hstore as [Hc Hr]. simpl in Hc, Hr.
  unfold scenario.on_docker, ret. simpl. rewrite Hr.
  destruct (StopContainer ctx_background containerID r1) as [e r2].
  eexists. split; [reflexivity|]. simpl. by split.
Qed.

End Rollback.

(** C2 (as amended).  When the runtime has created the container and the
    record cannot be stored, [StartScenario] calls the client's
    [StopContainer] for the container just created before it returns the
    error, and persists nothing.  The result of that call is not looked at:
    the container is gone afterwards when no call to the engine for it
    fails. *)
Theorem StartScenario_rollback (env : storage.Env) (ee : docker.EngineEnv)
    (m : scenario.Manager) (req : api_types.StartScenarioRequest)
    (w : storage.World docker.Engine) (containerID : string) (terminalPort : Z)
    (e1 : docker.Engine) (err : error) (w1 : storage.World docker.Engine) :
  api_types.req_UserID req <> EmptyString ->
  api_types.req_ScenarioType req <> EmptyString ->
  docker.Real_StartScenarioContainer ee ctx_background (api_types.req_ScenarioType req)
    (api_types.req_Script req) (storage.runtime w) = (Ok (containerID, terminalPort), e1) ->
  storage.StoreScenario env ctx_background (scenario.DB m)
    (Some (new_record env w req containerID terminalPort))
    (storage.mkWorld e1 (storage.collection w) (S (S (S (storage.steps w)))))
    = (Some err, w1) ->
  exists w',
    scenario.StartScenario (Docker := docker.RealClient ee) env m ctx_background (Some req) w
    = (Err (Errorf_w "failed to store scenario metadata: %w" err), w')
    /\ storage.runtime w' = (docker.Real_StopContainer ee ctx_background containerID e1).2
    /\ storage.collection w' = storage.collection w
    /\ (containerID <> EmptyString ->
        (forall t api, docker.engine_fails ee t api containerID = false) ->
        docker.containers (storage.runtime w') !! containerID = None).
Proof.
  intros Hu Ht Hstart Hstore.
  destruct (StartScenario_rollback_any (Docker := docker.RealClient ee) env m req w
              containerID terminalPort e1 err w1 Hu Ht Hstart Hstore)
    as (w' & Hrun & Hrt & Hcol).
  exists w'. split; [done|]. split; [done|]. split; [done|].
  intros Hne Hok. rewrite Hrt. simpl.
  rewrite Real_StopContainer_healthy by done.
  destruct (docker.containers e1 !! containerID) as [c|] eqn:Ec; simpl; [|done].
  destruct (_ || _); simpl; by rewrite lookup_delete_eq.
Qed.

Lemma StartScenario_rollback_witness :
  let w := a_world [] [] in
  api_types.req_UserID a_request <> EmptyString
  /\ api_types.req_ScenarioType a_request <> EmptyString
  /\ exists w',
       scenario.StartScenario (Docker := docker.RealClient healthy_engine)
         env_no_insert a_manager ctx_background (Some a_request) w
       = (Err (Errorf_w "failed to store scenario metadata: %w"
                 (Errorf_w "failed to store scenario: %w" (ErrText "InsertOne"))), w')
       /\ storage.collection w' = storage.collection w
       /\ docker.containers (storage.runtime w') !! "c1" = None.
Proof.
  intros w. split; [done|]. split; [done|].
  destruct (StartScenario_rollback env_no_insert healthy_engine a_manager a_request w
              "c1" 3001
              (docker.Real_StartScenarioContainer healthy_engine ctx_background "go"
                 "echo hello" (storage.runtime w)).2
              (Errorf_w "failed to store scenario: %w" (ErrText "InsertOne"))
              (storage.mkWorld
                 (docker.Real_StartScenarioContainer healthy_engine ctx_background "go"
                    "echo hello" (storage.runtime w)).2 [] 4))
    as (w' & Hrun & _ & Hcol & Hgone).
  - done.
  - done.
  - vm_compute. reflexivity.
  - vm_compute. reflexivity.
  - exists w'. split; [exact Hrun|]. split; [exact Hcol|]. by apply Hgone.
Defined.

(** C2 (counterexample).  The container is created, the insert fails, and
    so does the engine's stop: [StartScenario] returns the error of the
    store while the new container is still running and no record exists. *)
Lemma StartScenario_stop_fails :
  let out := scenario.StartScenario (Docker := docker.RealClient engine_no_stop)
               env_no_insert a_manager ctx_background (Some a_request) (a_world [] []) in
  out.1 = Err (Errorf_w "failed to store scenario metadata: %w"
                 (Errorf_w "failed to store scenario: %w" (ErrText "InsertOne")))
  /\ docker.State_Status <$> (docker.containers (storage.runtime out.2) !! "c1")
     = Some "running"
  /\ storage.collection out.2 = [].
Proof. vm_compute. done. Qed.

(** A start on a store and an engine that answer.  The clock of the fixture
    shows instants below one millisecond, which are stored as the zero
    datetime. *)
Example StartScenario_examples :
  let out := scenario.StartScenario (Docker := docker.RealClient healthy_engine)
               healthy_env a_manager ctx_background (Some a_request) (a_world [] []) in
  out.1 = Ok (api_types.mkStartScenarioResponse "scn-1000" "provisioning")
  /\ storage.collection out.2
     = [storage.mkScenario "scn-1000" "user-1" "go" "c1" "provisioning" 3001 0 0]
  /\ docker.State_Status <$> (docker.containers (storage.runtime out.2) !! "c1")
     = Some "running".
Proof. vm_compute. done. Qed.

(* ===================================================================== *)
(** * StopScenario                                                         *)
(* ===================================================================== *)

Section Stop.
Import storage docker.
Context {R : Type} {Docker : Client R} (env : Env) (m : scenario.Manager).

(** [StopScenario] for a record that is found, in terms of what the client
    answers and of whether the store takes the update. *)
Lemma StopScenario_eq (sid : string) (w : World R) (s : Scenario) :
  sid <> EmptyString -> scenario.DB m = db_handle ->
  store_fails env (steps w) (FindOne sid) = false ->
  find_first sid (collection w) = Some s ->
  scenario.StopScenario env m ctx_background sid w =
  let '(e, r1) := StopContainer ctx_background (ContainerID s) (runtime w) in
  let w1 := mkWorld r1 (collection w) (S (steps w)) in
  match e with
  | Some err =>
      if negb (errors_Is err docker_ErrContainerNotFound)
      then (Some (Errorf_w "failed to stop container: %w" err), w1)
      else
        if store_fails env (S (S (S (steps w)))) (UpdateOne sid)
        then (Some (Errorf_w "failed to update scenario status: %w"
                      (Errorf_w "failed to update scenario: %w" (ErrText "UpdateOne"))),
              mkWorld r1 (collection w) (S (S (S (S (steps w))))))
        else (None,
              mkWorld r1
                (update_first sid
                   (stamped (scenario.with_status s "stopped" (clock env (S (steps w))))
                      (clock env (S (S (steps w)))))
                   (collection w))
                (S (S (S (S (steps w))))))
  | None =>
      if store_fails env (S (S (S (steps w)))) (UpdateOne sid)
      then (Some (Errorf_w "failed to update scenario status: %w"
                    (Errorf_w "failed to update scenario: %w" (ErrText "UpdateOne"))),
            mkWorld r1 (collection w) (S (S (S (S (steps w))))))
      else (None,
            mkWorld r1
              (update_first sid
                 (stamped (scenario.with_status s "stopped" (clock env (S (steps w))))
                    (clock env (S (S (steps w)))))
                 (collection w))
              (S (S (S (S (steps w))))))
  end.
Proof.
  intros Hsid Hdb Hf Hfound.
  pose proof (find_first_id _ _ _ Hfound) as Hid.
  unfold scenario.StopScenario.
  apply String.eqb_neq in Hsid as Hsid'. rewrite Hsid'.
  unfold bind at 1. rewrite Hdb, (GetScenario_found env _ sid w s) by done.
  unfold bind at 1. unfold scenario.on_docker at 1. simpl.
  destruct (StopContainer ctx_background (ContainerID s) (runtime w)) as [[err|] r1].
  - destruct (errors_Is err docker_ErrContainerNotFound); simpl; [|done].
    unfold bind, time_Now, tick. simpl.
    rewrite UpdateScenario_eq by (simpl; congruence). simpl. rewrite Hid.
    destruct (store_fails env (S _) _); reflexivity.
  - unfold bind, time_Now, tick. simpl.
    rewrite UpdateScenario_eq by (simpl; congruence). simpl. rewrite Hid.
    destruct (store_fails env (S _) _); reflexivity.
Qed.

(** Every successful call leaves the status [stopped] in the store. *)
Lemma StopScenario_success_persists (sid : string) (w w1 w' : World R) (s : Scenario) :
  GetScenario env ctx_background (scenario.DB m) sid w = (Ok s, w1) ->
  scenario.StopScenario env m ctx_background sid w = (None, w') ->
  persisted_status w' sid = Some "stopped".
Proof.
  intros Hget.
  pose proof (GetScenario_Ok env _ _ _ _ _ _ Hget) as (Hdb & Hsid & Hf & -> & Hfound).
  pose proof (find_first_id _ _ _ Hfound) as Hid.
  rewrite (StopScenario_eq sid w s) by done.
  destruct (StopContainer ctx_background (ContainerID s) (runtime w)) as [[err|] r1].
  - destruct (negb _); [done|]. destruct (store_fails env (S _) _); [done|].
    intros [= <-]. by erewrite persisted_status_update.
  - destruct (store_fails env (S _) _); [done|].
    intros [= <-]. by erewrite persisted_status_update.
Qed.

(** An answer [ErrContainerNotFound] of the client counts as a stop that
    worked. *)
Lemma StopScenario_absent_is_success (sid : string) (w : World R) (s : Scenario)
    (err : error) (r1 : R) :
  sid <> EmptyString -> scenario.DB m = db_handle ->
  store_fails env (steps w) (FindOne sid) = false ->
  find_first sid (collection w) = Some s ->
  StopContainer ctx_background (ContainerID s) (runtime w) = (Some err, r1) ->
  errors_Is err docker_ErrContainerNotFound = true ->
  store_fails env (S (S (S (steps w)))) (UpdateOne sid) = false ->
  exists w', scenario.StopScenario env m ctx_background sid w = (None, w')
             /\ persisted_status w' sid = Some "stopped".
Proof.
  intros Hsid Hdb Hf Hfound Hstop His Hup.
  pose proof (find_first_id _ _ _ Hfound) as Hid.
  rewrite (StopScenario_eq sid w s) by done. rewrite Hstop, His, Hup. simpl.
  eexists. split; [reflexivity|]. by erewrite persisted_status_update.
Qed.

End Stop.

(** C6 (as amended).  For a record that carries a container id, with a
    store that takes the reads and updates of the record and an engine that
    fails no call for its container: [StopScenario] succeeds, leaves the
    status [stopped] and no container, whether the container was there or
    already gone; and a second call right after it succeeds again and
    leaves the same. *)
Theorem StopScenario_idempotent (env : storage.Env) (ee : docker.EngineEnv)
    (m : scenario.Manager) (sid : string) (w : storage.World docker.Engine)
    (s : storage.Scenario) :
  sid <> EmptyString -> scenario.DB m = storage.db_handle ->
  storage.find_first sid (storage.collection w) = Some s ->
  storage.ContainerID s <> EmptyString ->
  (forall t, storage.store_fails env t (storage.FindOne sid) = false) ->
  (forall t, storage.store_fails env t (storage.UpdateOne sid) = false) ->
  (forall t api, docker.engine_fails ee t api (storage.ContainerID s) = false) ->
  let first := scenario.StopScenario (Docker := docker.RealClient ee) env m
                 ctx_background sid w in
  let second := scenario.StopScenario (Docker := docker.RealClient ee) env m
                  ctx_background sid first.2 in
  first.1 = None
  /\ storage.persisted_status first.2 sid = Some "stopped"
  /\ docker.containers (storage.runtime first.2) !! storage.ContainerID s = None
  /\ second.1 = None
  /\ storage.persisted_status second.2 sid = Some "stopped"
  /\ docker.containers (storage.runtime second.2) !! storage.ContainerID s = None.
Proof.
  intros Hsid Hdb Hfound Hcid Hfind Hupd Heng first second.
  pose proof (find_first_id _ _ _ Hfound) as Hid.
  assert (forall (w0 : storage.World docker.Engine) s0,
            storage.find_first sid (storage.collection w0) = Some s0 ->
            storage.ContainerID s0 = storage.ContainerID s ->
            let out := scenario.StopScenario (Docker := docker.RealClient ee) env m
                         ctx_background sid w0 in
            out.1 = None
            /\ storage.persisted_status out.2 sid = Some "stopped"
            /\ docker.containers (storage.runtime out.2) !! storage.ContainerID s = None
            /\ exists s1, storage.find_first sid (storage.collection out.2) = Some s1
                          /\ storage.ContainerID s1 = storage.ContainerID s) as Hone.
  { intros w0 s0 Hf0 Hc0 out. subst out.
    pose proof (find_first_id _ _ _ Hf0) as Hid0.
    rewrite (StopScenario_eq (Docker := docker.RealClient ee) env m sid w0 s0) by done.
    simpl. rewrite Hc0. rewrite Real_StopContainer_healthy by done.
    rewrite !Hupd.
    destruct (docker.containers (storage.runtime w0) !! storage.ContainerID s) as [c|] eqn:Ec.
    - destruct (_ || _); simpl; rewrite lookup_delete_eq;
        (split; [done|]);
        (split; [by erewrite persisted_status_update|]);
        (split; [done|]);
        erewrite find_first_update_first by done; eexists; (split; [reflexivity|done]).
    - simpl. split; [done|]. split; [by erewrite persisted_status_update|].
      split; [done|].
      erewrite find_first_update_first by done. eexists; (split; [reflexivity|done]). }
  destruct (Hone w s Hfound eq_refl) as (H1 & H2 & H3 & s1 & Hf1 & Hc1).
  destruct (Hone first.2 s1 Hf1 Hc1) as (H4 & H5 & H6 & _).
  done.
Qed.

Lemma StopScenario_idempotent_witness :
  let w := a_world [("c1", a_container "running" (Some ttyd_ports))]
             [a_scenario "scn-1" "c1" "running" 5] in
  let first := scenario.StopScenario (Docker := docker.RealClient healthy_engine)
                 healthy_env a_manager ctx_background "scn-1" w in
  let second := scenario.StopScenario (Docker := docker.RealClient healthy_engine)
                  healthy_env a_manager ctx_background "scn-1" first.2 in
  "scn-1" <> EmptyString
  /\ storage.find_first "scn-1" (storage.collection w)
     = Some (a_scenario "scn-1" "c1" "running" 5)
  /\ first.1 = None
  /\ storage.persisted_status first.2 "scn-1" = Some "stopped"
  /\ docker.containers (storage.runtime first.2) !! "c1" = None
  /\ second.1 = None
  /\ storage.persisted_status second.2 "scn-1" = Some "stopped"
  /\ docker.containers (storage.runtime second.2) !! "c1" = None.
Proof.
  intros w first second. split; [done|]. split; [reflexivity|].
  apply (StopScenario_idempotent healthy_env healthy_engine a_manager "scn-1" w
           (a_scenario "scn-1" "c1" "running" 5)); done.
Defined.

(** C6 (counterexample).  A record without a container id, a store and an
    engine on which nothing fails: the client refuses the empty id with an
    error that is not [ErrContainerNotFound], and [StopScenario] fails, the
    first time and the second; the status is never written. *)
Lemma StopScenario_without_container_id :
  let w := a_world [] [a_scenario "scn-1" EmptyString "running" 5] in
  let first := scenario.StopScenario (Docker := docker.RealClient healthy_engine)
                 healthy_env a_manager ctx_background "scn-1" w in
  let second := scenario.StopScenario (Docker := docker.RealClient healthy_engine)
                  healthy_env a_manager ctx_background "scn-1" first.2 in
  first.1 = Some (Errorf_w "failed to stop container: %w"
                    (ErrText "container ID cannot be empty"))
  /\ second.1 = first.1
  /\ storage.persisted_status second.2 "scn-1" = Some "running".
Proof. vm_compute. done. Qed.

(** The same with a healthy record, when the engine cannot be reached for
    the second call: the first call succeeds, the second one fails. *)
Example StopScenario_engine_lost :
  let ee := docker.mkEngineEnv (fun t _ _ => (4 <=? t)%nat) (fun _ _ => true)
              (fun n => "c" +:+ pretty n) (fun _ => "running")
              (fun _ _ _ => (EmptyString, 0)) in
  let w := a_world [("c1", a_container "running" (Some ttyd_ports))]
             [a_scenario "scn-1" "c1" "running" 5] in
  let first := scenario.StopScenario (Docker := docker.RealClient ee)
                 healthy_env a_manager ctx_background "scn-1" w in
  let second := scenario.StopScenario (Docker := docker.RealClient ee)
                  healthy_env a_manager ctx_background "scn-1" first.2 in
  first.1 = None
  /\ second.1 = Some (Errorf_w "failed to stop container: %w"
                        (Errorf_w "%w: %v" (ErrVar docker_ErrDockerDaemonUnavailable))).
Proof. vm_compute. done. Qed.

(* ===================================================================== *)
(** * The sweep of expired scenarios                                       *)
(* ===================================================================== *)

Section ExpiredSweep.
Import storage docker.
Context (env : Env) (ee : EngineEnv) (cm : cleanup.CleanupManager).

Let stop_and_remove := cleanup.stop_and_remove (Docker := RealClient ee).
Let cleanupScenario := cleanup.cleanupScenario (Docker := RealClient ee) env.
Let cleanup_each := cleanup.cleanup_each (Docker := RealClient ee) env.

Ltac next_call :=
  unfold bind at 1; unfold cleanup.on_docker at 1; simpl.

(** The container block changes nothing of the store, and in the engine
    only the container of the scenario. *)
Lemma stop_and_remove_world (s0 : Scenario) (w : World Engine) :
  exists e',
    stop_and_remove ctx_background s0 w = (tt, mkWorld e' (collection w) (steps w))
    /\ only_touches (ContainerID s0) (runtime w) e'.
Proof.
  unfold stop_and_remove, cleanup.stop_and_remove.
  destruct (String.eqb (ContainerID s0) EmptyString) eqn:E; simpl.
  { exists (runtime w). split; [by destruct w|apply only_touches_id]. }
  next_call.
  pose proof (Real_ContainerExists_touches ee ctx_background (ContainerID s0)
                (runtime w)) as H1.
  destruct (Real_ContainerExists ee ctx_background (ContainerID s0) (runtime w))
    as [[[|]|err] e1]; simpl in H1; [|by exists e1..].
  next_call.
  pose proof (Real_GetContainerStatus_touches ee ctx_background (ContainerID s0) e1)
    as H2.
  destruct (Real_GetContainerStatus ee ctx_background (ContainerID s0) e1)
    as [[status|err] e2]; simpl in H2.
  - destruct (String.eqb status "running").
    + unfold bind at 1. next_call.
      pose proof (Real_StopContainer_touches ee ctx_background (ContainerID s0) e2)
        as H3.
      destruct (Real_StopContainer ee ctx_background (ContainerID s0) e2)
        as [e e3]; simpl in H3.
      unfold ret at 1. next_call.
      pose proof (Real_RemoveContainer_touches ee ctx_background (ContainerID s0) e3)
        as H4.
      destruct (Real_RemoveContainer ee ctx_background (ContainerID s0) e3)
        as [e' e4]; simpl in H4.
      exists e4. split; [done|]. eauto using only_touches_trans.
    + unfold bind at 1. unfold ret at 1. next_call.
      pose proof (Real_RemoveContainer_touches ee ctx_background (ContainerID s0) e2)
        as H4.
      destruct (Real_RemoveContainer ee ctx_background (ContainerID s0) e2)
        as [e' e4]; simpl in H4.
      exists e4. split; [done|]. eauto using only_touches_trans.
  - unfold bind at 1. unfold ret at 1. next_call.
    pose proof (Real_RemoveContainer_touches ee ctx_background (ContainerID s0) e2)
      as H4.
    destruct (Real_RemoveContainer ee ctx_background (ContainerID s0) e2)
      as [e' e4]; simpl in H4.
    exists e4. split; [done|]. eauto using only_touches_trans.
Qed.

(** With an engine that fails no call for the container, the block leaves
    no container of that id. *)
Lemma stop_and_remove_healthy (s0 : Scenario) (w : World Engine) :
  ContainerID s0 <> EmptyString ->
  (forall t api, engine_fails ee t api (ContainerID s0) = false) ->
  containers (runtime (stop_and_remove ctx_background s0 w).2) !! ContainerID s0 = None.
Proof.
  intros Hne Hok.
  unfold stop_and_remove, cleanup.stop_and_remove.
  apply String.eqb_neq in Hne as E. rewrite E. simpl.
  next_call. rewrite Real_ContainerExists_eq, !Hok by done.
  destruct (containers (runtime w) !! ContainerID s0) as [c|] eqn:Ec; simpl; [|done].
  next_call. rewrite Real_GetContainerStatus_eq, !Hok by done. simpl. rewrite Ec.
  destruct (String.eqb (State_Status c) "running").
  - unfold bind at 1. next_call.
    rewrite Real_StopContainer_healthy by done. simpl. rewrite Ec.
    destruct (_ || _); unfold ret at 1; next_call;
      match goal with
      | |- context [Real_RemoveContainer ee _ _ ?e] =>
          destruct (Real_RemoveContainer_healthy ee (ContainerID s0) e Hne Hok)
            as (err & n & ->)
      end; simpl; by rewrite lookup_delete_eq.
  - unfold bind at 1. unfold ret at 1. next_call.
    match goal with
    | |- context [Real_RemoveContainer ee _ _ ?e] =>
        destruct (Real_RemoveContainer_healthy ee (ContainerID s0) e Hne Hok)
          as (err & n & ->)
    end. simpl. by rewrite lookup_delete_eq.
Qed.

(** [cleanupScenario], after its container block. *)
Lemma cleanupScenario_eq (s0 : Scenario) (w : World Engine) :
  ScenarioID s0 <> EmptyString ->
  cleanupScenario ctx_background s0 w =
  let w1 := (stop_and_remove ctx_background s0 w).2 in
  if store_fails env (S (S (steps w))) (UpdateOne (ScenarioID s0))
  then (Some (Errorf_w "failed to update scenario status: %w"
                (Errorf_w "failed to update scenario: %w" (ErrText "UpdateOne"))),
        mkWorld (runtime w1) (collection w) (S (S (S (steps w)))))
  else (None,
        mkWorld (runtime w1)
          (update_first (ScenarioID s0)
             (stamped (scenario.with_status s0 "cleaned_up" (clock env (steps w)))
                (clock env (S (steps w))))
             (collection w))
          (S (S (S (steps w))))).
Proof.
  intros Hne. unfold cleanupScenario, cleanup.cleanupScenario.
  destruct (stop_and_remove_world s0 w) as (e' & Hw & _).
  unfold stop_and_remove in Hw. unfold bind at 1. rewrite Hw.
  unfold stop_and_remove. rewrite Hw. simpl.
  unfold bind, time_Now, tick. simpl.
  rewrite UpdateScenario_eq by done. simpl.
  destruct (store_fails env (S (S (steps w))) (UpdateOne (ScenarioID s0))); reflexivity.
Qed.

Lemma cleanupScenario_no_id (s0 : Scenario) (w : World Engine) :
  ScenarioID s0 = EmptyString ->
  exists err,
    cleanupScenario ctx_background s0 w =
    (Some err,
     mkWorld (runtime (stop_and_remove ctx_background s0 w).2) (collection w)
       (S (steps w))).
Proof.
  intros He. unfold cleanupScenario, cleanup.cleanupScenario.
  destruct (stop_and_remove_world s0 w) as (e' & Hw & _).
  unfold stop_and_remove in Hw. unfold bind at 1. rewrite Hw.
  unfold stop_and_remove. rewrite Hw. simpl.
  unfold bind, time_Now, tick, UpdateScenario. simpl. rewrite He. simpl.
  by eexists.
Qed.

(** What one [cleanupScenario] keeps, whatever fails in it: in the engine
    it changes only the container of its scenario; no record leaves the
    store; a record that is [cleaned_up] stays so. *)
Lemma cleanupScenario_keeps (s0 : Scenario) (w : World Engine) :
  let w' := (cleanupScenario ctx_background s0 w).2 in
  only_touches (ContainerID s0) (runtime w) (runtime w')
  /\ (forall sid, is_Some (find_first sid (collection w)) ->
                  is_Some (find_first sid (collection w')))
  /\ (forall sid, persisted_status w sid = Some "cleaned_up" ->
                  persisted_status w' sid = Some "cleaned_up").
Proof.
  destruct (stop_and_remove_world s0 w) as (e' & Hw & Ht).
  destruct (decide (ScenarioID s0 = EmptyString)) as [He|Hne].
  { destruct (cleanupScenario_no_id s0 w He) as (err & ->). rewrite Hw. simpl. done. }
  rewrite cleanupScenario_eq by done. rewrite Hw. simpl.
  destruct (store_fails env (S (S (steps w))) (UpdateOne (ScenarioID s0))); simpl;
    [done|].
  split; [done|]. unfold persisted_status. simpl. split; intros sid.
  - intros [d Hd]. destruct (decide (sid = ScenarioID s0)) as [->|Hsid].
    + by erewrite find_first_update_first.
    + by rewrite find_first_update_first_ne, Hd.
  - destruct (decide (sid = ScenarioID s0)) as [->|Hsid].
    + destruct (find_first (ScenarioID s0) (collection w)) as [d|] eqn:Hd; [|done].
      intros _. by erewrite find_first_update_first.
    + by rewrite find_first_update_first_ne.
Qed.

Lemma cleanup_each_cons (s0 : Scenario) (l : list Scenario) (w : World Engine) :
  cleanup_each ctx_background (s0 :: l) w =
  ((ScenarioID s0, (cleanupScenario ctx_background s0 w).1)
     :: (cleanup_each ctx_background l (cleanupScenario ctx_background s0 w).2).1,
   (cleanup_each ctx_background l (cleanupScenario ctx_background s0 w).2).2).
Proof.
  unfold cleanup_each, cleanupScenario. simpl. unfold bind at 1.
  destruct (cleanup.cleanupScenario env ctx_background s0 w) as [e w1].
  unfold bind at 1. simpl.
  by destruct (cleanup.cleanup_each env ctx_background l w1) as [logs w2].
Qed.

(** The same for the whole loop; and the loop logs every scenario it is
    given, in order. *)
Lemma cleanup_each_keeps (l : list Scenario) (w : World Engine) :
  let out := cleanup_each ctx_background l w in
  out.1.*1 = ScenarioID <$> l
  /\ (forall k, containers (runtime w) !! k = None ->
                containers (runtime out.2) !! k = None)
  /\ (forall sid, is_Some (find_first sid (collection w)) ->
                  is_Some (find_first sid (collection out.2)))
  /\ (forall sid, persisted_status w sid = Some "cleaned_up" ->
                  persisted_status out.2 sid = Some "cleaned_up").
Proof.
  revert w. induction l as [|s0 l IH]; intros w; [done|].
  rewrite cleanup_each_cons. cbv zeta. simpl fst. simpl snd.
  pose proof (cleanupScenario_keeps s0 w) as (Ht & Hf & Hp).
  destruct (IH (cleanupScenario ctx_background s0 w).2) as (IH1 & IH2 & IH3 & IH4).
  split; [by rewrite fmap_cons, IH1|]. split; [|by auto].
  intros k Hk. apply IH2. destruct Ht as [Hne Heq].
  destruct (decide (k = ContainerID s0)) as [->|Hkc]; [by auto|].
  by rewrite Hne.
Qed.

(** An expired scenario that the loop is given. *)
Lemma cleanup_each_cleans (l : list Scenario) (w : World Engine) (r : Scenario) :
  r ∈ l -> is_Some (find_first (ScenarioID r) (collection w)) ->
  let out := cleanup_each ctx_background l w in
  (ScenarioID r <> EmptyString ->
   (forall t, store_fails env t (UpdateOne (ScenarioID r)) = false) ->
   persisted_status out.2 (ScenarioID r) = Some "cleaned_up")
  /\ (ContainerID r <> EmptyString ->
      (forall t api, engine_fails ee t api (ContainerID r) = false) ->
      containers (runtime out.2) !! ContainerID r = None).
Proof.
  revert w. induction l as [|s0 l IH]; intros w Hr Hfound.
  { by apply elem_of_nil in Hr. }
  rewrite cleanup_each_cons. cbv zeta. simpl snd.
  pose proof (cleanupScenario_keeps s0 w) as (Ht & Hf & Hp).
  apply elem_of_cons in Hr as [->|Hr]; [|by apply IH; auto].
  pose proof (cleanup_each_keeps l (cleanupScenario ctx_background s0 w).2)
    as (_ & K2 & _ & K4).
  split.
  - intros Hne Hup. apply K4. rewrite cleanupScenario_eq, Hup by done. simpl.
    destruct Hfound as [d Hd]. by erewrite persisted_status_update.
  - intros Hne Hok. apply K2.
    pose proof (stop_and_remove_healthy s0 w Hne Hok) as Hh.
    destruct (decide (ScenarioID s0 = EmptyString)) as [He|Hid].
    + by destruct (cleanupScenario_no_id s0 w He) as (err & ->).
    + rewrite cleanupScenario_eq by done.
      by destruct (store_fails env (S (S (steps w))) (UpdateOne (ScenarioID s0))).
Qed.

End ExpiredSweep.




(** A store that refuses the update leaves the record as it was, with its
    container gone; the record after it is still processed. *)
Example CleanupExpiredScenarios_update_refused :
  let env := storage.mkEnv
               (fun _ c => match c with
                           | storage.UpdateOne "scn-1" => true
                           | _ => false
                           end)
               (fun n => 1000 + Z.of_nat n) in
  let w := a_world [("c1", a_container "running" (Some ttyd_ports))]
             [a_scenario "scn-1" "c1" "running" 5;
              a_scenario "scn-2" EmptyString "provisioning" 7] in
  let out := cleanup.CleanupExpiredScenarios (Docker := docker.RealClient healthy_engine)
               env a_cleanup_manager ctx_background w in
  out.1.1 = None
  /\ out.1.2
     = [("scn-1", Some (Errorf_w "failed to update scenario status: %w"
                          (Errorf_w "failed to update scenario: %w" (ErrText "UpdateOne"))));
        ("scn-2", None)]
  /\ storage.persisted_status out.2 "scn-1" = Some "running"
  /\ storage.persisted_status out.2 "scn-2" = Some "cleaned_up"
  /\ docker.containers (storage.runtime out.2) !! "c1" = None.
Proof. vm_compute. done. Qed.

(* ===================================================================== *)
(** * The sweep of orphaned containers                                     *)
(* ===================================================================== *)

Section OrphanSweep.
Import storage docker.
Context (env : Env) (ee : EngineEnv).

Let orphans_each := cleanup.orphans_each (Docker := RealClient ee).



(** Whatever the cursor does, the map holds only ids that some document
    names. *)
Lemma cursor_loop_referenced (containerID : string) (n : nat) (l : list Scenario) :
  forall (i : nat) (m : gmap string bool),
  cleanup.isScenarioContainer containerID (cleanup.cursor_loop env n i l m) = true ->
  cleanup.isScenarioContainer containerID m = true \/ referenced containerID l.
Proof.
  induction l as [|d l IH]; intros i m; simpl; [by left|].
  assert (forall P, P \/ referenced containerID l -> P \/ referenced containerID (d :: l))
    as Hweak.
  { intros P [?|[Hne Hin]]; [by left|right]. split; [done|].
    rewrite fmap_cons. by apply list_elem_of_further. }
  destruct (store_fails env n (CursorNext i)); [by left|].
  destruct (store_fails env n (CursorDecode i)).
  { intros H. apply Hweak. by apply (IH (S i)). }
  intros H. apply IH in H as [H|H]; [|by apply Hweak; right].
  unfold cleanup.isScenarioContainer in *.
  destruct (String.eqb (ContainerID d) EmptyString) eqn:E; simpl in H; [by left|].
  apply String.eqb_neq in E.
  destruct (decide (containerID = ContainerID d)) as [->|Hne].
  - right. split; [done|]. rewrite fmap_cons. apply list_elem_of_here.
  - rewrite lookup_insert_ne in H by done. by left.
Qed.


Lemma scenarioContainers_read_referenced (containerID : string) (n : nat)
    (docs : list Scenario) :
  cleanup.isScenarioContainer containerID (scenarioContainers_read env n docs) = true ->
  referenced containerID docs.
Proof.
  unfold scenarioContainers_read. intros [H|[Hne H]]%cursor_loop_referenced.
  - unfold cleanup.isScenarioContainer in H. by rewrite lookup_empty in H.
  - split; [done|]. apply list_elem_of_fmap in H as (d & -> & Hd).
    apply list_elem_of_filter in Hd as [_ Hd]. apply list_elem_of_fmap. eauto.
Qed.


(** [getScenarioContainerIDs] returns the map of the documents its cursor
    delivered, or the error of the query. *)
Lemma getScenarioContainerIDs_eq (w : World Engine) :
  cleanup.getScenarioContainerIDs (R := Engine) env ctx_background w =
  (if store_fails env (steps w) FindWithContainer
   then Err (Errorf_w "failed to query scenario container IDs: %w" (ErrText "Find"))
   else Ok (scenarioContainers_read env (S (steps w)) (collection w)),
   tick w).
Proof.
  unfold cleanup.getScenarioContainerIDs, bind, store_op, gets, ret. simpl.
  by destruct (store_fails env (steps w) FindWithContainer).
Qed.

Lemma after_orphan_touches (containerID : string) (w : World Engine) :
  only_touches containerID (runtime w) (runtime (after_orphan ee containerID w)).
Proof.
  unfold after_orphan.
  pose proof (Real_StopContainer_touches ee ctx_background containerID (runtime w)) as H1.
  destruct (Real_StopContainer ee ctx_background containerID (runtime w)) as [[err|] e1];
    simpl in *; [done|].
  pose proof (Real_RemoveContainer_touches ee ctx_background containerID e1) as H2.
  eauto using only_touches_trans.
Qed.

Lemma after_orphan_healthy (containerID : string) (w : World Engine) :
  containerID <> EmptyString ->
  (forall t api, engine_fails ee t api containerID = false) ->
  containers (runtime (after_orphan ee containerID w)) !! containerID = None.
Proof.
  intros Hne Hok. unfold after_orphan.
  rewrite Real_StopContainer_healthy by done.
  destruct (containers (runtime w) !! containerID) as [c|] eqn:Ec; simpl; [|done].
  destruct (_ || _); simpl;
    match goal with
    | |- context [Real_RemoveContainer ee _ _ ?e] =>
        destruct (Real_RemoveContainer_healthy ee containerID e Hne Hok)
          as (err & n & ->)
    end; simpl; by rewrite lookup_delete_eq.
Qed.

Lemma orphans_each_cons (scenarioContainers : gmap string bool) (c : ContainerInfo)
    (rest : list ContainerInfo) (w : World Engine) :
  if cleanup.isScenarioContainer (ID c) scenarioContainers
  then orphans_each ctx_background scenarioContainers (c :: rest) w
       = orphans_each ctx_background scenarioContainers rest w
  else exists outcome,
      orphans_each ctx_background scenarioContainers (c :: rest) w
      = ((ID c, outcome)
           :: (orphans_each ctx_background scenarioContainers rest
                 (after_orphan ee (ID c) w)).1,
         (orphans_each ctx_background scenarioContainers rest
            (after_orphan ee (ID c) w)).2).
Proof.
  unfold orphans_each, after_orphan. simpl.
  destruct (cleanup.isScenarioContainer (ID c) scenarioContainers); simpl; [done|].
  unfold bind at 1. unfold cleanup.on_docker at 1. simpl.
  destruct (Real_StopContainer ee ctx_background (ID c) (runtime w)) as [[err|] e1];
    simpl.
  - unfold bind at 1.
    destruct (cleanup.orphans_each ctx_background scenarioContainers rest _)
      as [logs w2]. by eexists.
  - unfold bind at 1. unfold cleanup.on_docker at 1. simpl.
    destruct (Real_RemoveContainer ee ctx_background (ID c) e1) as [[err|] e2]; simpl;
      unfold bind at 1;
      destruct (cleanup.orphans_each ctx_background scenarioContainers rest _)
        as [logs w2]; by eexists.
Qed.

(** The loop over the listing: it works on every container that the map
    does not hold, whatever fails; it leaves the containers that the map
    holds as they are; and a container it worked on is gone if the engine
    failed no call for it. *)
Lemma orphans_each_spec (scenarioContainers : gmap string bool)
    (cs : list ContainerInfo) (w : World Engine) :
  let out := orphans_each ctx_background scenarioContainers cs w in
  out.1.*1
  = filter (fun k => cleanup.isScenarioContainer k scenarioContainers = false) (ID <$> cs)
  /\ (forall k, cleanup.isScenarioContainer k scenarioContainers = true ->
                containers (runtime out.2) !! k = containers (runtime w) !! k)
  /\ (forall k, containers (runtime w) !! k = None ->
                containers (runtime out.2) !! k = None)
  /\ (forall k, k ∈ ID <$> cs ->
                cleanup.isScenarioContainer k scenarioContainers = false ->
                k <> EmptyString ->
                (forall t api, engine_fails ee t api k = false) ->
                containers (runtime out.2) !! k = None).
Proof.
  revert w. induction cs as [|c cs IH]; intros w.
  { cbv zeta. simpl. split; [done|]. split; [done|]. split; [done|].
    intros k Hk. by apply elem_of_nil in Hk. }
  cbv zeta. pose proof (orphans_each_cons scenarioContainers c cs w) as Hc.
  rewrite fmap_cons.
  destruct (cleanup.isScenarioContainer (ID c) scenarioContainers) eqn:Ec.
  - rewrite Hc. destruct (IH w) as (I1 & I2 & I3 & I4).
    rewrite filter_cons_False by (rewrite Ec; done).
    split; [done|]. split; [done|]. split; [done|].
    intros k Hk Hno. apply elem_of_cons in Hk as [->|Hk]; [congruence|by auto].
  - destruct Hc as (outcome & ->). simpl fst. simpl snd.
    destruct (IH (after_orphan ee (ID c) w)) as (I1 & I2 & I3 & I4).
    pose proof (after_orphan_touches (ID c) w) as [T1 T2].
    rewrite filter_cons_True by done.
    split; [by rewrite fmap_cons, I1|]. split; [|split].
    + intros k Hk. rewrite I2 by done. apply T1. congruence.
    + intros k Hk. apply I3. destruct (decide (k = ID c)) as [->|Hne]; [by auto|].
      by rewrite T1.
    + intros k Hk Hno Hne Hok. apply elem_of_cons in Hk as [->|Hk]; [|by auto].
      apply I3. by apply after_orphan_healthy.
Qed.

Lemma Real_ListContainers_Ok (e e1 : Engine) (cs : list ContainerInfo) :
  Real_ListContainers ee ctx_background e = (Ok cs, e1) ->
  containers e1 = containers e /\ ID <$> cs = (map_to_list (containers e)).*1.
Proof.
  unfold Real_ListContainers, bind, engine_op, gets, ret. simpl.
  destruct (engine_fails ee (calls e) NewClientWithOpts EmptyString); [done|].
  simpl.
  destruct (engine_fails ee (S (calls e)) ContainerList EmptyString); [done|].
  intros [= <- <-]. split; [done|].
  rewrite <- list_fmap_compose. by apply list_fmap_ext.
Qed.

Lemma CleanupOrphanedContainers_eq (w : World Engine) :
  cleanup.CleanupOrphanedContainers (Docker := RealClient ee) env ctx_background w =
  let listed := Real_ListContainers ee ctx_background (runtime w) in
  let w1 := mkWorld listed.2 (collection w) (steps w) in
  match listed.1 with
  | Err err => ((Some (Errorf_w "failed to list containers: %w" err), []), w1)
  | Ok cs =>
      if store_fails env (steps w) FindWithContainer
      then ((Some (Errorf_w "failed to get scenario container IDs: %w"
                     (Errorf_w "failed to query scenario container IDs: %w"
                        (ErrText "Find"))), []),
            tick w1)
      else
        let out := orphans_each ctx_background
                     (scenarioContainers_read env (S (steps w)) (collection w)) cs
                     (tick w1) in
        ((None, out.1), out.2)
  end.
Proof.
  unfold cleanup.CleanupOrphanedContainers. unfold bind at 1.
  unfold cleanup.on_docker at 1. simpl.
  destruct (Real_ListContainers ee ctx_background (runtime w)) as [[cs|err] e1]; simpl;
    [|done].
  unfold bind at 1. rewrite getScenarioContainerIDs_eq. simpl.
  destruct (store_fails env (steps w) FindWithContainer); [done|].
  unfold bind at 1. unfold orphans_each.
  by destruct (cleanup.orphans_each ctx_background _ cs _).
Qed.

End OrphanSweep.




(** The same when the cursor fails before the first document: the error of
    the cursor is never read.  And a sweep whose query fails returns the
    error and works on no container, orphan or not. *)
Example CleanupOrphanedContainers_cursor_and_query :
  let clock := fun n => 1000 + Z.of_nat n in
  let no_next := storage.mkEnv
                   (fun _ c => match c with
                               | storage.CursorNext 0 => true
                               | _ => false
                               end) clock in
  let no_find := storage.mkEnv
                   (fun _ c => match c with
                               | storage.FindWithContainer => true
                               | _ => false
                               end) clock in
  let w := a_world [("c1", a_container "running" (Some ttyd_ports));
                    ("c2", a_container "running" None)]
             [a_scenario "scn-1" "c1" "running" 5] in
  let cut := cleanup.CleanupOrphanedContainers (Docker := docker.RealClient healthy_engine)
               no_next ctx_background w in
  let refused := cleanup.CleanupOrphanedContainers
                   (Docker := docker.RealClient healthy_engine)
                   no_find ctx_background w in
  cut.1.1 = None
  /\ docker.containers (storage.runtime cut.2) !! "c1" = None
  /\ refused.1
     = (Some (Errorf_w "failed to get scenario container IDs: %w"
                (Errorf_w "failed to query scenario container IDs: %w" (ErrText "Find"))),
        [])
  /\ docker.containers (storage.runtime refused.2) !! "c2"
     = Some (a_container "running" None).
Proof. vm_compute. done. Qed.

(** What the sweep logs on a healthy engine: [StopContainer] has removed
    the container already, so the [RemoveContainer] after it finds none and
    the orphan is logged as a failure to remove; a container that the
    engine cannot stop is passed over, and the next one is worked on. *)
Example CleanupOrphanedContainers_examples :
  let w := a_world [("c1", a_container "running" (Some ttyd_ports));
                    ("c2", a_container "running" None)]
             [a_scenario "scn-1" "c1" "running" 5] in
  let healthy := cleanup.CleanupOrphanedContainers
                   (Docker := docker.RealClient healthy_engine)
                   healthy_env ctx_background w in
  let no_stop := cleanup.CleanupOrphanedContainers
                   (Docker := docker.RealClient engine_no_stop)
                   healthy_env ctx_background w in
  healthy.1
  = (None, [("c2", cleanup.remove_failed
                     (Errorf_w "%w: %v" (ErrVar docker_ErrContainerNotFound)))])
  /\ docker.containers (storage.runtime healthy.2) !! "c2" = None
  /\ no_stop.1
     = (None, [("c2", cleanup.stop_failed
                        (Errorf_w "failed to stop container: %w"
                           (ErrText "ContainerStop")))])
  /\ docker.containers (storage.runtime no_stop.2) !! "c2"
     = Some (a_container "running" None).
Proof. vm_compute. done. Qed.

(* ===================================================================== *)
(** * The metadata store: round trips and invariants                       *)
(* ===================================================================== *)

Section StoreRoundTrips.
Import storage storage_more.
Context {R : Type} (env : Env) (more : MoreEnv).

Lemma find_first_None (sid : string) (docs : list Scenario) :
  find_first sid docs = None <-> sid ∉ ScenarioID <$> docs.
Proof.
  induction docs as [|d docs IH].
  - split; [intros _; apply not_elem_of_nil|done].
  - rewrite fmap_cons, not_elem_of_cons. simpl.
    destruct (decide (ScenarioID d = sid)) as [Hd|Hd].
    + split; [done|]. intros [Hne _]. congruence.
    + rewrite IH. split; [intros H; split; [congruence|done]|tauto].
Qed.

Lemma find_first_app (sid : string) (docs docs' : list Scenario) :
  find_first sid (docs ++ docs')
  = match find_first sid docs with
    | Some d => Some d
    | None => find_first sid docs'
    end.
Proof.
  induction docs as [|d docs IH]; [done|]. simpl.
  by destruct (decide (ScenarioID d = sid)).
Qed.

(** What a [StoreScenario] that returns no error has done. *)
Lemma StoreScenario_None (ctx : Context_) (db : Database) (s : option Scenario)
    (w w1 : World R) :
  StoreScenario env ctx db s w = (None, w1) ->
  exists s0, s = Some s0 /\ db = db_handle /\ ScenarioID s0 <> EmptyString
             /\ w1 = mkWorld (runtime w) (collection w ++ [to_document s0]) (S (steps w)).
Proof.
  unfold StoreScenario. destruct db; [done|]. destruct s as [s0|]; [|done].
  destruct (String.eqb (ScenarioID s0) EmptyString) eqn:E; [done|].
  apply String.eqb_neq in E.
  unfold bind, store_op, gets, ret, set_collection. simpl.
  destruct (store_fails env (steps w) (InsertOne (ScenarioID s0))); [done|].
  intros [= <-]. by exists s0.
Qed.

(** An instant is written as it is exactly when it is a whole number of
    milliseconds. *)
Lemma to_datetime_id (t : Z) : to_datetime t = t <-> t mod millisecond = 0.
Proof.
  unfold to_datetime, millisecond.
  pose proof (Z.div_mod t 1000000). lia.
Qed.

Lemma to_document_id (s : Scenario) :
  to_document s = s
  <-> CreatedAt s mod millisecond = 0 /\ UpdatedAt s mod millisecond = 0.
Proof.
  rewrite <- !to_datetime_id. destruct s as [i u ty c st p ca ua]. unfold to_document. simpl.
  split; [by intros [= H1 H2]|intros [H1 H2]; by rewrite H1, H2].
Qed.

Lemma delete_first_find_first (sid sid' : string) (docs : list Scenario) :
  NoDup (ScenarioID <$> docs) ->
  find_first sid' (delete_first sid docs)
  = if decide (sid' = sid) then None else find_first sid' docs.
Proof.
  induction docs as [|d docs IH].
  { intros _. simpl. by destruct (decide (sid' = sid)). }
  rewrite fmap_cons, NoDup_cons. intros [Hd Hnd]. simpl.
  destruct (decide (ScenarioID d = sid)) as [Hds|Hds].
  - destruct (decide (sid' = sid)) as [->|Hne].
    + apply find_first_None. by rewrite <- Hds.
    + by rewrite decide_False by congruence.
  - simpl. destruct (decide (ScenarioID d = sid')) as [Hds'|Hds'].
    + by rewrite decide_False by congruence.
    + by apply IH.
Qed.

(** A read changes nothing but the count of the calls. *)
Lemma GetScenario_world (ctx : Context_) (db : Database) (sid : string) (w : World R) :
  runtime (GetScenario env ctx db sid w).2 = runtime w
  /\ collection (GetScenario env ctx db sid w).2 = collection w.
Proof.
  unfold GetScenario. destruct db; [done|].
  destruct (String.eqb sid EmptyString); [done|].
  unfold bind, store_op, gets, ret. simpl.
  destruct (store_fails env (steps w) (FindOne sid)); [done|].
  by destruct (find_first sid (collection w)).
Qed.

End StoreRoundTrips.

(** X1.  Store, then read: when [StoreScenario] returns no error for an id
    the collection did not hold, a [GetScenario] for that id, made next on
    a store that answers, returns the record that was given with its two
    instants cut down to whole milliseconds; it is the record that was
    given exactly when both instants are whole milliseconds. *)
Theorem StoreScenario_then_GetScenario {R : Type} (env : storage.Env)
    (ctx ctx' : Context_) (db : storage.Database) (s : storage.Scenario)
    (w w1 : storage.World R) :
  storage.StoreScenario env ctx db (Some s) w = (None, w1) ->
  storage.ScenarioID s ∉ storage.ScenarioID <$> storage.collection w ->
  storage.store_fails env (storage.steps w1) (storage.FindOne (storage.ScenarioID s))
  = false ->
  storage.GetScenario env ctx' db (storage.ScenarioID s) w1
  = (Ok (storage.to_document s), storage.tick w1)
  /\ (storage.to_document s = s
      <-> storage.CreatedAt s mod storage.millisecond = 0
          /\ storage.UpdatedAt s mod storage.millisecond = 0).
Proof.
  intros Hst Hnew Hf. split; [|apply to_document_id].
  apply StoreScenario_None in Hst as (s0 & [= <-] & -> & Hne & ->).
  apply find_first_None in Hnew.
  apply GetScenario_found; [done|done|]. simpl.
  rewrite find_first_app, Hnew. simpl. by rewrite decide_True.
Qed.

Lemma StoreScenario_then_GetScenario_witness :
  let s := storage.mkScenario "scn-1" "user-1" "go" "c1" "provisioning" 3001
             1700000000123456789 1700000000123999999 in
  let w := a_world [] [a_scenario "scn-0" "c0" "running" 3] in
  let w1 := (storage.StoreScenario healthy_env ctx_background storage.db_handle
               (Some s) w).2 in
  storage.GetScenario healthy_env ctx_background storage.db_handle "scn-1" w1
  = (Ok (storage.mkScenario "scn-1" "user-1" "go" "c1" "provisioning" 3001
           1700000000123000000 1700000000123000000),
     storage.tick w1).
Proof.
  intros s w w1.
  apply (StoreScenario_then_GetScenario healthy_env ctx_background ctx_background
           storage.db_handle s w w1).
  - reflexivity.
  - apply (bool_decide_unpack _). by vm_compute.
  - reflexivity.
Defined.

(** X2.  [StoreScenario] makes no check of its own for an id the
    collection already holds.  When it returns an error the collection is
    as it was; when it returns none, the collection has gained exactly one
    document, with the id that was given, whether or not a record with that
    id was there.  So ids that are pairwise different stay so through a
    [StoreScenario] exactly when it fails or the id is new, and always
    through an [UpdateScenario], which never changes the ids. *)
Theorem StoreScenario_no_uniqueness_check {R : Type} (env : storage.Env)
    (ctx : Context_) (db : storage.Database) (s : option storage.Scenario)
    (w : storage.World R) :
  let stored := storage.StoreScenario env ctx db s w in
  let updated := storage.UpdateScenario env ctx db s w in
  (stored.1 <> None -> storage.collection stored.2 = storage.collection w)
  /\ (stored.1 = None ->
      exists s0, s = Some s0
                 /\ storage.collection stored.2
                    = storage.collection w ++ [storage.to_document s0])
  /\ (NoDup (storage.ScenarioID <$> storage.collection w) ->
      (NoDup (storage.ScenarioID <$> storage.collection stored.2)
       <-> stored.1 <> None
           \/ exists s0, s = Some s0
                         /\ storage.ScenarioID s0
                            ∉ storage.ScenarioID <$> storage.collection w))
  /\ storage.ScenarioID <$> storage.collection updated.2
     = storage.ScenarioID <$> storage.collection w.
Proof.
  intros stored updated. subst stored updated.
  assert ((storage.StoreScenario env ctx db s w).1 = None ->
          exists s0, s = Some s0
                     /\ storage.collection (storage.StoreScenario env ctx db s w).2
                        = storage.collection w ++ [storage.to_document s0]) as Hok.
  { destruct (storage.StoreScenario env ctx db s w) as [[e|] w1] eqn:Hst; [done|].
    intros _. apply StoreScenario_None in Hst as (s0 & -> & _ & _ & ->). by exists s0. }
  assert ((storage.StoreScenario env ctx db s w).1 <> None ->
          storage.collection (storage.StoreScenario env ctx db s w).2
          = storage.collection w) as Herr.
  { destruct (storage.StoreScenario env ctx db s w) as [[e|] w1] eqn:Hst; [|done].
    intros _. simpl. by apply StoreScenario_failed_collection in Hst as [-> _]. }
  split; [exact Herr|]. split; [exact Hok|]. split.
  - intros Hnd.
    destruct (storage.StoreScenario env ctx db s w).1 as [e|] eqn:E.
    + rewrite Herr by done. split; [by left|done].
    + destruct (Hok eq_refl) as (s0 & -> & ->).
      rewrite fmap_app. simpl. split.
      * intros Hnd'. right. exists s0. split; [done|].
        apply NoDup_app in Hnd' as (_ & Hdis & _).
        intros Hin. apply (Hdis _ Hin). apply list_elem_of_here.
      * intros [?|(s1 & [= <-] & Hnew)]; [done|].
        apply NoDup_app. split; [done|]. split; [|apply NoDup_singleton].
        by intros x Hx [->|[]%elem_of_nil]%elem_of_cons.
  - unfold storage.UpdateScenario. destruct db; [done|]. destruct s as [s0|]; [|done].
    destruct (String.eqb (storage.ScenarioID s0) EmptyString); [done|].
    unfold bind, storage.time_Now, storage.store_op, gets, ret,
      storage.set_collection. simpl.
    destruct (storage.store_fails env (S (storage.steps w))
                (storage.UpdateOne (storage.ScenarioID s0))); [done|].
    simpl. by rewrite update_first_ids.
Qed.

Lemma StoreScenario_no_uniqueness_check_witness :
  let s := a_scenario "scn-1" "c9" "provisioning" 5 in
  let w := a_world [] [a_scenario "scn-1" "c1" "running" 3] in
  let stored := storage.StoreScenario healthy_env ctx_background storage.db_handle
                  (Some s) w in
  stored.1 = None
  /\ storage.ScenarioID <$> storage.collection stored.2 = ["scn-1"; "scn-1"].
Proof.
  intros s w stored. split; [reflexivity|].
  destruct (StoreScenario_no_uniqueness_check healthy_env ctx_background
              storage.db_handle (Some s) w) as (_ & H & _).
  destruct (H eq_refl) as (s0 & [= <-] & Hc).
  change (storage.collection stored.2)
    with (storage.collection
            (storage.StoreScenario healthy_env ctx_background storage.db_handle
               (Some s) w).2).
  by rewrite Hc.
Defined.

(** X3.  An update that matches no document is no error: for an id the
    collection does not hold, [UpdateScenario] on a store that answers
    returns [nil], changes no document and inserts none; the record is
    still not found afterwards. *)
Theorem UpdateScenario_missing_id {R : Type} (env : storage.Env) (ctx ctx' : Context_)
    (s : storage.Scenario) (w : storage.World R) :
  storage.ScenarioID s <> EmptyString ->
  storage.ScenarioID s ∉ storage.ScenarioID <$> storage.collection w ->
  storage.store_fails env (S (storage.steps w)) (storage.UpdateOne (storage.ScenarioID s))
  = false ->
  storage.store_fails env (S (S (storage.steps w)))
    (storage.FindOne (storage.ScenarioID s)) = false ->
  let out := storage.UpdateScenario env ctx storage.db_handle (Some s) w in
  out.1 = None
  /\ storage.collection out.2 = storage.collection w
  /\ exists err,
       (storage.GetScenario env ctx' storage.db_handle (storage.ScenarioID s) out.2).1
       = Err err
       /\ errors_Is err storage_ErrScenarioNotFound = true.
Proof.
  intros Hne Hnot Hup Hfind out. subst out.
  rewrite UpdateScenario_eq, Hup by done. simpl.
  apply find_first_None in Hnot.
  assert (storage.update_first (storage.ScenarioID s)
            (stamped s (storage.clock env (storage.steps w))) (storage.collection w)
          = storage.collection w) as Hsame.
  { revert Hnot. generalize (stamped s (storage.clock env (storage.steps w))).
    induction (storage.collection w) as [|d docs IH]; [done|]. simpl. intros s'.
    destruct (decide (storage.ScenarioID d = storage.ScenarioID s)); [done|].
    intros Hn. by rewrite IH. }
  rewrite Hsame. split; [done|]. split; [done|].
  unfold storage.GetScenario. apply String.eqb_neq in Hne. rewrite Hne.
  unfold bind, storage.store_op, gets, ret. simpl. rewrite Hfind, Hnot.
  by eexists.
Qed.

Lemma UpdateScenario_missing_id_witness :
  let s := a_scenario "scn-9" "c9" "stopped" 5 in
  let w := a_world [] [a_scenario "scn-1" "c1" "running" 3] in
  let out := storage.UpdateScenario healthy_env ctx_background storage.db_handle
               (Some s) w in
  out.1 = None
  /\ storage.collection out.2 = storage.collection w
  /\ exists err,
       (storage.GetScenario healthy_env ctx_background storage.db_handle "scn-9" out.2).1
       = Err err
       /\ errors_Is err storage_ErrScenarioNotFound = true.
Proof.
  intros s w.
  apply (UpdateScenario_missing_id healthy_env ctx_background ctx_background s w).
  - done.
  - vm_compute. intros [H|H]%elem_of_cons; [done|]. by apply elem_of_nil in H.
  - reflexivity.
  - reflexivity.
Defined.

(** X4.  Update, then read: after an [UpdateScenario] that returns no
    error for an id the collection holds, the record read back has the
    user, type, container and status that were given and, as [updated_at],
    the time of the update cut down to whole milliseconds, whatever
    [UpdatedAt] the caller had set; a zero port or creation time in the
    update leaves the stored one, another creation time is written in
    whole milliseconds; and every record with another id reads as
    before. *)
Theorem UpdateScenario_then_GetScenario {R : Type} (env : storage.Env)
    (ctx : Context_) (s d : storage.Scenario) (w w1 : storage.World R) :
  storage.find_first (storage.ScenarioID s) (storage.collection w) = Some d ->
  storage.UpdateScenario env ctx storage.db_handle (Some s) w = (None, w1) ->
  storage.clock env (storage.steps w) <> 0 ->
  (exists r,
     storage.find_first (storage.ScenarioID s) (storage.collection w1) = Some r
     /\ storage.UserID r = storage.UserID s
     /\ storage.ScenarioType r = storage.ScenarioType s
     /\ storage.ContainerID r = storage.ContainerID s
     /\ storage.Status r = storage.Status s
     /\ storage.UpdatedAt r = storage.to_datetime (storage.clock env (storage.steps w))
     /\ storage.TerminalPort r
        = (if storage.TerminalPort s =? 0 then storage.TerminalPort d
           else storage.TerminalPort s)
     /\ storage.CreatedAt r
        = (if storage.CreatedAt s =? 0 then storage.CreatedAt d
           else storage.to_datetime (storage.CreatedAt s)))
  /\ forall sid, sid <> storage.ScenarioID s ->
       storage.find_first sid (storage.collection w1)
       = storage.find_first sid (storage.collection w).
Proof.
  intros Hd Hup Hclock.
  assert (storage.ScenarioID s <> EmptyString) as Hne.
  { intros He. unfold storage.UpdateScenario in Hup. by rewrite He in Hup. }
  rewrite UpdateScenario_eq in Hup by done.
  destruct (storage.store_fails env (S (storage.steps w))
              (storage.UpdateOne (storage.ScenarioID s))); [done|].
  injection Hup as <-. simpl. split.
  - erewrite find_first_update_first by done. eexists. split; [reflexivity|]. simpl.
    apply Z.eqb_neq in Hclock. by rewrite Hclock.
  - intros sid Hsid. by apply find_first_update_first_ne.
Qed.

Lemma UpdateScenario_then_GetScenario_witness :
  let d := storage.mkScenario "scn-1" "user-1" "go" "c1" "running" 3001
             1700000000001000000 1700000000001000000 in
  let s := storage.mkScenario "scn-1" "user-1" "go" "c1" "stopped" 0 0 0 in
  let w := a_world [] [d; a_scenario "scn-2" "c2" "running" 7] in
  let w1 := (storage.UpdateScenario wall_clock_env ctx_background storage.db_handle
               (Some s) w).2 in
  (exists r,
     storage.find_first "scn-1" (storage.collection w1) = Some r
     /\ storage.UserID r = "user-1"
     /\ storage.ScenarioType r = "go"
     /\ storage.ContainerID r = "c1"
     /\ storage.Status r = "stopped"
     /\ storage.UpdatedAt r = 1700000000123000000
     /\ storage.TerminalPort r = 3001
     /\ storage.CreatedAt r = 1700000000001000000)
  /\ forall sid, sid <> "scn-1" ->
       storage.find_first sid (storage.collection w1)
       = storage.find_first sid (storage.collection w).
Proof.
  intros d s w w1.
  apply (UpdateScenario_then_GetScenario wall_clock_env ctx_background s d w w1);
    [reflexivity|reflexivity|done].
Defined.

(** X5.  Delete, then read: on a store that answers and with ids that are
    pairwise different, [DeleteScenario] returns no error whether or not
    the collection holds the id; afterwards no record of that id is left
    (a [GetScenario] fails with [ErrScenarioNotFound]), every other record
    reads as before, and if the id was not there the collection is
    unchanged. *)
Theorem DeleteScenario_then_GetScenario {R : Type} (env : storage.Env)
    (more : storage_more.MoreEnv) (ctx ctx' : Context_) (sid : string)
    (w : storage.World R) :
  sid <> EmptyString ->
  NoDup (storage.ScenarioID <$> storage.collection w) ->
  storage_more.delete_fails more (storage.steps w) sid = false ->
  storage.store_fails env (S (storage.steps w)) (storage.FindOne sid) = false ->
  let out := storage_more.DeleteScenario more ctx storage.db_handle sid w in
  out.1 = None
  /\ (exists err,
        (storage.GetScenario env ctx' storage.db_handle sid out.2).1 = Err err
        /\ errors_Is err storage_ErrScenarioNotFound = true)
  /\ (forall sid', sid' <> sid ->
         storage.find_first sid' (storage.collection out.2)
         = storage.find_first sid' (storage.collection w))
  /\ (sid ∉ storage.ScenarioID <$> storage.collection w ->
       storage.collection out.2 = storage.collection w).
Proof.
  intros Hsid Hnd Hdel Hfind out. subst out. unfold storage_more.DeleteScenario.
  apply String.eqb_neq in Hsid as Hne. rewrite Hne, Hdel. simpl.
  split; [done|]. split; [|split].
  - unfold storage.GetScenario. rewrite Hne.
    unfold bind, storage.store_op, gets, ret. simpl. rewrite Hfind.
    rewrite delete_first_find_first by done. rewrite decide_True by done.
    by eexists.
  - intros sid' Hsid'. rewrite delete_first_find_first by done.
    by rewrite decide_False.
  - intros Hnot. clear Hnd Hfind. induction (storage.collection w) as [|d docs IH]; [done|].
    rewrite fmap_cons, not_elem_of_cons in Hnot. destruct Hnot as [Hd Hnot]. simpl.
    rewrite decide_False by congruence. by rewrite IH.
Qed.

Lemma DeleteScenario_then_GetScenario_witness :
  let more := storage_more.mkMoreEnv (fun _ _ => false) (fun _ _ => false)
                (fun _ _ => false) (fun _ docs => docs) in
  let w := a_world [] [a_scenario "scn-1" "c1" "running" 5;
                       a_scenario "scn-2" "c2" "running" 7] in
  let out := storage_more.DeleteScenario more ctx_background storage.db_handle
               "scn-1" w in
  out.1 = None
  /\ (exists err,
        (storage.GetScenario healthy_env ctx_background storage.db_handle "scn-1" out.2).1
        = Err err
        /\ errors_Is err storage_ErrScenarioNotFound = true)
  /\ storage.find_first "scn-2" (storage.collection out.2)
     = Some (a_scenario "scn-2" "c2" "running" 7).
Proof.
  intros more w out.
  destruct (DeleteScenario_then_GetScenario healthy_env more ctx_background
              ctx_background "scn-1" w) as (H0 & H1 & H2 & _).
  - done.
  - vm_compute. apply NoDup_cons. split.
    + intros [H|H]%elem_of_cons; [done|]. by apply elem_of_nil in H.
    + apply NoDup_singleton.
  - reflexivity.
  - reflexivity.
  - split; [exact H0|]. split; [exact H1|]. by rewrite H2.
Defined.

(* ===================================================================== *)
(** * RealClient: what its methods leave behind                            *)
(* ===================================================================== *)

Ltac run_real :=
  repeat (unfold bind, ret, gets, docker.inspect, docker.engine_op,
            docker.set_containers, docker.stop, docker.remove;
          simpl).

Section ClientFacts.
Import docker.
Context (ee : EngineEnv).

Ltac run_client :=
  repeat (unfold bind, ret, gets, inspect, engine_op, set_containers, stop, remove;
          simpl).

Ltac case_fails :=
  repeat match goal with
         | |- context [engine_fails ee ?n ?api ?t] =>
             destruct (engine_fails ee n api t) eqn:?; run_client
         end.

Lemma Real_StopContainer_None (ctx : Context_) (containerID : string) (e : Engine) :
  (Real_StopContainer ee ctx containerID e).1 = None ->
  containers (Real_StopContainer ee ctx containerID e).2 !! containerID = None.
Proof.
  unfold Real_StopContainer. destruct ctx; [done|].
  destruct (String.eqb containerID EmptyString); [done|]. run_client.
  destruct (engine_fails ee (calls e) NewClientWithOpts containerID); [done|]. run_client.
  destruct (engine_fails ee (S (calls e)) ContainerInspect containerID); [done|].
  destruct (containers e !! containerID) as [c|] eqn:Ec; [|done]. run_client.
  destruct (String.eqb (State_Status c) "exited" || String.eqb (State_Status c) "stopped");
    run_client.
  - destruct (engine_fails ee (S (S (calls e))) ContainerRemove containerID); [done|].
    run_client. intros _. apply lookup_delete_eq.
  - destruct (engine_fails ee (S (S (calls e))) ContainerStop containerID); [done|].
    run_client.
    destruct (engine_fails ee (S (S (S (calls e)))) ContainerRemove containerID); [done|].
    run_client. intros _. apply lookup_delete_eq.
Qed.

Lemma Real_RemoveContainer_None (ctx : Context_) (containerID : string) (e : Engine) :
  (Real_RemoveContainer ee ctx containerID e).1 = None ->
  containers (Real_RemoveContainer ee ctx containerID e).2 !! containerID = None.
Proof.
  unfold Real_RemoveContainer. destruct ctx; [done|].
  destruct (String.eqb containerID EmptyString); [done|]. run_client.
  destruct (engine_fails ee (calls e) NewClientWithOpts containerID); [done|]. run_client.
  destruct (engine_fails ee (S (calls e)) ContainerInspect containerID); [done|].
  destruct (containers e !! containerID) as [c|] eqn:Ec; [|done]. run_client.
  destruct (String.eqb (State_Status c) "running"); run_client.
  - destruct (engine_fails ee (S (S (calls e))) ContainerStop containerID); [done|].
    run_client.
    destruct (engine_fails ee (S (S (S (calls e)))) ContainerRemove containerID); [done|].
    run_client. intros _. apply lookup_delete_eq.
  - destruct (engine_fails ee (S (S (calls e))) ContainerRemove containerID); [done|].
    run_client. intros _. apply lookup_delete_eq.
Qed.

(** What a [StartScenarioContainer] that returns a container has done. *)
Lemma Real_StartScenarioContainer_Ok (ctx : Context_) (scenarioType script : string)
    (e e1 : Engine) (containerID : string) (hostPort : Z) :
  Real_StartScenarioContainer ee ctx scenarioType script e
  = (Ok (containerID, hostPort), e1) ->
  findAvailablePort (port_free ee (S (calls e))) = Ok hostPort
  /\ containerID = new_container_id ee (S (calls e))
  /\ e1 = mkEngine
            (<[containerID :=
                 mkContainer "running"
                   (Some {[ "3000/tcp" := [mkPortBinding "0.0.0.0" (pretty hostPort)] ]})
                   [] "Created"]> (containers e))
            (4 + calls e).
Proof.
  unfold Real_StartScenarioContainer. destruct ctx; [done|]. run_client.
  destruct (engine_fails ee (calls e) NewClientWithOpts EmptyString); [done|].
  destruct (String.eqb scenarioType EmptyString); [done|]. run_client.
  destruct (findAvailablePort (port_free ee (S (calls e)))) as [port|err]; [|done].
  run_client.
  destruct (engine_fails ee (S (calls e)) ContainerCreate EmptyString); [done|].
  run_client.
  destruct (engine_fails ee (S (S (calls e))) ContainerStart _); run_client;
    [by destruct (engine_fails ee _ ContainerRemove _)|].
  destruct (engine_fails ee (S (S (S (calls e)))) ContainerInspect _); [done|].
  rewrite lookup_alter_eq, lookup_insert_eq. simpl.
  destruct (String.eqb (state_after_start ee (S (calls e))) "running") eqn:Est; [|done].
  simpl. intros [= <- <- <-]. split; [done|]. split; [done|].
  apply String.eqb_eq in Est. rewrite alter_insert_eq. unfold with_state. simpl.
  by rewrite Est.
Qed.

Lemma Real_ContainerExists_containers ctx containerID e :
  containers (Real_ContainerExists ee ctx containerID e).2 = containers e.
Proof.
  unfold Real_ContainerExists. destruct ctx; [done|].
  destruct (String.eqb containerID EmptyString); [done|]. run_real.
  destruct (engine_fails ee _ _ _); run_real; [done|].
  destruct (engine_fails ee _ _ _); run_real; [done|].
  by destruct (containers e !! containerID).
Qed.

Lemma Real_GetContainerStatus_containers ctx containerID e :
  containers (Real_GetContainerStatus ee ctx containerID e).2 = containers e.
Proof.
  unfold Real_GetContainerStatus. destruct ctx; [done|].
  destruct (String.eqb containerID EmptyString); [done|]. run_real.
  destruct (engine_fails ee _ _ _); run_real; [done|].
  destruct (engine_fails ee _ _ _); run_real; [done|].
  by destruct (containers e !! containerID).
Qed.

Lemma Real_GetTerminalURL_containers ctx containerID e :
  containers (Real_GetTerminalURL ee ctx containerID e).2 = containers e.
Proof.
  unfold Real_GetTerminalURL. destruct ctx; [done|].
  destruct (String.eqb containerID EmptyString); [done|]. run_real.
  destruct (engine_fails ee _ _ _); run_real; [done|].
  destruct (engine_fails ee _ _ _); run_real; [done|].
  destruct (containers e !! containerID) as [c|]; run_real; [|done].
  destruct (negb _); run_real; [done|].
  destruct (Ports c) as [ports|]; run_real; [|done].
  by destruct (ports !! "3000/tcp") as [[|? ?]|].
Qed.

Lemma Real_ListContainers_containers ctx e :
  containers (Real_ListContainers ee ctx e).2 = containers e.
Proof.
  unfold Real_ListContainers. destruct ctx; [done|]. run_real.
  destruct (engine_fails ee _ _ _); run_real; [done|].
  by destruct (engine_fails ee _ _ _).
Qed.

(** [ExecuteCommand] on an engine that fails no call for the container. *)
Lemma Real_ExecuteCommand_healthy (containerID : string) (command : list string)
    (e : Engine) :
  containerID <> EmptyString -> command <> [] ->
  (forall t api, engine_fails ee t api containerID = false) ->
  Real_ExecuteCommand ee ctx_background containerID command e =
  match containers e !! containerID with
  | None => (Err (Errorf_w "%w: %v" (ErrVar docker_ErrContainerNotFound)),
             after_calls 2 e)
  | Some c =>
      if negb (String.eqb (State_Status c) "running")
      then (Err (Errorf_w "%w: container status is %s"
                   (ErrVar docker_ErrContainerNotRunning)), after_calls 2 e)
      else
        (if (exec_result ee (2 + calls e) containerID command).2 =? 0
         then Ok (exec_result ee (2 + calls e) containerID command).1
         else Err (ErrText "command failed with exit code %d"),
         after_calls 6 e)
  end.
Proof.
  intros Hne Hcmd Hok. unfold Real_ExecuteCommand.
  apply String.eqb_neq in Hne. rewrite Hne.
  destruct command as [|c0 command]; [done|]. simpl length. simpl Nat.eqb. cbv iota.
  do 3 (rewrite ?Hok; run_real).
  destruct (containers e !! containerID) as [c|]; run_real; [|done].
  destruct (String.eqb (State_Status c) "running"); run_real; [|done].
  destruct (exec_result ee (S (S (calls e))) containerID (c0 :: command))
    as [output exitCode].
  do 5 (rewrite ?Hok; run_real).
  by destruct (exitCode =? 0).
Qed.

End ClientFacts.

(** What a failed [StartScenarioContainer] leaves behind. *)
Lemma Real_StartScenarioContainer_Err (ee : docker.EngineEnv) (ctx : Context_)
    (scenarioType script : string) (e e1 : docker.Engine) (err : error) :
  docker.Real_StartScenarioContainer ee ctx scenarioType script e
  = (Err err, e1) ->
  (forall k, k <> docker.new_container_id ee (S (docker.calls e)) ->
             docker.containers e1 !! k = docker.containers e !! k)
  /\ (errors_Is err docker_ErrPortUnavailable
      || errors_Is err docker_ErrDockerDaemonUnavailable
      || errors_Is err docker_ErrInvalidScenarioType = true ->
      docker.containers e1 = docker.containers e)
  /\ (errors_Is err docker_ErrTTYDFailedToStart = true ->
      exists c, docker.containers e1 !! docker.new_container_id ee (S (docker.calls e))
                = Some c
                /\ docker.State_Status c <> "running").
Proof.
  unfold docker.Real_StartScenarioContainer. destruct ctx.
  { intros [= <- <-]. by split. }
  run_real.
  destruct (docker.engine_fails ee (docker.calls e) docker.NewClientWithOpts EmptyString);
    run_real.
  { intros [= <- <-]. by split. }
  destruct (String.eqb scenarioType EmptyString); run_real.
  { intros [= <- <-]. by split. }
  destruct (docker.findAvailablePort (docker.port_free ee (S (docker.calls e))))
    as [port|perr]; run_real.
  2:{ intros [= <- <-]. by split. }
  destruct (docker.engine_fails ee (S (docker.calls e)) docker.ContainerCreate EmptyString);
    run_real.
  { intros [= <- <-]. by split. }
  set (id := docker.new_container_id ee (S (docker.calls e))).
  destruct (docker.engine_fails ee (S (S (docker.calls e))) docker.ContainerStart id);
    run_real.
  { destruct (docker.engine_fails ee _ docker.ContainerRemove id); run_real;
      intros [= <- <-]; (split; [|by split]); intros k Hk; simpl;
      rewrite ?lookup_delete_ne by done; by rewrite lookup_insert_ne. }
  destruct (docker.engine_fails ee (S (S (S (docker.calls e)))) docker.ContainerInspect id);
    run_real.
  { intros [= <- <-]. split; [|by split]. intros k Hk. simpl.
    by rewrite lookup_alter_ne, lookup_insert_ne. }
  rewrite lookup_alter_eq, lookup_insert_eq. run_real.
  destruct (String.eqb (docker.state_after_start ee (S (docker.calls e))) "running")
    eqn:Est; run_real; [done|].
  intros [= <- <-]. split; [|split; [done|]].
  - intros k Hk. simpl. by rewrite lookup_alter_ne, lookup_insert_ne.
  - intros _. eexists. simpl. rewrite lookup_alter_eq, lookup_insert_eq.
    split; [reflexivity|]. simpl. by apply String.eqb_neq.
Qed.

(** X6.  A [nil] error from [StopContainer] means the container is gone:
    it is no longer in the engine, [ContainerExists] cannot answer [true]
    for it, and a second [StopContainer] returns an error; on an engine
    that fails no call for the container that error is
    [ErrContainerNotFound] and [ContainerExists] answers [false]. *)
Theorem StopContainer_success_removes (ee : docker.EngineEnv) (ctx : Context_)
    (containerID : string) (e : docker.Engine) :
  (docker.StopContainer (Client := docker.RealClient ee) ctx containerID e).1 = None ->
  let e1 := (docker.StopContainer (Client := docker.RealClient ee) ctx containerID e).2 in
  docker.containers e1 !! containerID = None
  /\ (forall ctx', (docker.ContainerExists (Client := docker.RealClient ee)
                      ctx' containerID e1).1 <> Ok true)
  /\ (forall ctx', (docker.StopContainer (Client := docker.RealClient ee)
                      ctx' containerID e1).1 <> None)
  /\ ((forall t api, docker.engine_fails ee t api containerID = false) ->
       (docker.ContainerExists (Client := docker.RealClient ee)
          ctx_background containerID e1).1 = Ok false
       /\ exists err,
            (docker.StopContainer (Client := docker.RealClient ee)
               ctx_background containerID e1).1 = Some err
            /\ errors_Is err docker_ErrContainerNotFound = true).
Proof.
  simpl. intros Hnil.
  pose proof (Real_StopContainer_None ee ctx containerID e Hnil) as Hgone.
  assert (containerID <> EmptyString) as Hne.
  { intros ->. unfold docker.Real_StopContainer in Hnil. by destruct ctx. }
  set (e1 := (docker.Real_StopContainer ee ctx containerID e).2) in *.
  split; [done|]. split; [|split].
  - intros ctx'. destruct ctx'; [done|].
    rewrite Real_ContainerExists_eq by done. rewrite Hgone.
    by repeat destruct (docker.engine_fails _ _ _ _).
  - intros ctx'. unfold docker.Real_StopContainer. destruct ctx'; [done|].
    apply String.eqb_neq in Hne. rewrite Hne.
    run_real.
    destruct (docker.engine_fails ee (docker.calls e1) docker.NewClientWithOpts
                containerID); run_real; [done|].
    destruct (docker.engine_fails ee (S (docker.calls e1)) docker.ContainerInspect
                containerID); run_real; [done|].
    by rewrite Hgone.
  - intros Hok. rewrite Real_ContainerExists_eq, !Hok, Hgone by done.
    split; [done|]. rewrite Real_StopContainer_healthy, Hgone by done. by eexists.
Qed.

Lemma StopContainer_success_removes_witness :
  let e := docker.mkEngine
             (list_to_map [("c1", a_container "running" (Some ttyd_ports))]) 0 in
  let e1 := (docker.StopContainer (Client := docker.RealClient healthy_engine)
               ctx_background "c1" e).2 in
  docker.containers e1 !! "c1" = None
  /\ (docker.ContainerExists (Client := docker.RealClient healthy_engine)
        ctx_background "c1" e1).1 = Ok false
  /\ exists err,
       (docker.StopContainer (Client := docker.RealClient healthy_engine)
          ctx_background "c1" e1).1 = Some err
       /\ errors_Is err docker_ErrContainerNotFound = true.
Proof.
  intros e e1.
  destruct (StopContainer_success_removes healthy_engine ctx_background "c1" e eq_refl)
    as (H1 & _ & _ & H4).
  split; [exact H1|]. by apply H4.
Defined.

(** X7.  [RemoveContainer] is not idempotent: a [nil] error means the
    container is gone, and for a non-empty id of a container that is not in
    the engine the method, once its client is created, returns an error
    that is [ErrContainerNotFound], whether the engine answers the
    inspection or not. *)
Theorem RemoveContainer_success_removes (ee : docker.EngineEnv) (ctx : Context_)
    (containerID : string) (e : docker.Engine) :
  ((docker.RemoveContainer (Client := docker.RealClient ee) ctx containerID e).1 = None ->
   docker.containers
     (docker.RemoveContainer (Client := docker.RealClient ee) ctx containerID e).2
     !! containerID = None)
  /\ (docker.containers e !! containerID = None ->
      containerID <> EmptyString ->
      docker.engine_fails ee (docker.calls e) docker.NewClientWithOpts containerID = false ->
      exists err,
        docker.RemoveContainer (Client := docker.RealClient ee) ctx_background containerID e
        = (Some err, docker.mkEngine (docker.containers e) (2 + docker.calls e))
        /\ errors_Is err docker_ErrContainerNotFound = true).
Proof.
  simpl. split; [apply Real_RemoveContainer_None|].
  intros Hgone Hne Hcli. apply String.eqb_neq in Hne.
  unfold docker.Real_RemoveContainer. rewrite Hne.
  run_real. rewrite Hcli. run_real.
  destruct (docker.engine_fails ee (S (docker.calls e)) docker.ContainerInspect
              containerID); run_real; [by eexists|].
  rewrite Hgone. by eexists.
Qed.

Lemma RemoveContainer_success_removes_witness :
  let e := docker.mkEngine
             (list_to_map [("c1", a_container "running" (Some ttyd_ports))]) 0 in
  docker.containers
    (docker.RemoveContainer (Client := docker.RealClient healthy_engine)
       ctx_background "c1" e).2 !! "c1" = None
  /\ exists err,
       docker.RemoveContainer (Client := docker.RealClient healthy_engine)
         ctx_background "c2" e
       = (Some err, docker.mkEngine (docker.containers e) 2)
       /\ errors_Is err docker_ErrContainerNotFound = true.
Proof.
  intros e. split.
  - by apply (proj1 (RemoveContainer_success_removes healthy_engine ctx_background "c1" e)).
  - by apply (proj2 (RemoveContainer_success_removes healthy_engine ctx_background "c2" e)).
Defined.

(** X8.  The methods that only ask the engine never change a container:
    [ContainerExists], [GetContainerStatus], [GetTerminalURL] and
    [ListContainers] leave the containers of the engine exactly as they
    were, for every argument and whatever call fails. *)
Theorem RealClient_queries_change_nothing (ee : docker.EngineEnv) (ctx : Context_)
    (containerID : string) (e : docker.Engine) :
  docker.containers
    (docker.ContainerExists (Client := docker.RealClient ee) ctx containerID e).2
  = docker.containers e
  /\ docker.containers
       (docker.GetContainerStatus (Client := docker.RealClient ee) ctx containerID e).2
     = docker.containers e
  /\ docker.containers
       (docker.GetTerminalURL (Client := docker.RealClient ee) ctx containerID e).2
     = docker.containers e
  /\ docker.containers (docker.ListContainers (Client := docker.RealClient ee) ctx e).2
     = docker.containers e.
Proof.
  simpl. split; [apply Real_ContainerExists_containers|].
  split; [apply Real_GetContainerStatus_containers|].
  split; [apply Real_GetTerminalURL_containers|apply Real_ListContainers_containers].
Qed.

(** X9.  What a successful [StartScenarioContainer] leaves: the host port
    it returns is one of 3001..3009; the container it returns is in the
    engine, running, with port 3000 bound to that host port on 0.0.0.0; no
    other container has changed; and a [GetTerminalURL] for the container,
    made next on an engine that answers, gives the address with that
    port. *)
Theorem StartScenarioContainer_postcondition (ee : docker.EngineEnv) (ctx : Context_)
    (scenarioType script : string) (e e1 : docker.Engine) (containerID : string)
    (hostPort : Z) :
  docker.StartScenarioContainer (Client := docker.RealClient ee) ctx scenarioType script e
  = (Ok (containerID, hostPort), e1) ->
  3001 <= hostPort < 3010
  /\ (exists c, docker.containers e1 !! containerID = Some c
                /\ docker.State_Status c = "running"
                /\ shell_binding c = Some (docker.mkPortBinding "0.0.0.0" (pretty hostPort)))
  /\ (forall k, k <> containerID ->
                docker.containers e1 !! k = docker.containers e !! k)
  /\ (containerID <> EmptyString ->
      docker.engine_fails ee (docker.calls e1) docker.NewClientWithOpts containerID = false ->
      docker.engine_fails ee (S (docker.calls e1)) docker.ContainerInspect containerID
      = false ->
      (docker.GetTerminalURL (Client := docker.RealClient ee) ctx_background containerID e1).1
      = Ok ("http://0.0.0.0:" +:+ pretty hostPort)).
Proof.
  simpl. intros Hstart.
  apply Real_StartScenarioContainer_Ok in Hstart as (Hport & Hid & ->).
  split; [|split; [|split]].
  - unfold docker.findAvailablePort in Hport.
    destruct (findAvailablePort_loop_spec (docker.port_free ee (S (docker.calls e))) 10 3001)
      as (r & probed & Hl & _ & _ & Hres); [lia|simpl; lia|].
    rewrite Hl in Hport. subst r.
    destruct Hres as [(p & [= <-] & Hp & _)|(err & [=] & _)]. lia.
  - eexists. simpl. rewrite lookup_insert_eq. split; [reflexivity|]. by split.
  - intros k Hk. simpl. by rewrite lookup_insert_ne.
  - intros Hne Hcli Hins. rewrite Real_GetTerminalURL_eq by done.
    simpl in *. rewrite Hcli, Hins, lookup_insert_eq. reflexivity.
Qed.

Lemma StartScenarioContainer_postcondition_witness :
  let out := docker.StartScenarioContainer (Client := docker.RealClient healthy_engine)
               ctx_background "python" "echo hi" (docker.mkEngine ∅ 0) in
  out.1 = Ok ("c1", 3001)
  /\ (exists c, docker.containers out.2 !! "c1" = Some c
                /\ docker.State_Status c = "running"
                /\ shell_binding c = Some (docker.mkPortBinding "0.0.0.0" (pretty 3001)))
  /\ (docker.GetTerminalURL (Client := docker.RealClient healthy_engine)
        ctx_background "c1" out.2).1 = Ok ("http://0.0.0.0:" +:+ pretty 3001).
Proof.
  intros out. split; [vm_compute; reflexivity|].
  destruct (StartScenarioContainer_postcondition healthy_engine ctx_background "python"
              "echo hi" (docker.mkEngine ∅ 0) out.2 "c1" 3001) as (_ & H2 & _ & H4).
  - vm_compute. reflexivity.
  - split; [exact H2|]. by apply H4.
Defined.

(** X10.  What a failed [StartScenarioContainer] leaves: no container
    other than the one it may have created is changed; when it fails for
    want of a port, of the daemon or of a scenario type, no container is
    created at all; and when it fails because the container did not stay
    up ([ErrTTYDFailedToStart]), the container it created is still in the
    engine, not running: the method does not remove it. *)
Theorem StartScenarioContainer_failure (ee : docker.EngineEnv) (ctx : Context_)
    (scenarioType script : string) (e e1 : docker.Engine) (err : error) :
  docker.StartScenarioContainer (Client := docker.RealClient ee) ctx scenarioType script e
  = (Err err, e1) ->
  (forall k, k <> docker.new_container_id ee (S (docker.calls e)) ->
             docker.containers e1 !! k = docker.containers e !! k)
  /\ (errors_Is err docker_ErrPortUnavailable
      || errors_Is err docker_ErrDockerDaemonUnavailable
      || errors_Is err docker_ErrInvalidScenarioType = true ->
      docker.containers e1 = docker.containers e)
  /\ (errors_Is err docker_ErrTTYDFailedToStart = true ->
      exists c, docker.containers e1 !! docker.new_container_id ee (S (docker.calls e))
                = Some c
                /\ docker.State_Status c <> "running").
Proof. apply Real_StartScenarioContainer_Err. Qed.

Lemma StartScenarioContainer_failure_witness :
  let ee := docker.mkEngineEnv (fun _ _ _ => false) (fun _ _ => true)
              (fun n => "c" +:+ pretty n) (fun _ => "exited")
              (fun _ _ _ => (EmptyString, 0)) in
  let out := docker.StartScenarioContainer (Client := docker.RealClient ee)
               ctx_background "go" "exit 1" (docker.mkEngine ∅ 0) in
  out.1 = Err (Errorf_w "%w: container exited unexpectedly"
                 (ErrVar docker_ErrTTYDFailedToStart))
  /\ exists c, docker.containers out.2 !! "c1" = Some c
               /\ docker.State_Status c <> "running".
Proof.
  intros ee out. split; [vm_compute; reflexivity|].
  destruct (StartScenarioContainer_failure ee ctx_background "go" "exit 1"
              (docker.mkEngine ∅ 0) out.2
              (Errorf_w "%w: container exited unexpectedly"
                 (ErrVar docker_ErrTTYDFailedToStart))) as (_ & _ & H3).
  - vm_compute. reflexivity.
  - by apply H3.
Defined.

(** X11.  [ListContainers] lists every container of the engine exactly
    once: the ids it returns are pairwise different and are the ids of the
    engine, and each entry carries the status line of its container and, as
    its name, the first name of the container or its id when it has no
    name. *)
Theorem ListContainers_lists_each_once (ee : docker.EngineEnv) (ctx : Context_)
    (e e1 : docker.Engine) (cs : list docker.ContainerInfo) :
  docker.ListContainers (Client := docker.RealClient ee) ctx e = (Ok cs, e1) ->
  NoDup (docker.ID <$> cs)
  /\ (forall id, id ∈ docker.ID <$> cs <-> is_Some (docker.containers e !! id))
  /\ (forall info, info ∈ cs ->
        exists c, docker.containers e !! docker.ID info = Some c
                  /\ docker.Status info = docker.Summary c
                  /\ docker.Name info = match docker.Names c with
                                        | name :: _ => name
                                        | [] => docker.ID info
                                        end).
Proof.
  simpl. unfold docker.Real_ListContainers. destruct ctx; [done|]. run_real.
  destruct (docker.engine_fails ee _ _ _); run_real; [done|].
  destruct (docker.engine_fails ee _ _ _); run_real; [done|].
  intros [= <- <-]. split; [|split].
  - rewrite <- list_fmap_compose.
    erewrite list_fmap_ext; [apply (NoDup_fst_map_to_list (docker.containers e))|].
    by intros ? [].
  - intros id. rewrite <- list_fmap_compose, list_elem_of_fmap. split.
    + intros ([k c] & -> & Hin). apply elem_of_map_to_list in Hin. simpl. eauto.
    + intros [c Hc]. exists (id, c). split; [done|]. by apply elem_of_map_to_list.
  - intros info ([k c] & -> & Hin)%list_elem_of_fmap.
    apply elem_of_map_to_list in Hin. exists c. simpl. by split.
Qed.

Lemma ListContainers_lists_each_once_witness :
  let e := docker.mkEngine
             (list_to_map [("c1", a_container "running" None);
                           ("c2", a_container "exited" None)]) 0 in
  let out := docker.ListContainers (Client := docker.RealClient healthy_engine)
               ctx_background e in
  exists cs, out.1 = Ok cs
             /\ NoDup (docker.ID <$> cs)
             /\ (forall id, id ∈ docker.ID <$> cs <-> is_Some (docker.containers e !! id)).
Proof.
  intros e out.
  destruct out as [[cs|err] e1] eqn:Hout; [|by vm_compute in Hout].
  exists cs. split; [reflexivity|].
  destruct (ListContainers_lists_each_once healthy_engine ctx_background e e1 cs Hout)
    as (H1 & H2 & _).
  by split.
Defined.

(* ===================================================================== *)
(** * The manager: a scenario from start to terminal                       *)
(* ===================================================================== *)

Section ManagerFacts.
Import storage docker.
Context {R : Type} {Docker : Client R} (env : Env) (m : scenario.Manager).

(** What a [StartScenario] that returns a response has done. *)
Lemma StartScenario_Ok (ctx : Context_) (req : option api_types.StartScenarioRequest)
    (w w1 : World R) (resp : api_types.StartScenarioResponse) :
  scenario.StartScenario env m ctx req w = (Ok resp, w1) ->
  exists req0 containerID terminalPort r1,
    req = Some req0
    /\ StartScenarioContainer ctx_background (api_types.req_ScenarioType req0)
         (api_types.req_Script req0) (runtime w) = (Ok (containerID, terminalPort), r1)
    /\ resp = api_types.mkStartScenarioResponse
                (ScenarioID (new_record env w req0 containerID terminalPort))
                "provisioning"
    /\ w1 = mkWorld r1
              (collection w
               ++ [to_document (new_record env w req0 containerID terminalPort)])
              (S (S (S (S (steps w))))).
Proof.
  unfold scenario.StartScenario. destruct ctx; [done|]. destruct req as [req0|]; [|done].
  destruct (String.eqb (api_types.req_UserID req0) EmptyString); [done|].
  destruct (String.eqb (api_types.req_ScenarioType req0) EmptyString); [done|].
  unfold bind at 1. unfold scenario.on_docker at 1.
  destruct (StartScenarioContainer ctx_background (api_types.req_ScenarioType req0)
              (api_types.req_Script req0) (runtime w)) as [[[cid port]|err] r1] eqn:Hs;
    [|done].
  unfold bind, time_Now, tick. simpl.
  match goal with
  | |- context [StoreScenario env ?c ?d ?x ?w0] =>
      destruct (StoreScenario env c d x w0) as [[e|] w'] eqn:Hst
  end.
  { unfold scenario.on_docker, ret. simpl.
    by destruct (StopContainer ctx_background cid (runtime w')). }
  apply StoreScenario_None in Hst as (s0 & [= <-] & _ & _ & ->).
  simpl in *. unfold ret. intros [= <- <-].
  exists req0, cid, port, r1. by repeat split.
Qed.

End ManagerFacts.

(** X12.  From start to terminal.  After a [StartScenario] that succeeds
    with an id that no stored record had, on a store and an engine that
    fail no call: the record of the new scenario is persisted as
    [provisioning]; a [GetTerminalURL] made now fails with
    [ErrScenarioNotRunning]; a [GetScenarioStatus] sees the container
    running, returns [running] and persists it; and a [GetTerminalURL] made
    after that returns the address of a host port between 3001 and 3009.
    (The id is built from the clock; [StoreScenario] does not check that it
    is new, and the reads return the first record with an id.) *)
Theorem StartScenario_lifecycle (env : storage.Env) (ee : docker.EngineEnv)
    (m : scenario.Manager) (req : api_types.StartScenarioRequest)
    (w w1 : storage.World docker.Engine) (resp : api_types.StartScenarioResponse) :
  scenario.StartScenario (Docker := docker.RealClient ee) env m ctx_background
    (Some req) w = (Ok resp, w1) ->
  scenario.DB m = storage.db_handle ->
  (forall t c, storage.store_fails env t c = false) ->
  (forall t api id, docker.engine_fails ee t api id = false) ->
  (forall n, docker.new_container_id ee n <> EmptyString) ->
  api_types.started_ScenarioID resp ∉ storage.ScenarioID <$> storage.collection w ->
  let sid := api_types.started_ScenarioID resp in
  let status := scenario.GetScenarioStatus (Docker := docker.RealClient ee) env m
                  ctx_background sid w1 in
  api_types.started_Status resp = "provisioning"
  /\ storage.persisted_status w1 sid = Some "provisioning"
  /\ (exists err,
        (scenario.GetTerminalURL (Docker := docker.RealClient ee) env m
           ctx_background sid w1).1 = Err err
        /\ errors_Is err scenario_ErrScenarioNotRunning = true)
  /\ status_of status.1 = Some "running"
  /\ storage.persisted_status status.2 sid = Some "running"
  /\ exists hostPort,
       3001 <= hostPort < 3010
       /\ (scenario.GetTerminalURL (Docker := docker.RealClient ee) env m
             ctx_background sid status.2).1
          = Ok ("http://0.0.0.0:" +:+ pretty hostPort).
Proof.
  intros Hstart Hdb Hstore Hengine Hid Hnew sid status.
  apply StartScenario_Ok in Hstart
    as (req0 & cid & port & r1 & [= <-] & Hcont & -> & ->).
  simpl in Hcont. simpl in Hnew. apply find_first_None in Hnew as Hnone.
  destruct (StartScenarioContainer_postcondition ee ctx_background _ _ _ _ _ _ Hcont)
    as (Hport & _ & _ & _).
  apply Real_StartScenarioContainer_Ok in Hcont as (_ & Hcid & ->).
  set (s := storage.to_document (new_record env w req cid port)) in *.
  assert (sid = storage.ScenarioID s) as Hsid by reflexivity.
  assert (sid <> EmptyString) as Hsne by done.
  assert (cid <> EmptyString) as Hcne by (rewrite Hcid; apply Hid).
  set (c := docker.mkContainer "running"
              (Some {[ "3000/tcp" := [docker.mkPortBinding "0.0.0.0" (pretty port)] ]})
              [] "Created") in *.
  set (w1 := storage.mkWorld
               (docker.mkEngine (<[cid := c]> (docker.containers (storage.runtime w)))
                  (4 + docker.calls (storage.runtime w)))
               (storage.collection w ++ [s]) (S (S (S (S (storage.steps w)))))) in *.
  assert (storage.find_first sid (storage.collection w1) = Some s) as Hfound.
  { rewrite Hsid. change (storage.collection w1) with (storage.collection w ++ [s]).
    rewrite find_first_app.
    change (storage.ScenarioID s)
      with ("scn-" +:+ pretty (storage.clock env (storage.steps w))).
    rewrite Hnone. change (storage.find_first ?a [s]) with (storage.find_first a [s]).
    simpl. by rewrite decide_True. }
  split; [done|]. split; [by unfold storage.persisted_status; rewrite Hfound|].
  split.
  { unfold scenario.GetTerminalURL. apply String.eqb_neq in Hsne as ->.
    unfold bind at 1. rewrite Hdb, (GetScenario_found env _ sid w1 s) by done.
    simpl. by eexists. }
  assert (storage.ContainerID s = cid) as Hsc by reflexivity.
  assert (storage.Status s = "provisioning") as Hss by reflexivity.
  assert (docker.State_Status c = "running") as Hcs by reflexivity.
  assert (docker.Ports c
          = Some {[ "3000/tcp" := [docker.mkPortBinding "0.0.0.0" (pretty port)] ]})
    as Hcp by reflexivity.
  clearbody s c. unfold status. clear status. clearbody sid. subst sid.
  apply String.eqb_neq in Hsne as Hsne2.
  eassert (scenario.GetScenarioStatus (Docker := docker.RealClient ee) env m
             ctx_background (storage.ScenarioID s) w1 = _) as Hst.
  { unfold scenario.GetScenarioStatus. rewrite Hsne2.
    unfold bind at 1. rewrite Hdb, (GetScenario_found env _ _ w1 s) by done.
    unfold bind at 1. unfold scenario.on_docker at 1. simpl.
    rewrite Hsc, Real_ContainerExists_eq, !Hengine by done. simpl.
    rewrite lookup_insert_eq. rewrite bool_decide_true by eauto.
    unfold bind at 1. unfold scenario.on_docker at 1. simpl.
    rewrite Real_GetContainerStatus_eq, !Hengine by done. simpl.
    rewrite lookup_insert_eq, Hcs, Hss. simpl.
    unfold bind, storage.time_Now, storage.tick. simpl.
    rewrite UpdateScenario_eq by done. simpl. rewrite Hstore. simpl.
    reflexivity. }
  rewrite Hst. simpl.
  split; [done|]. split; [by erewrite persisted_status_update|].
  exists port. split; [done|].
  unfold scenario.GetTerminalURL. rewrite Hsne2.
  unfold bind at 1. rewrite Hdb.
  erewrite (GetScenario_found env); [|done|done|].
  2:{ simpl. by apply find_first_update_first. }
  simpl.
  unfold bind at 1. unfold scenario.on_docker at 1. simpl.
  rewrite Hsc, Real_ContainerExists_eq, !Hengine by done. simpl.
  rewrite lookup_insert_eq. rewrite bool_decide_true by eauto.
  unfold bind at 1. unfold scenario.on_docker at 1. simpl.
  rewrite Real_GetTerminalURL_eq, !Hengine by done. simpl.
  rewrite lookup_insert_eq, Hcs, Hcp. simpl.
  reflexivity.
Qed.

Lemma StartScenario_lifecycle_witness :
  let started := scenario.StartScenario (Docker := docker.RealClient healthy_engine)
                   healthy_env a_manager ctx_background (Some a_request)
                   (a_world [] []) in
  let status := scenario.GetScenarioStatus (Docker := docker.RealClient healthy_engine)
                  healthy_env a_manager ctx_background "scn-1000" started.2 in
  started.1 = Ok (api_types.mkStartScenarioResponse "scn-1000" "provisioning")
  /\ storage.persisted_status started.2 "scn-1000" = Some "provisioning"
  /\ status_of status.1 = Some "running"
  /\ storage.persisted_status status.2 "scn-1000" = Some "running"
  /\ exists hostPort,
       3001 <= hostPort < 3010
       /\ (scenario.GetTerminalURL (Docker := docker.RealClient healthy_engine)
             healthy_env a_manager ctx_background "scn-1000" status.2).1
          = Ok ("http://0.0.0.0:" +:+ pretty hostPort).
Proof.
  intros started status. split; [vm_compute; reflexivity|].
  destruct (StartScenario_lifecycle healthy_env healthy_engine a_manager a_request
              (a_world [] []) started.2
              (api_types.mkStartScenarioResponse "scn-1000" "provisioning"))
    as (_ & H2 & _ & H4 & H5 & H6).
  - vm_compute. reflexivity.
  - reflexivity.
  - done.
  - done.
  - intros n. vm_compute. done.
  - apply not_elem_of_nil.
  - split; [exact H2|]. split; [exact H4|]. split; [exact H5|exact H6].
Defined.

(** When a stored record already has the id that the clock gives the new
    scenario, the start succeeds all the same, the collection holds two
    records with the id, and the reads return the older one. *)
Example StartScenario_id_taken :
  let w := a_world [] [a_scenario "scn-1000" "c0" "stopped" 5] in
  let started := scenario.StartScenario (Docker := docker.RealClient healthy_engine)
                   healthy_env a_manager ctx_background (Some a_request) w in
  started.1 = Ok (api_types.mkStartScenarioResponse "scn-1000" "provisioning")
  /\ storage.ScenarioID <$> storage.collection started.2 = ["scn-1000"; "scn-1000"]
  /\ storage.persisted_status started.2 "scn-1000" = Some "stopped".
Proof. vm_compute. done. Qed.

(** X13.  An id the store does not hold: [GetScenarioStatus],
    [GetTerminalURL], [StopScenario] and [GetDirectoryStructure] all fail
    with [ErrScenarioNotFound], for any client, without a call to the
    runtime and without a write: the runtime and the collection are
    untouched. *)
Theorem Manager_unknown_scenario {R : Type} {Docker : docker.Client R}
    (env : storage.Env) (m : scenario.Manager) (order : tree.map_order)
    (sid : string) (w : storage.World R) :
  sid <> EmptyString ->
  scenario.DB m = storage.db_handle ->
  storage.store_fails env (storage.steps w) (storage.FindOne sid) = false ->
  sid ∉ storage.ScenarioID <$> storage.collection w ->
  (exists err,
     scenario.GetScenarioStatus env m ctx_background sid w = (Err err, storage.tick w)
     /\ errors_Is err scenario_ErrScenarioNotFound = true)
  /\ (exists err,
        scenario.GetTerminalURL env m ctx_background sid w = (Err err, storage.tick w)
        /\ errors_Is err scenario_ErrScenarioNotFound = true)
  /\ (exists err,
        scenario.StopScenario env m ctx_background sid w = (Some err, storage.tick w)
        /\ errors_Is err scenario_ErrScenarioNotFound = true)
  /\ (exists err,
        scenario.GetDirectoryStructure env m order ctx_background sid w
        = (Err err, storage.tick w)
        /\ errors_Is err scenario_ErrScenarioNotFound = true).
Proof.
  intros Hsid Hdb Hf Hnot. apply find_first_None in Hnot.
  assert (storage.GetScenario env ctx_background storage.db_handle sid w
          = (Err (Errorf_w "%w: %s" (ErrVar storage_ErrScenarioNotFound)), storage.tick w))
    as Hget.
  { unfold storage.GetScenario. apply String.eqb_neq in Hsid as ->.
    unfold bind, storage.store_op, gets, ret. simpl. by rewrite Hf, Hnot. }
  apply String.eqb_neq in Hsid.
  unfold scenario.GetScenarioStatus, scenario.GetTerminalURL, scenario.StopScenario,
    scenario.GetDirectoryStructure.
  rewrite Hsid, Hdb. unfold bind. rewrite Hget. simpl.
  repeat split; by eexists.
Qed.

Lemma Manager_unknown_scenario_witness :
  let w := a_world [("c1", a_container "running" (Some ttyd_ports))]
             [a_scenario "scn-1" "c1" "running" 5] in
  exists err,
    scenario.StopScenario (Docker := docker.RealClient healthy_engine) healthy_env
      a_manager ctx_background "scn-2" w = (Some err, storage.tick w)
    /\ errors_Is err scenario_ErrScenarioNotFound = true.
Proof.
  intros w.
  destruct (Manager_unknown_scenario (Docker := docker.RealClient healthy_engine)
              healthy_env a_manager tree.keys_order "scn-2" w) as (_ & _ & H3 & _).
  - done.
  - reflexivity.
  - reflexivity.
  - vm_compute. intros [H|H]%elem_of_cons; [done|]. by apply elem_of_nil in H.
  - exact H3.
Defined.

Section ManagerQueries.
Import storage docker.
Context (env : Env) (ee : EngineEnv) (m : scenario.Manager).

Lemma UpdateScenario_keeps_but (st : string) (s : Scenario) (now : Z) (sid : string)
    (w w0 : World Engine) :
  ScenarioID s = sid -> keeps_but sid w w0 ->
  keeps_but sid w
    (UpdateScenario env ctx_background (scenario.DB m)
       (Some (scenario.with_status s st now)) w0).2.
Proof.
  intros Hs (K1 & K2 & K3). unfold UpdateScenario.
  destruct (scenario.DB m); [done|]. simpl.
  destruct (String.eqb (ScenarioID s) EmptyString); [done|].
  unfold bind, time_Now, store_op, gets, ret, set_collection. simpl.
  destruct (store_fails env _ _); [done|]. simpl. rewrite Hs.
  unfold keeps_but. simpl.
  split; [done|]. split; [by rewrite update_first_ids|].
  intros sid' Hne. rewrite find_first_update_first_ne by done. by apply K3.
Qed.

Lemma GetScenarioStatus_keeps (ctx : Context_) (sid : string) (w : World Engine) :
  keeps_but sid w
    (scenario.GetScenarioStatus (Docker := RealClient ee) env m ctx sid w).2.
Proof.
  unfold scenario.GetScenarioStatus. destruct ctx; [done|].
  destruct (String.eqb sid EmptyString); [done|]. unfold bind at 1.
  pose proof (GetScenario_world env ctx_background (scenario.DB m) sid w) as [Gr Gc].
  destruct (GetScenario env ctx_background (scenario.DB m) sid w) as [[s|err] w1] eqn:Hg;
    simpl in Gr, Gc.
  2:{ destruct (errors_Is err storage_ErrScenarioNotFound); simpl;
        unfold keeps_but; by rewrite Gr, Gc. }
  assert (ScenarioID s = sid) as Hs.
  { destruct (GetScenario_Ok env _ _ _ _ _ _ Hg) as (_ & _ & _ & _ & Hf).
    by eapply find_first_id. }
  unfold bind at 1. unfold scenario.on_docker at 1. simpl.
  pose proof (Real_ContainerExists_containers ee ctx_background (ContainerID s)
                (runtime w1)) as C1.
  destruct (Real_ContainerExists ee ctx_background (ContainerID s) (runtime w1))
    as [[[|]|e1] r1]; simpl in C1.
  - unfold bind at 1. unfold scenario.on_docker at 1. simpl.
    pose proof (Real_GetContainerStatus_containers ee ctx_background (ContainerID s) r1)
      as C2.
    destruct (Real_GetContainerStatus ee ctx_background (ContainerID s) r1)
      as [[st|e2] r2]; simpl in C2.
    + assert (keeps_but sid w (mkWorld r2 (collection w1) (S (steps w1)))) as K.
      { unfold keeps_but. simpl. by rewrite C2, C1, Gr, Gc. }
      destruct (String.eqb st "running" && String.eqb (storage.Status s) "provisioning").
      * unfold bind, time_Now, tick. simpl.
        pose proof (UpdateScenario_keeps_but "running" s (clock env (steps w1)) sid w _
                      Hs K) as K'.
        by destruct (UpdateScenario _ _ _ _ _).
      * destruct (String.eqb st "exited" || String.eqb st "stopped").
        -- unfold bind, time_Now, tick. simpl.
           pose proof (UpdateScenario_keeps_but "stopped" s (clock env (steps w1)) sid w _
                         Hs K) as K'.
           by destruct (UpdateScenario _ _ _ _ _).
        -- unfold keeps_but. simpl. by rewrite C2, C1, Gr, Gc.
    + unfold keeps_but. simpl. by rewrite C2, C1, Gr, Gc.
  - assert (keeps_but sid w (mkWorld r1 (collection w1) (S (steps w1)))) as K.
    { unfold keeps_but. simpl. by rewrite C1, Gr, Gc. }
    unfold bind, time_Now, tick. simpl.
    pose proof (UpdateScenario_keeps_but "stopped" s (clock env (steps w1)) sid w _
                  Hs K) as K'.
    by destruct (UpdateScenario _ _ _ _ _).
  - unfold keeps_but. simpl. by rewrite C1, Gr, Gc.
Qed.

Lemma GetTerminalURL_keeps (ctx : Context_) (sid : string) (w : World Engine) :
  keeps_all w (scenario.GetTerminalURL (Docker := RealClient ee) env m ctx sid w).2.
Proof.
  unfold scenario.GetTerminalURL. destruct ctx; [done|].
  destruct (String.eqb sid EmptyString); [done|]. unfold bind at 1.
  pose proof (GetScenario_world env ctx_background (scenario.DB m) sid w) as [Gr Gc].
  destruct (GetScenario env ctx_background (scenario.DB m) sid w) as [[s|err] w1];
    simpl in Gr, Gc.
  2:{ destruct (errors_Is err storage_ErrScenarioNotFound); simpl; unfold keeps_all; by rewrite Gr, Gc. }
  destruct (negb (String.eqb (storage.Status s) "running")); simpl; [unfold keeps_all; by rewrite Gr, Gc|].
  unfold bind at 1. unfold scenario.on_docker at 1. simpl.
  pose proof (Real_ContainerExists_containers ee ctx_background (ContainerID s)
                (runtime w1)) as C1.
  destruct (Real_ContainerExists ee ctx_background (ContainerID s) (runtime w1))
    as [[[|]|e1] r1]; simpl in C1; simpl; [|unfold keeps_all; simpl; by rewrite C1, Gr, Gc..].
  unfold bind at 1. unfold scenario.on_docker at 1. simpl.
  pose proof (Real_GetTerminalURL_containers ee ctx_background (ContainerID s) r1) as C2.
  destruct (Real_GetTerminalURL ee ctx_background (ContainerID s) r1)
    as [[url|e2] r2]; simpl in C2; simpl; unfold keeps_all; simpl; by rewrite C2, C1, Gr, Gc.
Qed.

End ManagerQueries.

(** X14.  The two questions never change what they ask about.
    [GetScenarioStatus] changes no container and at most the record it was
    asked for: the ids of the collection and every record with another id
    stay as they were.  [GetTerminalURL] changes no container and no
    record.  Both for every argument and whatever call fails. *)
Theorem Manager_queries_change_little (env : storage.Env) (ee : docker.EngineEnv)
    (m : scenario.Manager) (ctx : Context_) (sid : string)
    (w : storage.World docker.Engine) :
  let status := scenario.GetScenarioStatus (Docker := docker.RealClient ee) env m ctx sid w in
  let url := scenario.GetTerminalURL (Docker := docker.RealClient ee) env m ctx sid w in
  docker.containers (storage.runtime status.2) = docker.containers (storage.runtime w)
  /\ storage.ScenarioID <$> storage.collection status.2
     = storage.ScenarioID <$> storage.collection w
  /\ (forall sid', sid' <> sid ->
        storage.find_first sid' (storage.collection status.2)
        = storage.find_first sid' (storage.collection w))
  /\ docker.containers (storage.runtime url.2) = docker.containers (storage.runtime w)
  /\ storage.collection url.2 = storage.collection w.
Proof.
  intros status url.
  destruct (GetScenarioStatus_keeps env ee m ctx sid w) as (K1 & K2 & K3).
  destruct (GetTerminalURL_keeps env ee m ctx sid w) as (U1 & U2).
  done.
Qed.

(** X15.  [GetDirectoryStructure] for a record that is found, on an engine
    that fails no call for its container, whatever the stored status of
    the scenario is: with no container it fails with
    [ErrScenarioNotRunning]; with a container that is not running it fails
    with the client's [ErrContainerNotRunning], which is not
    [ErrScenarioNotRunning]; with a running container it returns the nodes
    the tree builder makes of the output of [find] when the command exits
    with 0, and fails otherwise.  The collection is never changed. *)
Theorem GetDirectoryStructure_outcome (env : storage.Env) (ee : docker.EngineEnv)
    (m : scenario.Manager) (order : tree.map_order) (sid : string)
    (w : storage.World docker.Engine) (s : storage.Scenario) :
  sid <> EmptyString ->
  scenario.DB m = storage.db_handle ->
  storage.store_fails env (storage.steps w) (storage.FindOne sid) = false ->
  storage.find_first sid (storage.collection w) = Some s ->
  storage.ContainerID s <> EmptyString ->
  (forall t api, docker.engine_fails ee t api (storage.ContainerID s) = false) ->
  let out := scenario.GetDirectoryStructure (Docker := docker.RealClient ee) env m order
               ctx_background sid w in
  let command := ["find"; "/home/devlab"; "-type"; "f"; "-o"; "-type"; "d";
                  "-printf"; "%p %y" +:+ String newline EmptyString] in
  let ran := docker.exec_result ee (4 + docker.calls (storage.runtime w))
               (storage.ContainerID s) command in
  storage.collection out.2 = storage.collection w
  /\ match docker.containers (storage.runtime w) !! storage.ContainerID s with
     | None =>
         exists err, out.1 = Err err
                     /\ errors_Is err scenario_ErrScenarioNotRunning = true
     | Some c =>
         if String.eqb (docker.State_Status c) "running"
         then
           if ran.2 =? 0
           then out.1 = Ok (api_types.mkDirectoryStructureResponse sid "/home/devlab"
                              (tree.parseDirectoryStructure order ran.1).1
                              "Directory structure retrieved successfully")
           else exists err, out.1 = Err err
         else
           exists err, out.1 = Err err
                       /\ errors_Is err docker_ErrContainerNotRunning = true
                       /\ errors_Is err scenario_ErrScenarioNotRunning = false
     end.
Proof.
  intros Hsid Hdb Hf Hfound Hcid Hok out command ran.
  apply String.eqb_neq in Hsid as Hsid'.
  destruct (docker.containers (storage.runtime w) !! storage.ContainerID s) as [c|] eqn:Ec.
  - eassert (out = _) as Hout.
    { unfold out, scenario.GetDirectoryStructure. rewrite Hsid'.
      unfold bind at 1. rewrite Hdb, (GetScenario_found env _ sid w s) by done.
      unfold bind at 1. unfold scenario.on_docker at 1. simpl.
      rewrite Real_ContainerExists_eq, !Hok, Ec by done.
      rewrite bool_decide_true by eauto. simpl.
      unfold bind at 1. unfold scenario.on_docker at 1. simpl.
      rewrite Real_ExecuteCommand_healthy by done. simpl. rewrite Ec.
      fold command. reflexivity. }
    rewrite Hout. clear Hout out.
    destruct (String.eqb (docker.State_Status c) "running"); simpl.
    2:{ split; [done|]. by eexists. }
    subst ran. simpl.
    destruct (Z.eqb _ 0); [|split; [done|by eexists]].
    rewrite parseDirectoryStructure_eq. simpl. done.
  - eassert (out = _) as Hout.
    { unfold out, scenario.GetDirectoryStructure. rewrite Hsid'.
      unfold bind at 1. rewrite Hdb, (GetScenario_found env _ sid w s) by done.
      unfold bind at 1. unfold scenario.on_docker at 1. simpl.
      rewrite Real_ContainerExists_eq, !Hok, Ec by done.
      rewrite bool_decide_false by (by intros [? ?]). simpl. reflexivity. }
    rewrite Hout. simpl. split; [done|]. by eexists.
Qed.

Lemma GetDirectoryStructure_outcome_witness :
  let ee := docker.mkEngineEnv (fun _ _ _ => false) (fun _ _ => true)
              (fun n => "c" +:+ pretty n) (fun _ => "running")
              (fun _ _ _ => (listing_C5, 0)) in
  let w := a_world [("c1", a_container "running" (Some ttyd_ports))]
             [a_scenario "scn-1" "c1" "stopped" 5] in
  let out := scenario.GetDirectoryStructure (Docker := docker.RealClient ee) healthy_env
               a_manager tree.keys_order ctx_background "scn-1" w in
  storage.collection out.2 = storage.collection w
  /\ out.1 = Ok (api_types.mkDirectoryStructureResponse "scn-1" "/home/devlab"
                   (tree.parseDirectoryStructure tree.keys_order listing_C5).1
                   "Directory structure retrieved successfully").
Proof.
  intros ee w out.
  destruct (GetDirectoryStructure_outcome healthy_env ee a_manager tree.keys_order
              "scn-1" w (a_scenario "scn-1" "c1" "stopped" 5)) as [H1 H2];
    [done|reflexivity|reflexivity|reflexivity|done|done|].
  split; [exact H1|exact H2].
Defined.

Section FailedStart.
Import storage docker.

(** The errors of [StoreScenario] carry no error variable of the client. *)
Lemma StoreScenario_error_kinds {R} (env : Env) ctx db s (w w' : World R) err :
  StoreScenario env ctx db s w = (Some err, w') ->
  errors_Is err docker_ErrTTYDFailedToStart = false.
Proof.
  unfold StoreScenario. destruct db; [by intros [= <- _]|].
  destruct s as [s|]; [|by intros [= <- _]].
  destruct (String.eqb (ScenarioID s) EmptyString); [by intros [= <- _]|].
  unfold bind, store_op, gets, ret, set_collection. simpl.
  destruct (store_fails env (steps w) (InsertOne (ScenarioID s))); [by intros [= <- _]|].
  destruct (find_first (ScenarioID s) (collection w)); [by intros [= <- _]|done].
Qed.

End FailedStart.

(** X16.  A start that fails because the container did not stay up leaks
    the container, and the orphan sweep collects it.  When [StartScenario]
    fails with [ErrTTYDFailedToStart], no record is stored and the
    container it created is still in the engine, not running; as no record
    names it, a [CleanupOrphanedContainers] made next, on a store and an
    engine that answer, removes it. *)
Theorem failed_start_is_swept (env : storage.Env) (ee : docker.EngineEnv)
    (m : scenario.Manager) (req : api_types.StartScenarioRequest)
    (w w1 : storage.World docker.Engine) (err : error) :
  scenario.StartScenario (Docker := docker.RealClient ee) env m ctx_background
    (Some req) w = (Err err, w1) ->
  errors_Is err docker_ErrTTYDFailedToStart = true ->
  let id := docker.new_container_id ee (S (docker.calls (storage.runtime w))) in
  let swept := cleanup.CleanupOrphanedContainers (Docker := docker.RealClient ee) env
                 ctx_background w1 in
  storage.collection w1 = storage.collection w
  /\ (exists c, docker.containers (storage.runtime w1) !! id = Some c
                /\ docker.State_Status c <> "running")
  /\ (id <> EmptyString ->
      ~ referenced id (storage.collection w) ->
      (forall t api, docker.engine_fails ee t api id = false) ->
      (forall t api, docker.engine_fails ee t api EmptyString = false) ->
      storage.store_fails env (storage.steps w1) storage.FindWithContainer = false ->
      swept.1.1 = None
      /\ docker.containers (storage.runtime swept.2) !! id = None).
Proof.
  intros Hstart Htty id swept.
  assert (exists derr e1,
            docker.Real_StartScenarioContainer ee ctx_background
              (api_types.req_ScenarioType req) (api_types.req_Script req)
              (storage.runtime w) = (Err derr, e1)
            /\ errors_Is derr docker_ErrTTYDFailedToStart = true
            /\ w1 = storage.mkWorld e1 (storage.collection w) (storage.steps w))
    as (derr & e1 & Hd & Hdt & ->).
  { revert Hstart. unfold scenario.StartScenario.
    destruct (String.eqb (api_types.req_UserID req) EmptyString).
    { intros [= <- _]. done. }
    destruct (String.eqb (api_types.req_ScenarioType req) EmptyString).
    { intros [= <- _]. done. }
    unfold bind at 1. unfold scenario.on_docker at 1. simpl.
    destruct (docker.Real_StartScenarioContainer ee ctx_background
                (api_types.req_ScenarioType req) (api_types.req_Script req)
                (storage.runtime w)) as [[[cid port]|derr] e1] eqn:Hs.
    2:{ intros [= <- <-]. by exists derr, e1. }
    unfold bind, storage.time_Now, storage.tick. simpl.
    match goal with
    | |- context [storage.StoreScenario env ?c ?d ?x ?w0] =>
        destruct (storage.StoreScenario env c d x w0) as [[e|] w'] eqn:Hst
    end; [|done].
    apply StoreScenario_error_kinds in Hst.
    unfold scenario.on_docker, ret. simpl.
    destruct (docker.Real_StopContainer ee ctx_background cid (storage.runtime w')).
    intros [= <- _]. simpl in Htty. congruence. }
  destruct (Real_StartScenarioContainer_Err ee _ _ _ _ _ _ Hd) as (_ & _ & Hleak).
  destruct (Hleak Hdt) as (c & Hc & Hnr). fold id in Hc.
  split; [done|]. split; [by exists c|].
  intros Hne Href Hok Hlist Hquery. subst swept.
  rewrite CleanupOrphanedContainers_eq. cbv zeta. simpl.
  destruct (docker.Real_ListContainers ee ctx_background e1) as [[cs|lerr] e2] eqn:El.
  2:{ exfalso. revert El. unfold docker.Real_ListContainers.
      do 3 (rewrite ?Hlist; run_real). done. }
  apply Real_ListContainers_Ok in El as [Hcs Hids]. simpl in *.
  rewrite Hquery. simpl. split; [done|].
  pose proof (orphans_each_spec ee
                (scenarioContainers_read env (S (storage.steps w)) (storage.collection w))
                cs
                (storage.tick (storage.mkWorld e2 (storage.collection w)
                                 (storage.steps w)))) as (_ & _ & _ & S4).
  apply S4; [|apply not_true_is_false; intros H;
              by apply scenarioContainers_read_referenced in H|done|done].
  rewrite Hids. apply list_elem_of_fmap. exists (id, c). split; [done|].
  by apply elem_of_map_to_list.
Qed.

Lemma failed_start_is_swept_witness :
  let ee := docker.mkEngineEnv (fun _ _ _ => false) (fun _ _ => true)
              (fun n => "c" +:+ pretty n) (fun _ => "exited")
              (fun _ _ _ => (EmptyString, 0)) in
  let started := scenario.StartScenario (Docker := docker.RealClient ee) healthy_env
                   a_manager ctx_background (Some a_request) (a_world [] []) in
  let swept := cleanup.CleanupOrphanedContainers (Docker := docker.RealClient ee)
                 healthy_env ctx_background started.2 in
  storage.collection started.2 = []
  /\ (exists c, docker.containers (storage.runtime started.2) !! "c1" = Some c
                /\ docker.State_Status c <> "running")
  /\ swept.1.1 = None
  /\ docker.containers (storage.runtime swept.2) !! "c1" = None.
Proof.
  intros ee started swept.
  destruct (failed_start_is_swept healthy_env ee a_manager a_request (a_world [] [])
              started.2
              (Errorf_w "failed to provision container: %w"
                 (Errorf_w "%w: container exited unexpectedly"
                    (ErrVar docker_ErrTTYDFailedToStart))))
    as (H1 & H2 & H3).
  - vm_compute. reflexivity.
  - reflexivity.
  - split; [exact H1|]. split; [exact H2|].
    apply H3; [done| |done|done|reflexivity].
    intros [_ H]. by apply elem_of_nil in H.
Defined.

(* ===================================================================== *)
(** * The REST handlers over the manager                                   *)
(* ===================================================================== *)

Section ErrorKinds.
Import storage docker.

(** The errors of the store functions carry no error variable but those
    of the package [storage]. *)
Lemma GetScenario_error_kinds {R} (env : Env) ctx db sid (w w' : World R) err t :
  GetScenario env ctx db sid w = (Err err, w') ->
  is_storage_sentinel t = false -> errors_Is err t = false.
Proof.
  unfold GetScenario. destruct db; [intros [= <- _]; by destruct t|].
  destruct (String.eqb sid EmptyString); [intros [= <- _]; by destruct t|].
  unfold bind, store_op, gets, ret. simpl.
  destruct (store_fails env (steps w) (FindOne sid)); [by intros [= <- _]|].
  destruct (find_first sid (collection w)); [done|intros [= <- _]; by destruct t].
Qed.

Lemma UpdateScenario_error_kinds {R} (env : Env) ctx db s (w w' : World R) err t :
  UpdateScenario env ctx db s w = (Some err, w') ->
  is_storage_sentinel t = false -> errors_Is err t = false.
Proof.
  unfold UpdateScenario. destruct db; [intros [= <- _]; by destruct t|].
  destruct s as [s|]; [|intros [= <- _]; by destruct t].
  destruct (String.eqb (ScenarioID s) EmptyString); [intros [= <- _]; by destruct t|].
  unfold bind, time_Now, store_op, gets, ret, set_collection. simpl.
  by destruct (store_fails env _ _); [intros [= <- _]|].
Qed.

Lemma StoreScenario_error_kinds_all {R} (env : Env) ctx db s (w w' : World R) err t :
  StoreScenario env ctx db s w = (Some err, w') ->
  is_storage_sentinel t = false -> errors_Is err t = false.
Proof.
  unfold StoreScenario. destruct db; [intros [= <- _]; by destruct t|].
  destruct s as [s|]; [|intros [= <- _]; by destruct t].
  destruct (String.eqb (ScenarioID s) EmptyString); [intros [= <- _]; by destruct t|].
  unfold bind, store_op, gets, ret, set_collection. simpl.
  destruct (store_fails env (steps w) (InsertOne (ScenarioID s))); [by intros [= <- _]|].
  destruct (find_first (ScenarioID s) (collection w)); [by intros [= <- _]|done].
Qed.

(** The errors of [RealClient.StopContainer] carry no error variable of
    the package [scenario]. *)
Lemma Real_StopContainer_error_kinds (ee : EngineEnv) ctx containerID (e : Engine) err :
  (Real_StopContainer ee ctx containerID e).1 = Some err ->
  errors_Is err scenario_ErrScenarioAlreadyStopped = false
  /\ errors_Is err scenario_ErrInvalidScenarioID = false
  /\ errors_Is err scenario_ErrScenarioNotFound = false.
Proof.
  unfold Real_StopContainer. destruct ctx; [by intros [= <-]|].
  destruct (String.eqb containerID EmptyString); [by intros [= <-]|]. run_real.
  destruct (engine_fails ee _ _ _); run_real; [by intros [= <-]|].
  destruct (engine_fails ee _ _ _); run_real; [by intros [= <-]|].
  destruct (containers e !! containerID) as [c|]; run_real; [|by intros [= <-]].
  destruct (_ || _); run_real.
  - destruct (engine_fails ee _ _ _); run_real; [by intros [= <-]|done].
  - destruct (engine_fails ee _ _ _); run_real; [by intros [= <-]|].
    destruct (engine_fails ee _ _ _); run_real; [by intros [= <-]|done].
Qed.

(** The errors of [Manager.StopScenario] over [RealClient]. *)
Lemma StopScenario_error_kinds (env : Env) (ee : EngineEnv) (m : scenario.Manager)
    (sid : string) (w : World Engine) err :
  (scenario.StopScenario (Docker := RealClient ee) env m ctx_background sid w).1
  = Some err ->
  errors_Is err docker_ErrContainerNotFound = false
  /\ errors_Is err scenario_ErrScenarioAlreadyStopped = false
  /\ (sid <> EmptyString -> errors_Is err scenario_ErrInvalidScenarioID = false).
Proof.
  unfold scenario.StopScenario.
  destruct (String.eqb sid EmptyString) eqn:Esid.
  { apply String.eqb_eq in Esid. intros [= <-]. by repeat split. }
  unfold bind at 1.
  destruct (GetScenario env ctx_background (scenario.DB m) sid w) as [[s|gerr] w1] eqn:Hg.
  2:{ destruct (errors_Is gerr storage_ErrScenarioNotFound); simpl; intros [= <-];
        [done|]. simpl.
      by rewrite !(GetScenario_error_kinds env _ _ _ _ _ _ _ Hg). }
  unfold bind at 1. unfold scenario.on_docker at 1. simpl.
  pose proof (Real_StopContainer_error_kinds ee ctx_background (ContainerID s) (runtime w1))
    as Hk.
  destruct (Real_StopContainer ee ctx_background (ContainerID s) (runtime w1))
    as [[serr|] r1]; simpl in Hk.
  - destruct (Hk serr eq_refl) as (K1 & K2 & K3).
    destruct (errors_Is serr docker_ErrContainerNotFound) eqn:Enf; simpl.
    + unfold bind, time_Now, tick. simpl.
      match goal with
      | |- context [UpdateScenario env ?c ?d ?x ?w0] =>
          destruct (UpdateScenario env c d x w0) as [[uerr|] w'] eqn:Hu
      end; [|done].
      simpl. intros [= <-]. simpl.
      by rewrite !(UpdateScenario_error_kinds env _ _ _ _ _ _ _ Hu).
    + intros [= <-]. simpl. by rewrite Enf, K1, K2.
  - unfold bind, time_Now, tick. simpl.
    match goal with
    | |- context [UpdateScenario env ?c ?d ?x ?w0] =>
        destruct (UpdateScenario env c d x w0) as [[uerr|] w'] eqn:Hu
    end; [|done].
    simpl. intros [= <-]. simpl.
    by rewrite !(UpdateScenario_error_kinds env _ _ _ _ _ _ _ Hu).
Qed.

End ErrorKinds.

(** X17.  [StopScenarioREST] over the manager and the real client: it
    answers 200 with code [SUCCESS] exactly when [StopScenario] returns no
    error, and its branches for [ErrContainerNotFound],
    [ErrScenarioAlreadyStopped] and [ErrInvalidScenarioID] are never taken:
    the manager has already turned a container that is gone into a
    success, never returns the second, and an empty id does not reach it.
    So no error is ever answered with status 200. *)
Theorem StopScenarioREST_codes (env : storage.Env) (ee : docker.EngineEnv)
    (m : scenario.Manager) (order : tree.map_order) (sid : string)
    (w : storage.World docker.Engine) :
  let resp := (api.StopScenarioREST
                 (Scenario := Manager_ScenarioManager (Docker := docker.RealClient ee)
                                env m order) sid w).1 in
  code_of resp <> Some "CONTAINER_ALREADY_STOPPED"
  /\ code_of resp <> Some "SCENARIO_ALREADY_STOPPED"
  /\ code_of resp <> Some "INVALID_SCENARIO_ID"
  /\ (resp.1 = api.StatusOK <->
      sid <> EmptyString
      /\ (scenario.StopScenario (Docker := docker.RealClient ee) env m ctx_background
            sid w).1 = None)
  /\ (resp.1 = api.StatusOK <-> code_of resp = Some "SUCCESS").
Proof.
  intros resp. subst resp. unfold api.StopScenarioREST.
  destruct (String.eqb sid EmptyString) eqn:Esid.
  { apply String.eqb_eq in Esid. simpl. repeat split; try done. by intros [? _]. }
  apply String.eqb_neq in Esid. unfold bind.
  cbn [api.StopScenario Manager_ScenarioManager].
  pose proof (StopScenario_error_kinds env ee m sid w) as Hk.
  destruct (scenario.StopScenario env m ctx_background sid w) as [[err|] w1];
    cbn [fst snd] in *.
  2:{ repeat split; done. }
  destruct (Hk err eq_refl) as (K1 & K2 & K3). rewrite K1, K2, K3 by done.
  destruct (errors_Is err scenario_ErrScenarioNotFound); simpl;
    repeat split; try done; by intros [_ ?].
Qed.

(** X18.  The answers of [GetTerminalURLREST] for a record that is found,
    on an engine that fails no call for its container: 409
    [SCENARIO_NOT_RUNNING] when the stored status is not [running] or the
    container is gone; 409 [CONTAINER_NOT_RUNNING] when the container is
    there but not running; 500 [INTERNAL_ERROR] when it runs without a
    binding for port 3000; 200 with the address otherwise. *)
Theorem GetTerminalURLREST_codes (env : storage.Env) (ee : docker.EngineEnv)
    (m : scenario.Manager) (order : tree.map_order) (sid : string)
    (w : storage.World docker.Engine) (s : storage.Scenario) :
  sid <> EmptyString ->
  scenario.DB m = storage.db_handle ->
  storage.store_fails env (storage.steps w) (storage.FindOne sid) = false ->
  storage.find_first sid (storage.collection w) = Some s ->
  storage.ContainerID s <> EmptyString ->
  (forall t api, docker.engine_fails ee t api (storage.ContainerID s) = false) ->
  let resp := (api.GetTerminalURLREST
                 (Scenario := Manager_ScenarioManager (Docker := docker.RealClient ee)
                                env m order) sid w).1 in
  (resp.1, code_of resp)
  = if negb (String.eqb (storage.Status s) "running")
    then (api.StatusConflict, Some "SCENARIO_NOT_RUNNING")
    else
      match docker.containers (storage.runtime w) !! storage.ContainerID s with
      | None => (api.StatusConflict, Some "SCENARIO_NOT_RUNNING")
      | Some c =>
          if negb (String.eqb (docker.State_Status c) "running")
          then (api.StatusConflict, Some "CONTAINER_NOT_RUNNING")
          else
            match shell_binding c with
            | None => (api.StatusInternalServerError, Some "INTERNAL_ERROR")
            | Some _ => (api.StatusOK, None)
            end
      end.
Proof.
  intros Hsid Hdb Hf Hfound Hcid Hok resp. subst resp.
  unfold api.GetTerminalURLREST.
  apply String.eqb_neq in Hsid as Hsid'. rewrite Hsid'.
  cbn [api.GetTerminalURL Manager_ScenarioManager].
  unfold scenario.GetTerminalURL. rewrite Hsid'. unfold bind.
  rewrite Hdb, (GetScenario_found env _ sid w s) by done.
  destruct (negb (String.eqb (storage.Status s) "running")); [by simpl|].
  unfold scenario.on_docker. simpl.
  rewrite Real_ContainerExists_eq, !Hok by done. simpl.
  destruct (docker.containers (storage.runtime w) !! storage.ContainerID s) as [c|] eqn:Ec.
  2:{ rewrite !bool_decide_false by (by intros [? ?]). by simpl. }
  rewrite !bool_decide_true by eauto. simpl.
  rewrite Real_GetTerminalURL_eq, !Hok by done. simpl. rewrite Ec. simpl.
  destruct (negb (String.eqb (docker.State_Status c) "running")); [by simpl|].
  unfold shell_binding.
  destruct (docker.Ports c) as [ports|]; [|by simpl].
  by destruct (ports !! "3000/tcp") as [[|b bs]|].
Qed.

Lemma GetTerminalURLREST_codes_witness :
  let w := a_world [("c1", a_container "running" (Some ∅))]
             [a_scenario "scn-1" "c1" "running" 5] in
  let resp := (api.GetTerminalURLREST
                 (Scenario := Manager_ScenarioManager
                                (Docker := docker.RealClient healthy_engine)
                                healthy_env a_manager tree.keys_order) "scn-1" w).1 in
  (resp.1, code_of resp) = (api.StatusInternalServerError, Some "INTERNAL_ERROR").
Proof.
  intros w.
  apply (GetTerminalURLREST_codes healthy_env healthy_engine a_manager tree.keys_order
           "scn-1" w (a_scenario "scn-1" "c1" "running" 5)); done.
Defined.

Section StartErrors.
Import storage docker.

(** With a scenario type that is not empty, the errors of
    [StartScenarioContainer] are never [ErrInvalidScenarioType]. *)
Lemma Real_StartScenarioContainer_error_kinds (ee : EngineEnv) ctx scenarioType script
    (e e1 : Engine) err :
  scenarioType <> EmptyString ->
  Real_StartScenarioContainer ee ctx scenarioType script e = (Err err, e1) ->
  errors_Is err docker_ErrInvalidScenarioType = false.
Proof.
  intros Hty. apply String.eqb_neq in Hty.
  unfold Real_StartScenarioContainer. destruct ctx; [by intros [= <- _]|]. run_real.
  destruct (engine_fails ee _ _ _); run_real; [by intros [= <- _]|].
  rewrite Hty. run_real.
  destruct (findAvailablePort _) as [port|perr]; run_real; [|by intros [= <- _]].
  destruct (engine_fails ee _ _ _); run_real; [by intros [= <- _]|].
  destruct (engine_fails ee _ ContainerStart _); run_real.
  { by destruct (engine_fails ee _ ContainerRemove _); run_real; intros [= <- _]. }
  destruct (engine_fails ee _ _ _); run_real; [by intros [= <- _]|].
  rewrite lookup_alter_eq, lookup_insert_eq. run_real.
  by destruct (String.eqb _ "running"); run_real; [|intros [= <- _]].
Qed.

Lemma StartScenario_error_kinds (env : Env) (ee : EngineEnv) (m : scenario.Manager)
    ctx req (w w1 : World Engine) err :
  scenario.StartScenario (Docker := RealClient ee) env m ctx req w = (Err err, w1) ->
  errors_Is err docker_ErrInvalidScenarioType = false.
Proof.
  unfold scenario.StartScenario. destruct ctx; [by intros [= <- _]|].
  destruct req as [req|]; [|by intros [= <- _]].
  destruct (String.eqb (api_types.req_UserID req) EmptyString); [by intros [= <- _]|].
  destruct (String.eqb (api_types.req_ScenarioType req) EmptyString) eqn:Ety;
    [by intros [= <- _]|].
  apply String.eqb_neq in Ety.
  unfold bind at 1. unfold scenario.on_docker at 1. simpl.
  destruct (Real_StartScenarioContainer ee ctx_background (api_types.req_ScenarioType req)
              (api_types.req_Script req) (runtime w)) as [[[cid port]|derr] e1] eqn:Hs.
  2:{ intros [= <- _]. simpl.
      by eapply Real_StartScenarioContainer_error_kinds. }
  unfold bind, time_Now, tick. simpl.
  match goal with
  | |- context [StoreScenario env ?c ?d ?x ?w0] =>
      destruct (StoreScenario env c d x w0) as [[e|] w'] eqn:Hst
  end; [|done].
  unfold scenario.on_docker, ret. simpl.
  destruct (Real_StopContainer ee ctx_background cid (runtime w')).
  intros [= <- _]. simpl. by eapply StoreScenario_error_kinds_all.
Qed.

(** For any client, [GetScenarioStatus] answers for every record it
    finds, whatever the runtime does. *)
Lemma GetScenarioStatus_found_Ok {R} {Docker : Client R} (env : Env)
    (m : scenario.Manager) (sid : string) (w w1 : World R) (s : Scenario) :
  sid <> EmptyString ->
  GetScenario env ctx_background (scenario.DB m) sid w = (Ok s, w1) ->
  exists resp,
    (scenario.GetScenarioStatus env m ctx_background sid w).1 = Ok resp.
Proof.
  intros Hsid Hg. unfold scenario.GetScenarioStatus.
  apply String.eqb_neq in Hsid. rewrite Hsid. unfold bind at 1. rewrite Hg.
  unfold bind at 1. unfold scenario.on_docker at 1.
  destruct (ContainerExists ctx_background (ContainerID s) (runtime w1))
    as [[[|]|e1] r1]; simpl.
  - unfold bind at 1. unfold scenario.on_docker at 1. simpl.
    destruct (GetContainerStatus ctx_background (ContainerID s) r1) as [[st|e2] r2]; simpl.
    + destruct (String.eqb st "running" && String.eqb (storage.Status s) "provisioning").
      * unfold bind, time_Now, tick. simpl.
        destruct (UpdateScenario _ _ _ _ _). by eexists.
      * destruct (String.eqb st "exited" || String.eqb st "stopped"); [|by eexists].
        unfold bind, time_Now, tick. simpl.
        destruct (UpdateScenario _ _ _ _ _). by eexists.
    + by eexists.
  - unfold bind, time_Now, tick. simpl.
    destruct (UpdateScenario _ _ _ _ _). by eexists.
  - by eexists.
Qed.

End StartErrors.

(** X19.  [StartScenarioREST] when every port of the range is taken: with
    a user and a type that are not blank and a daemon that answers, the
    handler answers 503 with code [PORT_UNAVAILABLE]; no container is
    created and no record is stored. *)
Theorem StartScenarioREST_port_exhausted (env : storage.Env) (ee : docker.EngineEnv)
    (m : scenario.Manager) (order : tree.map_order)
    (req : api_types.StartScenarioRequest) (w : storage.World docker.Engine) :
  TrimSpace (api_types.req_UserID req) <> EmptyString ->
  TrimSpace (api_types.req_ScenarioType req) <> EmptyString ->
  docker.engine_fails ee (docker.calls (storage.runtime w)) docker.NewClientWithOpts
    EmptyString = false ->
  (forall p, 3001 <= p < 3010 ->
             docker.port_free ee (S (docker.calls (storage.runtime w))) p = false) ->
  let out := api.StartScenarioREST
               (Scenario := Manager_ScenarioManager (Docker := docker.RealClient ee)
                              env m order) (Ok req) w in
  (out.1.1, code_of out.1) = (api.StatusServiceUnavailable, Some "PORT_UNAVAILABLE")
  /\ docker.containers (storage.runtime out.2) = docker.containers (storage.runtime w)
  /\ storage.collection out.2 = storage.collection w.
Proof.
  intros Hu Ht Hcli Hbusy out. subst out. unfold api.StartScenarioREST.
  apply String.eqb_neq in Hu as Hu', Ht as Ht'. rewrite Hu', Ht'.
  assert (api_types.req_UserID req <> EmptyString) as Hu2 by (by intros E; rewrite E in Hu).
  assert (api_types.req_ScenarioType req <> EmptyString) as Ht2
    by (by intros E; rewrite E in Ht).
  apply String.eqb_neq in Hu2, Ht2.
  cbn [api.StartScenario Manager_ScenarioManager].
  unfold scenario.StartScenario. rewrite Hu2, Ht2.
  unfold bind, scenario.on_docker. simpl.
  unfold docker.Real_StartScenarioContainer. run_real. rewrite Hcli, Ht2. run_real.
  destruct (findAvailablePort_loop_spec
              (docker.port_free ee (S (docker.calls (storage.runtime w)))) 10 3001)
    as (r & probed & Hl & _ & _ & Hres); [lia|simpl; lia|].
  unfold docker.findAvailablePort. rewrite Hl.
  destruct Hres as [(p & -> & Hp & Hfree & _)|(perr & -> & _)].
  { rewrite Hbusy in Hfree by done. done. }
  by simpl.
Qed.

Lemma StartScenarioREST_port_exhausted_witness :
  let ee := docker.mkEngineEnv (fun _ _ _ => false) (fun _ _ => false)
              (fun n => "c" +:+ pretty n) (fun _ => "running")
              (fun _ _ _ => (EmptyString, 0)) in
  let w := a_world [] [] in
  let out := api.StartScenarioREST
               (Scenario := Manager_ScenarioManager (Docker := docker.RealClient ee)
                              healthy_env a_manager tree.keys_order) (Ok a_request) w in
  (out.1.1, code_of out.1) = (api.StatusServiceUnavailable, Some "PORT_UNAVAILABLE")
  /\ docker.containers (storage.runtime out.2) = docker.containers (storage.runtime w)
  /\ storage.collection out.2 = storage.collection w.
Proof.
  intros ee w.
  apply (StartScenarioREST_port_exhausted healthy_env ee a_manager tree.keys_order
           a_request w); [by vm_compute|by vm_compute|reflexivity|].
  intros p _. reflexivity.
Defined.

(** X20.  [StartScenarioREST] never answers [INVALID_SCENARIO_TYPE] over
    the manager and the real client: a type that is blank is refused by the
    handler as [MISSING_SCENARIO_TYPE], and every other type, known or not,
    is taken by [StartScenarioContainer], so [ErrInvalidScenarioType] does
    not come back. *)
Theorem StartScenarioREST_never_invalid_type (env : storage.Env) (ee : docker.EngineEnv)
    (m : scenario.Manager) (order : tree.map_order)
    (bound : result api_types.StartScenarioRequest) (w : storage.World docker.Engine) :
  let resp := (api.StartScenarioREST
                 (Scenario := Manager_ScenarioManager (Docker := docker.RealClient ee)
                                env m order) bound w).1 in
  code_of resp <> Some "INVALID_SCENARIO_TYPE"
  /\ (forall req, bound = Ok req ->
        TrimSpace (api_types.req_UserID req) <> EmptyString ->
        TrimSpace (api_types.req_ScenarioType req) = EmptyString ->
        (resp.1, code_of resp) = (api.StatusBadRequest, Some "MISSING_SCENARIO_TYPE")).
Proof.
  intros resp. subst resp. unfold api.StartScenarioREST.
  destruct bound as [req|berr]; [|by split].
  destruct (String.eqb (TrimSpace (api_types.req_UserID req)) EmptyString) eqn:Eu.
  { split; [done|]. intros req' [= <-] Hu. by apply String.eqb_eq in Eu. }
  destruct (String.eqb (TrimSpace (api_types.req_ScenarioType req)) EmptyString) eqn:Et.
  { split; [done|]. by intros req' [= <-] _ _. }
  split.
  2:{ intros req' [= <-] _ Hty. apply String.eqb_neq in Et. done. }
  unfold bind. cbn [api.StartScenario Manager_ScenarioManager].
  pose proof (StartScenario_error_kinds env ee m ctx_background (Some req) w) as Hk.
  destruct (scenario.StartScenario env m ctx_background (Some req) w) as [[r|err] w1];
    [done|].
  rewrite (Hk w1 err eq_refl). simpl.
  by repeat destruct (errors_Is err _).
Qed.

(** X21.  [GetScenarioStatusREST] over the manager, for any client, on a
    store that answers: it is 200 for every id the store holds, whatever
    the runtime does or fails to do, and 404 with code [SCENARIO_NOT_FOUND]
    for every other id. *)
Theorem GetScenarioStatusREST_codes {R : Type} {Docker : docker.Client R}
    (env : storage.Env) (m : scenario.Manager) (order : tree.map_order)
    (sid : string) (w : storage.World R) :
  sid <> EmptyString ->
  scenario.DB m = storage.db_handle ->
  storage.store_fails env (storage.steps w) (storage.FindOne sid) = false ->
  let resp := (api.GetScenarioStatusREST
                 (Scenario := Manager_ScenarioManager env m order) sid w).1 in
  (sid ∈ storage.ScenarioID <$> storage.collection w ->
   resp.1 = api.StatusOK /\ code_of resp = None)
  /\ (sid ∉ storage.ScenarioID <$> storage.collection w ->
      (resp.1, code_of resp) = (api.StatusNotFound, Some "SCENARIO_NOT_FOUND")).
Proof.
  intros Hsid Hdb Hf resp. subst resp. unfold api.GetScenarioStatusREST.
  apply String.eqb_neq in Hsid as Hsid'. rewrite Hsid'.
  unfold bind. cbn [api.GetScenarioStatus Manager_ScenarioManager]. split.
  - intros Hin.
    destruct (storage.find_first sid (storage.collection w)) as [s|] eqn:Hfound.
    2:{ by apply find_first_None in Hfound. }
    destruct (GetScenarioStatus_found_Ok env m sid w (storage.tick w) s Hsid) as [r Hr].
    { rewrite Hdb. by apply GetScenario_found. }
    destruct (scenario.GetScenarioStatus env m ctx_background sid w) as [r' w1].
    simpl in Hr. by subst r'.
  - intros Hnot. apply find_first_None in Hnot.
    unfold scenario.GetScenarioStatus. rewrite Hsid', Hdb. unfold bind.
    unfold storage.GetScenario. rewrite Hsid'.
    unfold bind, storage.store_op, gets, ret. simpl. by rewrite Hf, Hnot.
Qed.

Lemma GetScenarioStatusREST_codes_witness :
  let w := a_world [] [a_scenario "scn-1" "c1" "running" 5] in
  let resp := (api.GetScenarioStatusREST
                 (Scenario := Manager_ScenarioManager
                                (Docker := docker.RealClient engine_no_inspect)
                                healthy_env a_manager tree.keys_order) "scn-1" w).1 in
  resp.1 = api.StatusOK /\ code_of resp = None.
Proof.
  intros w.
  apply (proj1 (GetScenarioStatusREST_codes (Docker := docker.RealClient engine_no_inspect)
                  healthy_env a_manager tree.keys_order "scn-1" w
                  ltac:(done) eq_refl eq_refl)).
  apply list_elem_of_here.
Defined.

(* ===================================================================== *)
(** * The cleanup worker: what the sweeps leave alone                      *)
(* ===================================================================== *)

Section SweepFacts.
Import storage docker.
Context (env : Env) (ee : EngineEnv).

Let cleanupScenario := cleanup.cleanupScenario (Docker := RealClient ee) env.
Let cleanup_each := cleanup.cleanup_each (Docker := RealClient ee) env.

(** [CleanupExpiredScenarios], with its query written out. *)
Lemma CleanupExpiredScenarios_eq (cm : cleanup.CleanupManager) (w : World Engine) :
  cleanup.CleanupExpiredScenarios (Docker := RealClient ee) env cm ctx_background w =
  let maxAge := if cleanup.MaxScenarioAge (cleanup.cfg cm) =? 0 then cleanup.hours 24
                else cleanup.MaxScenarioAge (cleanup.cfg cm) in
  let cutoffTime := clock env (steps w) - maxAge in
  let w1 := mkWorld (runtime w) (collection w) (S (S (steps w))) in
  if store_fails env (S (steps w)) FindExpired
  then ((Some (Errorf_w "failed to find expired scenarios: %w"
                 (Errorf_w "failed to query expired scenarios: %w" (ErrText "Find"))),
         []), w1)
  else
    ((None,
      (cleanup_each ctx_background
         (filter (fun d => cleanup.expired cutoffTime d = true) (collection w)) w1).1),
     (cleanup_each ctx_background
        (filter (fun d => cleanup.expired cutoffTime d = true) (collection w)) w1).2).
Proof.
  unfold cleanup.CleanupExpiredScenarios. cbv zeta.
  unfold bind at 1. unfold cleanup.findExpiredScenarios.
  unfold bind, time_Now, store_op, gets, ret, tick. simpl.
  destruct (store_fails env (S (steps w)) FindExpired); [done|].
  unfold cleanup_each.
  by destruct (cleanup.cleanup_each env ctx_background _ _).
Qed.

(** What one [cleanupScenario] leaves alone, whatever fails: the ids of
    the collection, the records of every other id, and every other
    container. *)
Lemma cleanupScenario_others (s0 : Scenario) (w : World Engine) :
  ScenarioID <$> collection (cleanupScenario ctx_background s0 w).2
  = ScenarioID <$> collection w
  /\ (forall sid, sid <> ScenarioID s0 ->
        find_first sid (collection (cleanupScenario ctx_background s0 w).2)
        = find_first sid (collection w))
  /\ (forall k, k <> ContainerID s0 ->
        containers (runtime (cleanupScenario ctx_background s0 w).2) !! k
        = containers (runtime w) !! k).
Proof.
  destruct (stop_and_remove_world ee s0 w) as (e' & Hw & [Ht _]).
  unfold cleanupScenario.
  destruct (decide (ScenarioID s0 = EmptyString)) as [He|Hne].
  { destruct (cleanupScenario_no_id env ee s0 w He) as (err & ->). rewrite Hw. simpl.
    by repeat split. }
  rewrite cleanupScenario_eq by done. rewrite Hw. simpl.
  destruct (store_fails env (S (S (steps w))) (UpdateOne (ScenarioID s0))); simpl;
    [by repeat split|].
  split; [by rewrite update_first_ids|]. split; [|done].
  intros sid Hsid. by rewrite find_first_update_first_ne.
Qed.

Lemma cleanup_each_others (l : list Scenario) (w : World Engine) :
  ScenarioID <$> collection (cleanup_each ctx_background l w).2
  = ScenarioID <$> collection w
  /\ (forall sid, sid ∉ ScenarioID <$> l ->
        find_first sid (collection (cleanup_each ctx_background l w).2)
        = find_first sid (collection w))
  /\ (forall k, k ∉ ContainerID <$> l ->
        containers (runtime (cleanup_each ctx_background l w).2) !! k
        = containers (runtime w) !! k).
Proof.
  revert w. induction l as [|s0 l IH]; intros w; [done|].
  unfold cleanup_each. rewrite cleanup_each_cons by exact ee. simpl snd.
  fold cleanup_each. fold cleanupScenario.
  destruct (IH (cleanupScenario ctx_background s0 w).2) as (I1 & I2 & I3).
  destruct (cleanupScenario_others s0 w) as (O1 & O2 & O3).
  split; [by rewrite I1|]. split.
  - intros sid Hsid. rewrite fmap_cons, not_elem_of_cons in Hsid.
    destruct Hsid as [Hne Hnot]. by rewrite I2, O2.
  - intros k Hk. rewrite fmap_cons, not_elem_of_cons in Hk.
    destruct Hk as [Hne Hnot]. by rewrite I3, O3.
Qed.

End SweepFacts.

(** X22.  What the sweep of expired scenarios leaves alone, whatever
    fails in it: no record is added or deleted (the ids of the collection
    stay the same); a record whose id is not the id of a record the filter
    matches reads exactly as before; and a container that no matched record
    names is exactly as before. *)
Theorem CleanupExpiredScenarios_leaves_others (env : storage.Env)
    (ee : docker.EngineEnv) (cm : cleanup.CleanupManager)
    (w : storage.World docker.Engine) :
  let maxAge := if cleanup.MaxScenarioAge (cleanup.cfg cm) =? 0 then cleanup.hours 24
                else cleanup.MaxScenarioAge (cleanup.cfg cm) in
  let cutoffTime := storage.clock env (storage.steps w) - maxAge in
  let out := cleanup.CleanupExpiredScenarios (Docker := docker.RealClient ee) env cm
               ctx_background w in
  storage.ScenarioID <$> storage.collection out.2
  = storage.ScenarioID <$> storage.collection w
  /\ (forall sid,
        (forall r, r ∈ storage.collection w -> cleanup.expired cutoffTime r = true ->
                   storage.ScenarioID r <> sid) ->
        storage.find_first sid (storage.collection out.2)
        = storage.find_first sid (storage.collection w))
  /\ (forall k,
        (forall r, r ∈ storage.collection w -> cleanup.expired cutoffTime r = true ->
                   storage.ContainerID r <> k) ->
        docker.containers (storage.runtime out.2) !! k
        = docker.containers (storage.runtime w) !! k).
Proof.
  intros maxAge cutoffTime out. subst out.
  rewrite CleanupExpiredScenarios_eq. cbv zeta. fold maxAge. fold cutoffTime.
  destruct (storage.store_fails env (S (storage.steps w)) storage.FindExpired); [done|].
  simpl snd.
  set (l := filter (fun d => cleanup.expired cutoffTime d = true) (storage.collection w)).
  destruct (cleanup_each_others env ee l
              (storage.mkWorld (storage.runtime w) (storage.collection w)
                 (S (S (storage.steps w))))) as (O1 & O2 & O3).
  split; [done|]. split.
  - intros sid Hsid. rewrite O2; [done|].
    intros (r & -> & Hr)%list_elem_of_fmap. apply list_elem_of_filter in Hr as [He Hr].
    by apply (Hsid r).
  - intros k Hk. rewrite O3; [done|].
    intros (r & -> & Hr)%list_elem_of_fmap. apply list_elem_of_filter in Hr as [He Hr].
    by apply (Hk r).
Qed.

Section SweepTwice.
Import storage docker.
Context (env : Env) (ee : EngineEnv) (cm : cleanup.CleanupManager).

(** With unique ids, the record found under the id of a stored record is
    that record. *)
Lemma find_first_NoDup (docs : list Scenario) (d : Scenario) :
  NoDup (ScenarioID <$> docs) -> d ∈ docs -> find_first (ScenarioID d) docs = Some d.
Proof.
  induction docs as [|d0 docs IH]; intros Hnd Hd; [by apply elem_of_nil in Hd|].
  rewrite fmap_cons in Hnd. apply NoDup_cons in Hnd as [Hnot Hnd]. simpl.
  apply elem_of_cons in Hd as [->|Hd].
  - by destruct (decide _).
  - destruct (decide (ScenarioID d0 = ScenarioID d)) as [Heq|_]; [|by apply IH].
    exfalso. apply Hnot. rewrite Heq. apply list_elem_of_fmap. eauto.
Qed.

(** Every id in the log of a sweep has been marked, when it is not empty
    and the store accepts the updates. *)
Lemma sweep_log_cleaned (w : World Engine) (sid : string) :
  (forall t k, store_fails env t (UpdateOne k) = false) ->
  sid <> EmptyString ->
  sid ∈ (cleanup.CleanupExpiredScenarios (Docker := RealClient ee) env cm
           ctx_background w).1.2.*1 ->
  persisted_status (cleanup.CleanupExpiredScenarios (Docker := RealClient ee) env cm
                      ctx_background w).2 sid = Some "cleaned_up".
Proof.
  intros Hup Hne. rewrite CleanupExpiredScenarios_eq. cbv zeta.
  destruct (store_fails env (S (steps w)) FindExpired).
  { simpl. by intros ?%elem_of_nil. }
  cbn [fst snd].
  set (l := filter _ (collection w)).
  set (w1 := mkWorld (runtime w) (collection w) (S (S (steps w)))).
  pose proof (cleanup_each_keeps env ee l w1) as (K1 & _).
  rewrite K1. intros (r & -> & Hr)%list_elem_of_fmap.
  apply (cleanup_each_cleans env ee l w1 r Hr); [|done|by intros].
  apply find_first_is_Some. exists r.
  apply list_elem_of_filter in Hr as [_ Hr]. by split.
Qed.

(** The ids in the log are ids of stored records the filter of the sweep
    matches; a record marked [cleaned_up] is matched by no filter. *)
Lemma sweep_log_matched (w : World Engine) (sid : string) :
  sid ∈ (cleanup.CleanupExpiredScenarios (Docker := RealClient ee) env cm
           ctx_background w).1.2.*1 ->
  exists r, r ∈ collection w /\ ScenarioID r = sid
            /\ (storage.Status r = "running" \/ storage.Status r = "provisioning").
Proof.
  rewrite CleanupExpiredScenarios_eq. cbv zeta.
  destruct (store_fails env (S (steps w)) FindExpired).
  { simpl. by intros ?%elem_of_nil. }
  cbn [fst snd].
  set (l := filter _ (collection w)).
  set (w1 := mkWorld (runtime w) (collection w) (S (S (steps w)))).
  pose proof (cleanup_each_keeps env ee l w1) as (K1 & _).
  rewrite K1. intros (r & -> & Hr)%list_elem_of_fmap.
  apply list_elem_of_filter in Hr as [He Hr]. exists r. split; [done|]. split; [done|].
  unfold cleanup.expired in He. apply andb_prop in He as [_ He].
  apply orb_prop in He as [He|He]; apply String.eqb_eq in He; auto.
Qed.

Lemma sweep_ids (w : World Engine) :
  ScenarioID <$> collection (cleanup.CleanupExpiredScenarios (Docker := RealClient ee) env cm
                               ctx_background w).2
  = ScenarioID <$> collection w.
Proof.
  rewrite CleanupExpiredScenarios_eq. cbv zeta.
  destruct (store_fails env (S (steps w)) FindExpired); [done|]. simpl snd.
  by destruct (cleanup_each_others env ee
                 (filter (fun d => cleanup.expired
                            (clock env (steps w)
                             - (if cleanup.MaxScenarioAge (cleanup.cfg cm) =? 0
                                then cleanup.hours 24
                                else cleanup.MaxScenarioAge (cleanup.cfg cm))) d = true)
                    (collection w))
                 (mkWorld (runtime w) (collection w) (S (S (steps w))))) as (-> & _).
Qed.

End SweepTwice.

(** X23.  A scenario the sweep has worked on is not picked up again.  When
    scenario ids are unique and not empty (the unique index of the
    collection) and the store accepts the updates, no id in the log of one
    sweep appears in the log of the sweep that follows it, whatever the
    clock and the engine do: the record carries [cleaned_up], which the
    filter of [findExpiredScenarios] does not match. *)
Theorem CleanupExpiredScenarios_not_again (env : storage.Env) (ee : docker.EngineEnv)
    (cm : cleanup.CleanupManager) (w : storage.World docker.Engine) :
  NoDup (storage.ScenarioID <$> storage.collection w) ->
  EmptyString ∉ storage.ScenarioID <$> storage.collection w ->
  (forall t k, storage.store_fails env t (storage.UpdateOne k) = false) ->
  let first := cleanup.CleanupExpiredScenarios (Docker := docker.RealClient ee) env cm
                 ctx_background w in
  let second := cleanup.CleanupExpiredScenarios (Docker := docker.RealClient ee) env cm
                  ctx_background first.2 in
  forall sid, sid ∈ first.1.2.*1 -> sid ∉ second.1.2.*1.
Proof.
  intros Hnd Hempty Hup first second sid H1 H2. subst second.
  destruct (sweep_log_matched env ee cm w sid H1) as (r & Hr & Hid & _).
  assert (sid <> EmptyString) as Hne.
  { intros ->. apply Hempty. apply list_elem_of_fmap. eauto. }
  pose proof (sweep_log_cleaned env ee cm w sid Hup Hne H1) as Hc. fold first in Hc.
  destruct (sweep_log_matched env ee cm _ sid H2) as (r' & Hr' & Hid' & Hst).
  pose proof (sweep_ids env ee cm w) as Hids. fold first in Hids.
  rewrite <- Hids in Hnd.
  pose proof (find_first_NoDup _ r' Hnd Hr') as Hf. rewrite Hid' in Hf.
  unfold storage.persisted_status in Hc. rewrite Hf in Hc. simpl in Hc.
  destruct Hst as [Hst|Hst]; rewrite Hst in Hc; discriminate.
Qed.

Lemma CleanupExpiredScenarios_not_again_witness :
  let w := a_world [("c1", a_container "running" (Some ttyd_ports))]
             [a_scenario "scn-1" "c1" "running" 5;
              a_scenario "scn-2" "c2" "stopped" 5] in
  let first := cleanup.CleanupExpiredScenarios (Docker := docker.RealClient healthy_engine)
                 healthy_env a_cleanup_manager ctx_background w in
  let second := cleanup.CleanupExpiredScenarios (Docker := docker.RealClient healthy_engine)
                  healthy_env a_cleanup_manager ctx_background first.2 in
  first.1.2.*1 = ["scn-1"] /\ "scn-1" ∉ second.1.2.*1.
Proof.
  split; [reflexivity|].
  apply (CleanupExpiredScenarios_not_again healthy_env healthy_engine a_cleanup_manager).
  - apply (bool_decide_unpack _). by vm_compute.
  - apply (bool_decide_unpack _). by vm_compute.
  - reflexivity.
  - apply (bool_decide_unpack _). by vm_compute.
Defined.

Section OrphanSweepStore.
Import storage docker.
Context (env : Env) (ee : EngineEnv).

Lemma orphans_each_collection (scenarioContainers : gmap string bool)
    (cs : list ContainerInfo) (w : World Engine) :
  collection (cleanup.orphans_each (Docker := RealClient ee) ctx_background
                scenarioContainers cs w).2
  = collection w.
Proof.
  revert w. induction cs as [|c cs IH]; intros w; [done|].
  pose proof (orphans_each_cons ee scenarioContainers c cs w) as Hc.
  destruct (cleanup.isScenarioContainer (ID c) scenarioContainers).
  - by rewrite Hc.
  - destruct Hc as (outcome & ->). simpl snd. rewrite IH.
    unfold after_orphan. by destruct (Real_StopContainer _ _ _ _).1.
Qed.

(** The sweep of orphaned containers only reads the store. *)
Lemma CleanupOrphanedContainers_collection (w : World Engine) :
  collection (cleanup.CleanupOrphanedContainers (Docker := RealClient ee) env
                ctx_background w).2
  = collection w.
Proof.
  rewrite CleanupOrphanedContainers_eq. cbv zeta.
  destruct (Real_ListContainers ee ctx_background (runtime w)).1; [|done].
  destruct (store_fails env (steps w) FindWithContainer); [done|].
  simpl snd. by rewrite orphans_each_collection.
Qed.

End OrphanSweepStore.

(** X24.  One cycle of the periodic cleanup (both sweeps, their errors
    only logged) neither adds nor deletes a scenario record, and the record
    read under an id is exactly as before unless some stored record with
    that id has status [running] or [provisioning]: a stopped, failed or
    already cleaned-up scenario is never rewritten by the worker, whatever
    the store, the clock and the engine do. *)
Theorem cleanup_cycle_store (env : storage.Env) (ee : docker.EngineEnv)
    (cm : cleanup.CleanupManager) (w : storage.World docker.Engine) :
  let w' := (cleanup.cleanup_cycle (Docker := docker.RealClient ee) env cm
               ctx_background w).2 in
  storage.ScenarioID <$> storage.collection w'
  = storage.ScenarioID <$> storage.collection w
  /\ forall sid,
       (forall r, r ∈ storage.collection w -> storage.ScenarioID r = sid ->
                  storage.Status r <> "running" /\ storage.Status r <> "provisioning") ->
       storage.find_first sid (storage.collection w')
       = storage.find_first sid (storage.collection w).
Proof.
  intros w'.
  assert (storage.collection w'
          = storage.collection
              (cleanup.CleanupExpiredScenarios (Docker := docker.RealClient ee) env cm
                 ctx_background w).2) as ->.
  { subst w'. unfold cleanup.cleanup_cycle. unfold bind at 1.
    destruct (cleanup.CleanupExpiredScenarios env cm ctx_background w) as [r1 w1].
    unfold bind at 1.
    pose proof (CleanupOrphanedContainers_collection env ee w1) as Ho.
    destruct (cleanup.CleanupOrphanedContainers env ctx_background w1) as [r2 w2].
    exact Ho. }
  split; [apply sweep_ids|].
  intros sid Hsid.
  rewrite CleanupExpiredScenarios_eq. cbv zeta.
  destruct (storage.store_fails env (S (storage.steps w)) storage.FindExpired); [done|].
  simpl snd.
  match goal with
  | |- context [cleanup.cleanup_each _ _ ?l ?w1] =>
      destruct (cleanup_each_others env ee l w1) as (_ & O2 & _)
  end.
  rewrite O2; [done|].
  intros (r & -> & Hr)%list_elem_of_fmap. apply list_elem_of_filter in Hr as [He Hr].
  destruct (Hsid r Hr eq_refl) as [H1 H2].
  unfold cleanup.expired in He. apply andb_prop in He as [_ He].
  apply orb_prop in He as [He|He]; apply String.eqb_eq in He; auto.
Qed.

(* ===================================================================== *)
(** * The metadata store: listing                                          *)
(* ===================================================================== *)

(** X25.  Store, then list: after a [StoreScenario] that returns no error,
    [ListScenarios] for the user of the new record, and for the empty user
    id (no filter), returns the documents it returned before and the new
    one, with its instants in whole milliseconds; for any other user it
    returns the documents it returned before.  The order is the server's:
    the two listings are compared up to a permutation. *)
Theorem ListScenarios_after_StoreScenario {R : Type} (env : storage.Env)
    (more : storage_more.MoreEnv) (s : storage.Scenario) (userID : string)
    (w w1 : storage.World R) :
  (forall t, storage_more.find_fails more t userID = false) ->
  (forall t, storage_more.decode_fails more t userID = false) ->
  (forall t docs, storage_more.find_order more t docs ≡ₚ docs) ->
  storage.StoreScenario env ctx_background storage.db_handle (Some s) w = (None, w1) ->
  exists before after,
    (storage_more.ListScenarios more ctx_background storage.db_handle userID w).1
    = Ok before
    /\ (storage_more.ListScenarios more ctx_background storage.db_handle userID w1).1
       = Ok after
    /\ after ≡ₚ before
                ++ if bool_decide (userID = EmptyString \/ storage.UserID s = userID)
                   then [storage.to_document s] else [].
Proof.
  intros Hfind Hdec Horder Hstore.
  apply StoreScenario_None in Hstore as (s0 & [= <-] & _ & _ & ->).
  unfold storage_more.ListScenarios. rewrite !Hfind, !Hdec. simpl.
  eexists _, _. split; [reflexivity|]. split; [reflexivity|].
  rewrite !Horder.
  destruct (String.eqb userID EmptyString) eqn:Eu.
  - apply String.eqb_eq in Eu. by rewrite bool_decide_eq_true_2 by auto.
  - apply String.eqb_neq in Eu. rewrite filter_app.
    destruct (decide (storage.UserID s = userID)) as [Hu|Hu].
    + rewrite bool_decide_eq_true_2 by auto. by rewrite filter_cons_True.
    + rewrite bool_decide_eq_false_2 by tauto. by rewrite filter_cons_False.
Qed.

Lemma ListScenarios_after_StoreScenario_witness :
  let more := storage_more.mkMoreEnv (fun _ _ => false) (fun _ _ => false)
                (fun _ _ => false) (fun _ docs => rev docs) in
  let s := storage.mkScenario "scn-3" "alice" "go" "c3" "running" 3003
             1700000000123456789 1700000000123456789 in
  let w := a_world [] [storage.mkScenario "scn-1" "alice" "go" "c1" "running" 3001 5 5;
                       storage.mkScenario "scn-2" "bob" "go" "c2" "running" 3002 7 7] in
  let w1 := (storage.StoreScenario healthy_env ctx_background storage.db_handle
               (Some s) w).2 in
  exists before after,
    (storage_more.ListScenarios more ctx_background storage.db_handle "alice" w).1
    = Ok before
    /\ (storage_more.ListScenarios more ctx_background storage.db_handle "alice" w1).1
       = Ok after
    /\ after ≡ₚ before ++ [storage.mkScenario "scn-3" "alice" "go" "c3" "running" 3003
                              1700000000123000000 1700000000123000000].
Proof.
  intros more s w w1.
  destruct (ListScenarios_after_StoreScenario healthy_env more s "alice" w w1)
    as (before & after & H1 & H2 & H3); [done|done| |reflexivity|].
  - intros t docs. simpl. symmetry. apply Permutation_rev.
  - exists before, after. split; [exact H1|]. split; [exact H2|exact H3].
Defined.

(* ===================================================================== *)
(** * The directory tree builder: paths and lines                          *)
(* ===================================================================== *)

Section PathFacts.
Import types tree.

Lemma prefix_app (pre p q : string) :
  String.prefix pre p = true -> String.prefix pre (p +:+ q) = true.
Proof.
  revert pre. induction p as [|b p IH]; intros pre.
  - destruct pre; [|done]. by destruct q.
  - destruct pre as [|a pre]; [done|]. simpl.
    destruct (ascii_dec a b); [apply IH|done].
Qed.

Lemma upto_last_slash_no_slash (x : string) :
  no_slash x = true -> upto_last_slash x = EmptyString.
Proof.
  induction x as [|c x IH]; [done|]. simpl.
  intros [Hc Hx]%andb_prop. rewrite (IH Hx). simpl.
  apply negb_true_iff in Hc. by rewrite Hc.
Qed.

Lemma upto_last_slash_app (s x : string) :
  no_slash x = true -> upto_last_slash (s +:+ String slash x) = s +:+ String slash EmptyString.
Proof.
  intros Hx. induction s as [|c s IH].
  - rewrite !sapp_nil. simpl. by rewrite (upto_last_slash_no_slash x Hx).
  - rewrite !sapp_cons. simpl. rewrite IH.
    replace (String.eqb (s +:+ String slash EmptyString) EmptyString) with false.
    + by rewrite orb_true_r.
    + symmetry. apply String.eqb_neq. by destruct s.
Qed.

Lemma SplitByte_no_slash (x : string) :
  no_slash x = true -> SplitByte slash x = [x].
Proof.
  induction x as [|c x IH]; [done|]. simpl.
  intros [Hc Hx]%andb_prop. apply negb_true_iff in Hc. by rewrite Hc, (IH Hx).
Qed.

Lemma plain_no_slash (el : string) : plain_element el = true -> no_slash el = true.
Proof. unfold plain_element. by intros [_ H]%andb_prop. Qed.

Lemma Join_cons (x y : string) (l : list string) :
  Join (x :: y :: l) "/" = x +:+ String slash (Join (y :: l) "/").
Proof. done. Qed.

Lemma Join_snoc (els : list string) (x : string) :
  els <> [] -> Join (els ++ [x]) "/" = Join els "/" +:+ String slash x.
Proof.
  induction els as [|e els IH]; [done|]. intros _.
  destruct els as [|e' els]; [done|].
  change ((e :: e' :: els) ++ [x]) with (e :: e' :: (els ++ [x])).
  rewrite !Join_cons. change (e' :: els ++ [x]) with ((e' :: els) ++ [x]).
  rewrite IH by done. by rewrite sapp_assoc.
Qed.

Lemma SplitByte_Join (els : list string) :
  els <> [] -> Forall (fun el => plain_element el = true) els ->
  SplitByte slash (Join els "/") = els.
Proof.
  induction els as [|e els IH]; [done|]. intros _ Hall.
  apply Forall_cons in Hall as [He Hall].
  destruct els as [|e' els]; [by apply SplitByte_no_slash, plain_no_slash|].
  rewrite Join_cons, SplitByte_app_sep, IH by done.
  by rewrite SplitByte_no_slash by by apply plain_no_slash.
Qed.

Lemma clean_step_plain (rooted : bool) (stack : list string) (el : string) :
  plain_element el = true -> clean_step rooted stack el = el :: stack.
Proof.
  unfold plain_element, clean_step.
  intros [[[H1 H2]%andb_prop H3]%andb_prop _]%andb_prop.
  apply negb_true_iff in H1, H2, H3. by rewrite H1, H2, H3.
Qed.

Lemma fold_clean_step_plain (rooted : bool) (els stack : list string) :
  Forall (fun el => plain_element el = true) els ->
  fold_left (clean_step rooted) els stack = rev els ++ stack.
Proof.
  revert stack. induction els as [|e els IH]; intros stack Hall; [done|].
  apply Forall_cons in Hall as [He Hall]. simpl.
  rewrite clean_step_plain, IH by done. by rewrite <- app_assoc.
Qed.

(** [filepath.Clean] of a normal absolute path followed by a separator is
    the path. *)
Lemma Clean_path_of_slash (els : list string) :
  els <> [] -> Forall (fun el => plain_element el = true) els ->
  Clean (path_of els +:+ "/") = path_of els.
Proof.
  intros Hne Hall. unfold Clean, path_of.
  replace (HasPrefix (("/" +:+ Join els "/") +:+ "/") "/") with true
    by (unfold HasPrefix; simpl; by destruct (Join els "/")).
  cbv zeta.
  change (("/" +:+ Join els "/") +:+ "/")
    with (EmptyString +:+ String slash (Join els "/" +:+ String slash EmptyString)).
  rewrite !SplitByte_app_sep, SplitByte_Join by done.
  change (SplitByte slash EmptyString) with [EmptyString].
  change ([EmptyString] ++ els ++ [EmptyString]) with (EmptyString :: (els ++ [EmptyString])).
  simpl fold_left. rewrite fold_left_app. simpl fold_left.
  rewrite fold_clean_step_plain by done.
  change (clean_step true [] EmptyString) with (@nil string).
  change (clean_step true (rev els ++ []) EmptyString) with (rev els ++ []).
  by rewrite app_nil_r, rev_involutive.
Qed.

End PathFacts.

(** X26.  [shouldSkipPath] is closed under extension: when a path is
    skipped, every path that continues it is skipped as well.  So no node
    the builder returns lies below a skipped path: no beginning of the path
    of a returned node is skipped. *)
Theorem shouldSkipPath_extension :
  (forall path rest,
     tree.shouldSkipPath path = true -> tree.shouldSkipPath (path +:+ rest) = true)
  /\ (forall order output n above rest,
        n ∈ (tree.parseDirectoryStructure order output).1 ->
        types.Path n = above +:+ rest ->
        tree.shouldSkipPath above = false).
Proof.
  assert (forall path rest,
            tree.shouldSkipPath path = true -> tree.shouldSkipPath (path +:+ rest) = true)
    as Hext.
  { intros path rest. unfold tree.shouldSkipPath. rewrite !existsb_exists.
    intros (pattern & Hin & Hp). exists pattern. split; [done|]. by apply prefix_app. }
  split; [exact Hext|].
  intros order output n above rest Hn Hpath.
  destruct (parseDirectoryStructure_total order output) as [_ Hall].
  destruct (Hall n Hn) as (line & ty & _ & _ & _ & Hskip).
  destruct (tree.shouldSkipPath above) eqn:Ea; [|done].
  by rewrite Hpath, (Hext above rest Ea) in Hskip.
Qed.

Lemma shouldSkipPath_extension_witness :
  tree.shouldSkipPath "/home/devlab/.cache" = true
  /\ tree.shouldSkipPath ("/home/devlab/.cache" +:+ "/pip/http/index") = true.
Proof.
  split; [reflexivity|].
  apply (proj1 shouldSkipPath_extension "/home/devlab/.cache" "/pip/http/index").
  reflexivity.
Defined.

(** X27.  The builder works line by line and keeps no state between the
    lines: the nodes of two texts joined by a newline are the nodes of the
    first followed by the nodes of the second, for every order of the map
    iteration. *)
Theorem parseDirectoryStructure_newline (order : tree.map_order) (first second : string) :
  (tree.parseDirectoryStructure order (first +:+ String newline second)).1
  = (tree.parseDirectoryStructure order first).1
    ++ (tree.parseDirectoryStructure order second).1.
Proof.
  rewrite !parseDirectoryStructure_eq. simpl fst.
  rewrite SplitByte_app_sep, fmap_app. apply omap_app.
Qed.

(** X28.  [getParentPath] on a normal absolute path (elements that are not
    empty, not dot or dot-dot, and hold no separator): the parent of the
    path with the elements [els] followed by [name] is the path with the
    elements [els]; the parent of a path with one element is the root of
    the file system. *)
Theorem getParentPath_normal (els : list string) (name : string) :
  Forall (fun el => plain_element el = true) els ->
  plain_element name = true ->
  tree.getParentPath (path_of (els ++ [name])) = path_of els.
Proof.
  intros Hall Hname. pose proof (plain_no_slash name Hname) as Hns.
  unfold tree.getParentPath, Dir.
  destruct (decide (els = [])) as [->|Hne].
  - unfold path_of. simpl app. simpl Join.
    change ("/" +:+ name) with (EmptyString +:+ String slash name).
    rewrite upto_last_slash_app by done. reflexivity.
  - unfold path_of at 1 2. rewrite Join_snoc by done.
    change ("/" +:+ (Join els "/" +:+ String slash name))
      with (("/" +:+ Join els "/") +:+ String slash name).
    rewrite upto_last_slash_app by done.
    change (("/" +:+ Join els "/") +:+ String slash EmptyString)
      with (path_of els +:+ "/").
    rewrite Clean_path_of_slash by done. reflexivity.
Qed.

Lemma getParentPath_normal_witness :
  tree.getParentPath "/home/devlab/src/main.go" = "/home/devlab/src".
Proof.
  apply (getParentPath_normal ["home"; "devlab"; "src"] "main.go").
  - repeat constructor.
  - reflexivity.
Defined.

(* ===================================================================== *)
(** * The directory route                                                  *)
(* ===================================================================== *)

(** X29.  [GetDirectoryStructureREST] over the manager, for any client: it
    answers 400 exactly for the empty id, and it never answers 404.  For an
    id the store does not hold (on a store that answers) the answer is 500,
    with the text of an error that is [ErrScenarioNotFound], where the
    status route answers 404. *)
Theorem GetDirectoryStructureREST_codes {R : Type} {Docker : docker.Client R}
    (env : storage.Env) (m : scenario.Manager) (order : tree.map_order)
    (sid : string) (w : storage.World R) :
  let resp := (api.GetDirectoryStructureREST
                 (Scenario := Manager_ScenarioManager env m order) sid w).1 in
  resp.1 <> api.StatusNotFound
  /\ (resp.1 = api.StatusBadRequest <-> sid = EmptyString)
  /\ (sid <> EmptyString ->
      scenario.DB m = storage.db_handle ->
      storage.store_fails env (storage.steps w) (storage.FindOne sid) = false ->
      sid ∉ storage.ScenarioID <$> storage.collection w ->
      exists err, resp = (api.StatusInternalServerError, api.json_H_error (api.Error_of err))
                  /\ errors_Is err scenario_ErrScenarioNotFound = true).
Proof.
  intros resp. subst resp. unfold api.GetDirectoryStructureREST.
  destruct (String.eqb sid EmptyString) eqn:Hsid.
  { apply String.eqb_eq in Hsid. simpl. split; [done|]. split; [done|]. done. }
  apply String.eqb_neq in Hsid as Hne.
  unfold bind. cbn [api.GetDirectoryStructure Manager_ScenarioManager].
  split; [|split].
  - by destruct (scenario.GetDirectoryStructure env m order ctx_background sid w) as [[?|?] ?].
  - by destruct (scenario.GetDirectoryStructure env m order ctx_background sid w) as [[?|?] ?].
  - intros _ Hdb Hf Hnot. apply find_first_None in Hnot.
    unfold scenario.GetDirectoryStructure. rewrite Hsid, Hdb. unfold bind.
    unfold storage.GetScenario. rewrite Hsid.
    unfold bind, storage.store_op, gets, ret. simpl. rewrite Hf, Hnot. simpl.
    by eexists.
Qed.
